(** * Flight-delay insurance ledger: a shallow embedding of the two
    Solidity revisions of [FlightInsurance] and the properties of the
    subscription / registration / payout state machine.

    - [Base] embeds [src/contracts/FlightInsurance.sol].
    - [Rev]  embeds [src/unnamed/part_002] (the revision with [notOracle],
      [allUsersWithFlights] and the read queries).

    Conventions of the embedding:
    - [uint256] and [address] values are [N]; Solidity 0.8 checked
      arithmetic is written out ([checked_add] reverts on overflow).
    - a [mapping] is a [gmap] read with the Solidity default value.
    - a transaction either commits or reverts: every operation returns a
      [result]; [transact] keeps the pre-state on [Revert].
    - [payable(x).transfer(v)] reverts when the contract balance is below
      [v]; recipients are taken to be externally owned accounts, so a
      funded transfer always succeeds.  [Base.updateFlightStatusTo] and
      [Rev.updateFlightStatusTo] are the reports without that assumption:
      there a recipient may be a contract that refuses the ether.
      Outgoing transfers are returned as a log, in the order they are
      made.
    - gas is not metered: a call is taken to be given the gas it needs.
    - [keccak256(bytes(a)) == keccak256(bytes(b))] is string equality.
    - events ([DebugTimestamps]) carry no state and are left out. *)

From Stdlib Require Import NArith Lia List Bool String.
From stdpp Require Import base gmap strings list fin_maps.

Local Open Scope N_scope.

(** ** Machine integers and constants *)

Definition MAX_UINT256 : N := 2 ^ 256 - 1.

Definition ether : N := 10 ^ 18.
Definition hours : N := 3600.
Definition days : N := 86400.

Definition PREMIUM : N := ether / 10.
Definition PAYOUT : N := 1 * ether.
Definition DELAY_THRESHOLD : N := 2 * hours.
Definition SUBSCRIPTION_DURATION : N := 30 * days.

(** ** Reverts *)

(** One constructor per way a call can revert.  The [require] messages of
    the source map to the error kinds as follows:
    "Only insurer/owner/oracle can call this function" is [Unauthorized],
    "Oracle cannot perform this action" is [OracleNotAllowed],
    "Invalid oracle address" is [InvalidAddress],
    "Must deposit some ETH" is [InvalidAmount],
    "Premium must be 0.1 ETH" is [WrongPremium],
    "Already subscribed" is [AlreadySubscribed],
    "No active subscription" is [NoActiveSubscription],
    "Subscription expired" is [SubscriptionExpired],
    "Flight already registered" is [DuplicateFlight];
    a [transfer] that fails for lack of funds is [InsufficientPool], one
    that the recipient refuses is [TransferRefused], and an overflowing
    checked addition (Panic 0x11) is [ArithmeticOverflow]. *)
Inductive Error : Set :=
| Unauthorized
| OracleNotAllowed
| InvalidAddress
| InvalidAmount
| WrongPremium
| AlreadySubscribed
| NoActiveSubscription
| SubscriptionExpired
| DuplicateFlight
| InsufficientPool
| TransferRefused
| ArithmeticOverflow.

Inductive result (A : Type) : Type :=
| Ok (a : A)
| Revert (e : Error).

Arguments Ok {A} a.
Arguments Revert {A} e.

Definition bind {A B : Type} (m : result A) (k : A -> result B) : result B :=
  match m with
  | Ok a => k a
  | Revert e => Revert e
  end.

Notation "'let*' x ':=' m 'in' k" := (bind m (fun x => k))
  (at level 10, x pattern, m at level 100, k at level 200).

Definition require (b : bool) (e : Error) : result unit :=
  if b then Ok tt else Revert e.

Definition checked_add (a b : N) : result N :=
  if a + b <=? MAX_UINT256 then Ok (a + b) else Revert ArithmeticOverflow.

Definition is_ok {A : Type} (r : result A) : bool :=
  match r with Ok _ => true | Revert _ => false end.

(** ** Data model shared by both revisions *)

Record Policy : Type := mkPolicy {
  flightID : string;
  flightTimestamp : N;
  hasPaidOut : bool
}.

Record Subscription : Type := mkSubscription {
  isActive : bool;
  startTime : N;
  policies : list Policy
}.

(** The value a [mapping(address => Subscription)] holds at a key that
    was never written. *)
Definition emptySubscription : Subscription :=
  {| isActive := false; startTime := 0; policies := [] |}.

(** An outgoing [transfer]: recipient and amount. *)
Definition Transfer : Type := N * N.

Definition markPaid (p : Policy) : Policy :=
  {| flightID := flightID p; flightTimestamp := flightTimestamp p;
     hasPaidOut := true |}.

Definition deactivate (sub : Subscription) : Subscription :=
  {| isActive := false; startTime := startTime sub;
     policies := policies sub |}.

Definition withPolicies (sub : Subscription) (ps : list Policy) : Subscription :=
  {| isActive := isActive sub; startTime := startTime sub; policies := ps |}.

(** The loop of [registerFlight] that rejects an id already present:
    one [require] per stored policy, in order. *)
Fixpoint requireUnregistered (fid : string) (ps : list Policy) : result unit :=
  match ps with
  | [] => Ok tt
  | p :: rest =>
      let* _ := require (negb (String.eqb (flightID p) fid)) DuplicateFlight in
      requireUnregistered fid rest
  end.

(** The [userExists] loops of [subscribe] and [registerFlight]. *)
Fixpoint userExists (u : N) (l : list N) : bool :=
  match l with
  | [] => false
  | x :: rest => if x =? u then true else userExists u rest
  end.

Definition pushUnique (u : N) (l : list N) : list N :=
  if userExists u l then l else l ++ [u].

(** Number of policies of a list that are flagged paid, and number of
    transfers of a log that go to [u]. *)
Definition paidCount (ps : list Policy) : nat :=
  length (List.filter hasPaidOut ps).

Definition transfersTo (u : N) (log : list Transfer) : nat :=
  length (List.filter (fun t => fst t =? u) log).

(** [keepsPolicy p p']: [p'] is the policy [p] with its paid flag either
    as it was or raised, never lowered. *)
Definition keepsPolicy (p p' : Policy) : Prop :=
  flightID p' = flightID p /\ flightTimestamp p' = flightTimestamp p /\
  (hasPaidOut p = true -> hasPaidOut p' = true).

(** [policiesKept ps ps']: every policy of [ps] is still at its index in
    [ps'], kept in the sense above. *)
Definition policiesKept (ps ps' : list Policy) : Prop :=
  forall (j : nat) (p : Policy), ps !! j = Some p ->
    exists p', ps' !! j = Some p' /\ keepsPolicy p p'.

(** A policy that a delayed report of [fid] at time [now] has to pay:
    the reported flight, not paid yet, past the delay threshold. *)
Definition owed (now : N) (fid : string) (p : Policy) : Prop :=
  flightID p = fid /\ hasPaidOut p = false /\
  flightTimestamp p + DELAY_THRESHOLD <= now.

Definition owedIn (now : N) (fid : string) (ps : list Policy) : Prop :=
  exists p, In p ps /\ owed now fid p.

(** Stored timestamps small enough for the additions of the scan not to
    overflow. *)
Definition subscriptionInRange (sub : Subscription) : Prop :=
  startTime sub + SUBSCRIPTION_DURATION <= MAX_UINT256 /\
  Forall (fun p => flightTimestamp p + DELAY_THRESHOLD <= MAX_UINT256)
         (policies sub).

(** A policy with the given id is among [ps]. *)
Definition hasFlight (fid : string) (ps : list Policy) : Prop :=
  exists p, In p ps /\ flightID p = fid.

(** ** [src/contracts/FlightInsurance.sol] *)

Module Base.

Record State : Type := mkState {
  insurer : N;
  oracle : N;
  subscriptions : gmap N Subscription;
  flightDelays : gmap string bool;
  allSubscribers : list N;
  balance : N
}.

Definition subscriptionOf (s : State) (u : N) : Subscription :=
  default emptySubscription (subscriptions s !! u).

Definition setSubscription (s : State) (u : N) (sub : Subscription) : State :=
  {| insurer := insurer s; oracle := oracle s;
     subscriptions := <[u := sub]> (subscriptions s);
     flightDelays := flightDelays s;
     allSubscribers := allSubscribers s;
     balance := balance s |}.

Definition setBalance (s : State) (b : N) : State :=
  {| insurer := insurer s; oracle := oracle s;
     subscriptions := subscriptions s;
     flightDelays := flightDelays s;
     allSubscribers := allSubscribers s;
     balance := b |}.

(** [constructor()]: deployer is insurer and oracle. *)
Definition constructor (sender : N) : State :=
  {| insurer := sender; oracle := sender;
     subscriptions := ∅; flightDelays := ∅;
     allSubscribers := []; balance := 0 |}.

(** [setOracle(_oracle) external onlyInsurer] *)
Definition setOracle (sender _oracle : N) (s : State) : result State :=
  let* _ := require (sender =? insurer s) Unauthorized in
  let* _ := require (negb (_oracle =? 0)) InvalidAddress in
  Ok {| insurer := insurer s; oracle := _oracle;
        subscriptions := subscriptions s;
        flightDelays := flightDelays s;
        allSubscribers := allSubscribers s;
        balance := balance s |}.

(** [depositFunds() external payable onlyInsurer {}] *)
Definition depositFunds (sender value : N) (s : State) : result State :=
  let s := setBalance s (balance s + value) in
  let* _ := require (sender =? insurer s) Unauthorized in
  Ok s.

(** [subscribe() external payable] *)
Definition subscribe (sender value now : N) (s : State) : result State :=
  let s := setBalance s (balance s + value) in
  let* _ := require (value =? PREMIUM) WrongPremium in
  let* _ := require (negb (isActive (subscriptionOf s sender))) AlreadySubscribed in
  let sub := subscriptionOf s sender in
  let sub := {| isActive := true; startTime := now; policies := policies sub |} in
  Ok {| insurer := insurer s; oracle := oracle s;
        subscriptions := <[sender := sub]> (subscriptions s);
        flightDelays := flightDelays s;
        allSubscribers := allSubscribers s ++ [sender];
        balance := balance s |}.

(** [registerFlight(flightID, flightTimestamp) external] *)
Definition registerFlight (sender now : N) (fid : string) (fts : N)
    (s : State) : result State :=
  let sub := subscriptionOf s sender in
  let* _ := require (isActive sub) NoActiveSubscription in
  let* limit := checked_add (startTime sub) SUBSCRIPTION_DURATION in
  let* _ := require (now <? limit) SubscriptionExpired in
  let* _ := requireUnregistered fid (policies sub) in
  Ok (setSubscription s sender
        (withPolicies sub
           (policies sub ++
            [{| flightID := fid; flightTimestamp := fts; hasPaidOut := false |}]))).

(** The condition of lines 102-106.  It is a short-circuit [&&]: the
    checked addition is only evaluated for an unpaid policy of the
    reported flight. *)
Definition policyDue (now : N) (fid : string) (policy : Policy) : result bool :=
  if String.eqb (flightID policy) fid && negb (hasPaidOut policy) then
    let* limit := checked_add (flightTimestamp policy) DELAY_THRESHOLD in
    Ok (limit <=? now)
  else Ok false.

(** The inner loop of [updateFlightStatus] (lines 100-110) over the
    policies of one subscriber.  Returns the updated policies, the
    remaining balance and the transfers made. *)
Fixpoint payPolicies (now : N) (fid : string) (subscriber : N)
    (ps : list Policy) (bal : N) : result (list Policy * N * list Transfer) :=
  match ps with
  | [] => Ok ([], bal, [])
  | policy :: rest =>
      let* due := policyDue now fid policy in
      if due : bool then
        let* _ := require (PAYOUT <=? bal) InsufficientPool in
        let* (rest', bal', log) := payPolicies now fid subscriber rest (bal - PAYOUT) in
        Ok (markPaid policy :: rest', bal', (subscriber, PAYOUT) :: log)
      else
        let* (rest', bal', log) := payPolicies now fid subscriber rest bal in
        Ok (policy :: rest', bal', log)
  end.

(** The outer loop of [updateFlightStatus] (lines 89-111) over
    [allSubscribers]; the subscription is read from the current storage
    at every iteration, so an address listed twice is visited twice. *)
Fixpoint scanSubscribers (now : N) (fid : string) (us : list N)
    (s : State) : result (State * list Transfer) :=
  match us with
  | [] => Ok (s, [])
  | subscriber :: rest =>
      let sub := subscriptionOf s subscriber in
      let* limit := checked_add (startTime sub) SUBSCRIPTION_DURATION in
      if limit <=? now then
        scanSubscribers now fid rest (setSubscription s subscriber (deactivate sub))
      else
        let* (ps', bal', log) := payPolicies now fid subscriber (policies sub) (balance s) in
        let* (s', log') := scanSubscribers now fid rest
             (setBalance (setSubscription s subscriber (withPolicies sub ps')) bal') in
        Ok (s', log ++ log')
  end.

(** Line 85: [flightDelays[flightID] = delayed]. *)
Definition recordStatus (s : State) (fid : string) (delayed : bool) : State :=
  {| insurer := insurer s; oracle := oracle s;
     subscriptions := subscriptions s;
     flightDelays := <[fid := delayed]> (flightDelays s);
     allSubscribers := allSubscribers s;
     balance := balance s |}.

(** [updateFlightStatus(flightID, delayed) external onlyOracle] *)
Definition updateFlightStatus (sender now : N) (fid : string) (delayed : bool)
    (s : State) : result (State * list Transfer) :=
  let* _ := require (sender =? oracle s) Unauthorized in
  let s := recordStatus s fid delayed in
  if delayed then scanSubscribers now fid (allSubscribers s) s
  else Ok (s, []).

(** [getContractBalance()] and [isSubscribed(user)] *)
Definition getContractBalance (s : State) : N := balance s.

Definition isSubscribed (now : N) (user : N) (s : State) : result bool :=
  let sub := subscriptionOf s user in
  if isActive sub then
    let* limit := checked_add (startTime sub) SUBSCRIPTION_DURATION in
    Ok (now <? limit)
  else Ok false.

(** Transactions: who calls, at which block time, which function. *)
Inductive Call : Type :=
| SetOracle (_oracle : N)
| DepositFunds (value : N)
| Subscribe (value : N)
| RegisterFlight (fid : string) (fts : N)
| UpdateFlightStatus (fid : string) (delayed : bool).

Definition exec (sender now : N) (c : Call) (s : State)
    : result (State * list Transfer) :=
  match c with
  | SetOracle o => let* s' := setOracle sender o s in Ok (s', [])
  | DepositFunds v => let* s' := depositFunds sender v s in Ok (s', [])
  | Subscribe v => let* s' := subscribe sender v now s in Ok (s', [])
  | RegisterFlight fid fts => let* s' := registerFlight sender now fid fts s in Ok (s', [])
  | UpdateFlightStatus fid d => updateFlightStatus sender now fid d s
  end.

(** A reverted transaction leaves the storage and the balance as they
    were and makes no transfer. *)
Definition transact (sender now : N) (c : Call) (s : State)
    : State * list Transfer :=
  match exec sender now c s with
  | Ok (s', log) => (s', log)
  | Revert _ => (s, [])
  end.

(** A transaction: the caller, the block timestamp and the call. *)
Record Tx : Type := mkTx {
  txSender : N;
  txTime : N;
  txCall : Call
}.

(** A sequence of transactions, each one committed or reverted, with the
    transfers they make. *)
Fixpoint run (txs : list Tx) (s : State) : State * list Transfer :=
  match txs with
  | [] => (s, [])
  | tx :: rest =>
      let (s1, log1) := transact (txSender tx) (txTime tx) (txCall tx) s in
      let (s2, log2) := run rest s1 in
      (s2, log1 ++ log2)
  end.

(** [reachable t s]: [s] is the storage after a deployment followed by
    transactions in blocks of non-decreasing timestamps, the last one at
    time [t]. *)
Inductive reachable : N -> State -> Prop :=
| reach_deploy (sender t : N) : reachable t (constructor sender)
| reach_step (t : N) (s : State) (sender now : N) (c : Call) :
    reachable t s -> t <= now ->
    reachable now (fst (transact sender now c s)).

(** A call that is a delayed report. *)
Definition isDelayedReport (c : Call) : bool :=
  match c with
  | UpdateFlightStatus _ true => true
  | _ => false
  end.

(** A [subscribe] call sent by [u]. *)
Definition isSubscribeBy (u sender : N) (c : Call) : bool :=
  match c with
  | Subscribe _ => sender =? u
  | _ => false
  end.

(** A subscription whose stored flag is clear either has no policy or
    is expired by time [t]. *)
Definition lapsedOk (t : N) (s : State) : Prop :=
  forall u, isActive (subscriptionOf s u) = false ->
    policies (subscriptionOf s u) = [] \/
    startTime (subscriptionOf s u) + SUBSCRIPTION_DURATION <= t.

(** The scan of a delayed report of [fid] at [now] reaches, at
    subscriber [u] and policy [p], a payout that is owed while less than
    [PAYOUT] is left: the subscribers before [u] and the policies before
    [p] have been processed without a revert. *)
Definition reachesUnfunded (s : State) (now : N) (fid : string) : Prop :=
  exists (us1 us2 : list N) (u : N) (s1 : State) (log1 plog : list Transfer)
         (ps1 ps2 ps1' : list Policy) (p : Policy) (bal1 : N),
    allSubscribers s = us1 ++ u :: us2 /\
    scanSubscribers now fid us1 (recordStatus s fid true) = Ok (s1, log1) /\
    now < startTime (subscriptionOf s1 u) + SUBSCRIPTION_DURATION <= MAX_UINT256 /\
    policies (subscriptionOf s1 u) = ps1 ++ p :: ps2 /\
    payPolicies now fid u ps1 (balance s1) = Ok (ps1', bal1, plog) /\
    owed now fid p /\
    flightTimestamp p + DELAY_THRESHOLD <= MAX_UINT256 /\
    bal1 < PAYOUT.

(** *** Recipients that are contracts

    [payable(x).transfer(v)] forwards 2300 gas to the code at [x], if
    there is any, and reverts when that code reverts or needs more.
    The loops above take every recipient to accept the ether.  The ones
    below take an oracle instead: [accepts n x] tells whether [x]
    accepts the transfer that is made to it when [n] transfers have
    gone through earlier in the same call.  The balance is tested
    first, as the EVM does. *)
Fixpoint payPoliciesTo (accepts : nat -> N -> bool) (n : nat) (now : N)
    (fid : string) (subscriber : N) (ps : list Policy) (bal : N)
    : result (list Policy * N * list Transfer) :=
  match ps with
  | [] => Ok ([], bal, [])
  | policy :: rest =>
      let* due := policyDue now fid policy in
      if due : bool then
        let* _ := require (PAYOUT <=? bal) InsufficientPool in
        let* _ := require (accepts n subscriber) TransferRefused in
        let* (rest', bal', log) :=
          payPoliciesTo accepts (S n) now fid subscriber rest (bal - PAYOUT) in
        Ok (markPaid policy :: rest', bal', (subscriber, PAYOUT) :: log)
      else
        let* (rest', bal', log) :=
          payPoliciesTo accepts n now fid subscriber rest bal in
        Ok (policy :: rest', bal', log)
  end.

Fixpoint scanSubscribersTo (accepts : nat -> N -> bool) (n : nat) (now : N)
    (fid : string) (us : list N) (s : State) : result (State * list Transfer) :=
  match us with
  | [] => Ok (s, [])
  | subscriber :: rest =>
      let sub := subscriptionOf s subscriber in
      let* limit := checked_add (startTime sub) SUBSCRIPTION_DURATION in
      if limit <=? now then
        scanSubscribersTo accepts n now fid rest
          (setSubscription s subscriber (deactivate sub))
      else
        let* (ps', bal', log) :=
          payPoliciesTo accepts n now fid subscriber (policies sub) (balance s) in
        let* (s', log') := scanSubscribersTo accepts (n + length log) now fid rest
             (setBalance (setSubscription s subscriber (withPolicies sub ps')) bal') in
        Ok (s', log ++ log')
  end.

Definition updateFlightStatusTo (accepts : nat -> N -> bool) (sender now : N)
    (fid : string) (delayed : bool) (s : State) : result (State * list Transfer) :=
  let* _ := require (sender =? oracle s) Unauthorized in
  let s := recordStatus s fid delayed in
  if delayed then scanSubscribersTo accepts 0 now fid (allSubscribers s) s
  else Ok (s, []).

End Base.

(** ** [src/unnamed/part_002] *)

Module Rev.

Record State : Type := mkState {
  oracle : N;
  owner : N;
  subscriptions : gmap N Subscription;
  flightDelays : gmap string bool;
  allSubscribers : list N;
  allUsersWithFlights : list N;
  balance : N
}.

Definition subscriptionOf (s : State) (u : N) : Subscription :=
  default emptySubscription (subscriptions s !! u).

Definition setSubscription (s : State) (u : N) (sub : Subscription) : State :=
  {| oracle := oracle s; owner := owner s;
     subscriptions := <[u := sub]> (subscriptions s);
     flightDelays := flightDelays s;
     allSubscribers := allSubscribers s;
     allUsersWithFlights := allUsersWithFlights s;
     balance := balance s |}.

Definition setBalance (s : State) (b : N) : State :=
  {| oracle := oracle s; owner := owner s;
     subscriptions := subscriptions s;
     flightDelays := flightDelays s;
     allSubscribers := allSubscribers s;
     allUsersWithFlights := allUsersWithFlights s;
     balance := b |}.

(** [constructor()]: only [owner] is set; [oracle] stays [address(0)]. *)
Definition constructor (sender : N) : State :=
  {| oracle := 0; owner := sender;
     subscriptions := ∅; flightDelays := ∅;
     allSubscribers := []; allUsersWithFlights := []; balance := 0 |}.

(** [setOracle(_oracle) external onlyOwner] *)
Definition setOracle (sender _oracle : N) (s : State) : result State :=
  let* _ := require (sender =? owner s) Unauthorized in
  Ok {| oracle := _oracle; owner := owner s;
        subscriptions := subscriptions s;
        flightDelays := flightDelays s;
        allSubscribers := allSubscribers s;
        allUsersWithFlights := allUsersWithFlights s;
        balance := balance s |}.

(** [depositFunds() external payable onlyOwner] *)
Definition depositFunds (sender value : N) (s : State) : result State :=
  let s := setBalance s (balance s + value) in
  let* _ := require (sender =? owner s) Unauthorized in
  let* _ := require (0 <? value) InvalidAmount in
  Ok s.

(** [subscribe() external payable] *)
Definition subscribe (sender value now : N) (s : State) : result State :=
  let s := setBalance s (balance s + value) in
  let* _ := require (value =? PREMIUM) WrongPremium in
  let* _ := require (negb (isActive (subscriptionOf s sender))) AlreadySubscribed in
  let sub := subscriptionOf s sender in
  let sub := {| isActive := true; startTime := now; policies := policies sub |} in
  Ok {| oracle := oracle s; owner := owner s;
        subscriptions := <[sender := sub]> (subscriptions s);
        flightDelays := flightDelays s;
        allSubscribers := pushUnique sender (allSubscribers s);
        allUsersWithFlights := pushUnique sender (allUsersWithFlights s);
        balance := balance s |}.

(** [registerFlight(flightID, flightTimestamp) external notOracle] *)
Definition registerFlight (sender : N) (fid : string) (fts : N)
    (s : State) : result State :=
  let* _ := require (negb (sender =? oracle s)) OracleNotAllowed in
  let sub := subscriptionOf s sender in
  let* _ := requireUnregistered fid (policies sub) in
  let sub := withPolicies sub
     (policies sub ++
      [{| flightID := fid; flightTimestamp := fts; hasPaidOut := false |}]) in
  Ok {| oracle := oracle s; owner := owner s;
        subscriptions := <[sender := sub]> (subscriptions s);
        flightDelays := flightDelays s;
        allSubscribers := allSubscribers s;
        allUsersWithFlights := pushUnique sender (allUsersWithFlights s);
        balance := balance s |}.

(** The inner loop of [updateFlightStatus] (lines 135-156).  [meetsDelay]
    is computed, with its checked addition, for every policy before the
    condition is tested; [active] is the [isActive] local of line 130,
    and the nested [if (isActive)] of line 151 is the last conjunct. *)
Fixpoint payPolicies (now : N) (fid : string) (user : N) (active : bool)
    (ps : list Policy) (bal : N) : result (list Policy * N * list Transfer) :=
  match ps with
  | [] => Ok ([], bal, [])
  | policy :: rest =>
      let* limit := checked_add (flightTimestamp policy) DELAY_THRESHOLD in
      let meetsDelay := limit <=? now in
      if String.eqb (flightID policy) fid && negb (hasPaidOut policy) && meetsDelay
         && active
      then
        let* _ := require (PAYOUT <=? bal) InsufficientPool in
        let* (rest', bal', log) := payPolicies now fid user active rest (bal - PAYOUT) in
        Ok (markPaid policy :: rest', bal', (user, PAYOUT) :: log)
      else
        let* (rest', bal', log) := payPolicies now fid user active rest bal in
        Ok (policy :: rest', bal', log)
  end.

(** Line 130: [sub.isActive && (block.timestamp < sub.startTime +
    SUBSCRIPTION_DURATION)], the addition being evaluated only when the
    stored flag is set. *)
Definition stillActive (now : N) (sub : Subscription) : result bool :=
  if isActive sub then
    let* limit := checked_add (startTime sub) SUBSCRIPTION_DURATION in
    Ok (now <? limit)
  else Ok false.

(** Lines 131-133: the stored flag is cleared when it is set and the
    subscription is no longer active. *)
Definition expire (active : bool) (sub : Subscription) : Subscription :=
  if isActive sub && negb active then deactivate sub else sub.

(** The outer loop of [updateFlightStatus] (lines 126-157) over
    [allUsersWithFlights]. *)
Fixpoint scanUsers (now : N) (fid : string) (us : list N)
    (s : State) : result (State * list Transfer) :=
  match us with
  | [] => Ok (s, [])
  | user :: rest =>
      let sub := subscriptionOf s user in
      let* active := stillActive now sub in
      let sub := expire active sub in
      let* (ps', bal', log) := payPolicies now fid user active (policies sub) (balance s) in
      let* (s', log') := scanUsers now fid rest
           (setBalance (setSubscription s user (withPolicies sub ps')) bal') in
      Ok (s', log ++ log')
  end.

(** Line 124: [flightDelays[flightID] = delayed]. *)
Definition recordStatus (s : State) (fid : string) (delayed : bool) : State :=
  {| oracle := oracle s; owner := owner s;
     subscriptions := subscriptions s;
     flightDelays := <[fid := delayed]> (flightDelays s);
     allSubscribers := allSubscribers s;
     allUsersWithFlights := allUsersWithFlights s;
     balance := balance s |}.

(** [updateFlightStatus(flightID, delayed) external onlyOracle] *)
Definition updateFlightStatus (sender now : N) (fid : string) (delayed : bool)
    (s : State) : result (State * list Transfer) :=
  let* _ := require (sender =? oracle s) Unauthorized in
  let s := recordStatus s fid delayed in
  if delayed then scanUsers now fid (allUsersWithFlights s) s
  else Ok (s, []).

(** [isSubscribed(user)], [getPolicyCount(user)], [getUserPolicies(user)] *)
Definition isSubscribed (now : N) (user : N) (s : State) : result bool :=
  stillActive now (subscriptionOf s user).

Definition getPolicyCount (user : N) (s : State) : nat :=
  length (policies (subscriptionOf s user)).

Definition getUserPolicies (user : N) (s : State)
    : list string * list N * list bool :=
  let ps := policies (subscriptionOf s user) in
  (map flightID ps, map flightTimestamp ps, map hasPaidOut ps).

Inductive Call : Type :=
| SetOracle (_oracle : N)
| DepositFunds (value : N)
| Subscribe (value : N)
| RegisterFlight (fid : string) (fts : N)
| UpdateFlightStatus (fid : string) (delayed : bool).

Definition exec (sender now : N) (c : Call) (s : State)
    : result (State * list Transfer) :=
  match c with
  | SetOracle o => let* s' := setOracle sender o s in Ok (s', [])
  | DepositFunds v => let* s' := depositFunds sender v s in Ok (s', [])
  | Subscribe v => let* s' := subscribe sender v now s in Ok (s', [])
  | RegisterFlight fid fts => let* s' := registerFlight sender fid fts s in Ok (s', [])
  | UpdateFlightStatus fid d => updateFlightStatus sender now fid d s
  end.

Definition transact (sender now : N) (c : Call) (s : State)
    : State * list Transfer :=
  match exec sender now c s with
  | Ok (s', log) => (s', log)
  | Revert _ => (s, [])
  end.

(** A transaction: the caller, the block timestamp and the call. *)
Record Tx : Type := mkTx {
  txSender : N;
  txTime : N;
  txCall : Call
}.

(** A sequence of transactions, each one committed or reverted, with the
    transfers they make. *)
Fixpoint run (txs : list Tx) (s : State) : State * list Transfer :=
  match txs with
  | [] => (s, [])
  | tx :: rest =>
      let (s1, log1) := transact (txSender tx) (txTime tx) (txCall tx) s in
      let (s2, log2) := run rest s1 in
      (s2, log1 ++ log2)
  end.

(** [reachable t s]: [s] is the storage after a deployment followed by
    transactions in blocks of non-decreasing timestamps, the last one at
    time [t]. *)
Inductive reachable : N -> State -> Prop :=
| reach_deploy (sender t : N) : reachable t (constructor sender)
| reach_step (t : N) (s : State) (sender now : N) (c : Call) :
    reachable t s -> t <= now ->
    reachable now (fst (transact sender now c s)).

(** A call that is a delayed report. *)
Definition isDelayedReport (c : Call) : bool :=
  match c with
  | UpdateFlightStatus _ true => true
  | _ => false
  end.
(** A [subscribe] call sent by [u]. *)
Definition isSubscribeBy (u sender : N) (c : Call) : bool :=
  match c with
  | Subscribe _ => sender =? u
  | _ => false
  end.

(** The scan of a delayed report of [fid] at [now] reaches, at the
    active user [u] and policy [p], a payout that is owed while less
    than [PAYOUT] is left. *)
Definition reachesUnfunded (s : State) (now : N) (fid : string) : Prop :=
  exists (us1 us2 : list N) (u : N) (s1 : State) (log1 plog : list Transfer)
         (ps1 ps2 ps1' : list Policy) (p : Policy) (bal1 : N),
    allUsersWithFlights s = us1 ++ u :: us2 /\
    scanUsers now fid us1 (recordStatus s fid true) = Ok (s1, log1) /\
    isActive (subscriptionOf s1 u) = true /\
    now < startTime (subscriptionOf s1 u) + SUBSCRIPTION_DURATION <= MAX_UINT256 /\
    policies (subscriptionOf s1 u) = ps1 ++ p :: ps2 /\
    payPolicies now fid u true ps1 (balance s1) = Ok (ps1', bal1, plog) /\
    owed now fid p /\
    flightTimestamp p + DELAY_THRESHOLD <= MAX_UINT256 /\
    bal1 < PAYOUT.

(** *** Recipients that are contracts

    The loops of [updateFlightStatus] with an oracle for the recipients,
    as in [Base]: [accepts n x] tells whether [x] accepts the transfer
    that is made to it when [n] transfers have gone through earlier in
    the same call. *)
Fixpoint payPoliciesTo (accepts : nat -> N -> bool) (n : nat) (now : N)
    (fid : string) (user : N) (active : bool) (ps : list Policy) (bal : N)
    : result (list Policy * N * list Transfer) :=
  match ps with
  | [] => Ok ([], bal, [])
  | policy :: rest =>
      let* limit := checked_add (flightTimestamp policy) DELAY_THRESHOLD in
      let meetsDelay := limit <=? now in
      if String.eqb (flightID policy) fid && negb (hasPaidOut policy) && meetsDelay
         && active
      then
        let* _ := require (PAYOUT <=? bal) InsufficientPool in
        let* _ := require (accepts n user) TransferRefused in
        let* (rest', bal', log) :=
          payPoliciesTo accepts (S n) now fid user active rest (bal - PAYOUT) in
        Ok (markPaid policy :: rest', bal', (user, PAYOUT) :: log)
      else
        let* (rest', bal', log) :=
          payPoliciesTo accepts n now fid user active rest bal in
        Ok (policy :: rest', bal', log)
  end.

Fixpoint scanUsersTo (accepts : nat -> N -> bool) (n : nat) (now : N)
    (fid : string) (us : list N) (s : State) : result (State * list Transfer) :=
  match us with
  | [] => Ok (s, [])
  | user :: rest =>
      let sub := subscriptionOf s user in
      let* active := stillActive now sub in
      let sub := expire active sub in
      let* (ps', bal', log) :=
        payPoliciesTo accepts n now fid user active (policies sub) (balance s) in
      let* (s', log') := scanUsersTo accepts (n + length log) now fid rest
           (setBalance (setSubscription s user (withPolicies sub ps')) bal') in
      Ok (s', log ++ log')
  end.

Definition updateFlightStatusTo (accepts : nat -> N -> bool) (sender now : N)
    (fid : string) (delayed : bool) (s : State) : result (State * list Transfer) :=
  let* _ := require (sender =? oracle s) Unauthorized in
  let s := recordStatus s fid delayed in
  if delayed then scanUsersTo accepts 0 now fid (allUsersWithFlights s) s
  else Ok (s, []).

End Rev.

(** ** Sample ledgers

    Address 1 deploys, 2 is the reporter, 3 and 4 are subscribers; [t0]
    is the time of the first block. *)

Module Samples.

Definition t0 : N := 1700000000.
Definition FL1 : Policy :=
  {| flightID := "FL1"; flightTimestamp := t0; hasPaidOut := false |}.

(** [src/contracts/FlightInsurance.sol]: 3 subscribes and registers
    "FL1"; the pool then holds the premium only. *)
Definition base0 : Base.State := Base.constructor 1.
Definition base1 : Base.State :=
  fst (Base.transact 1 t0 (Base.SetOracle 2) base0).
Definition base2 : Base.State :=
  fst (Base.transact 3 t0 (Base.Subscribe PREMIUM) base1).
Definition base3 : Base.State :=
  fst (Base.transact 3 t0 (Base.RegisterFlight "FL1" t0) base2).

(** Thirty days later the insurer funds the pool; nothing has touched
    the subscription of 3. *)
Definition base4 : Base.State :=
  fst (Base.transact 1 (t0 + SUBSCRIPTION_DURATION)
         (Base.DepositFunds (10 * ether)) base3).

(** A report then clears the stored flag of 3, and 3 subscribes again:
    the policy "FL1" is still there. *)
Definition baseLapsed : Base.State :=
  fst (Base.transact 2 (t0 + SUBSCRIPTION_DURATION)
         (Base.UpdateFlightStatus "FL2" true) base4).
Definition baseRenewed : Base.State :=
  fst (Base.transact 3 (t0 + SUBSCRIPTION_DURATION + 5)
         (Base.Subscribe PREMIUM) baseLapsed).

(** Alternatively 4 joins too and the insurer deposits one payout: the
    pool covers one of the two payouts owed for "FL1". *)
Definition base5 : Base.State :=
  fst (Base.transact 4 t0 (Base.Subscribe PREMIUM) base3).
Definition base6 : Base.State :=
  fst (Base.transact 4 t0 (Base.RegisterFlight "FL1" t0) base5).
Definition base7 : Base.State :=
  fst (Base.transact 1 t0 (Base.DepositFunds PAYOUT) base6).

(** The storage of [base7] when the scan of a report of "FL1" at
    [t0 + DELAY_THRESHOLD] has dealt with subscriber 3 and comes to 4. *)
Definition base7Mid : Base.State :=
  match Base.scanSubscribers (t0 + DELAY_THRESHOLD) "FL1" [3]
          (Base.recordStatus base7 "FL1" true) with
  | Ok (s1, _) => s1
  | Revert _ => base7
  end.

(** The deployer, still the oracle, subscribes. *)
Definition baseOracle : Base.State :=
  fst (Base.transact 1 t0 (Base.Subscribe PREMIUM) base0).

(** A funded run in which the delay of "FL1" is reported twice. *)
Definition baseTrace : list Base.Tx :=
  [ Base.mkTx 1 t0 (Base.SetOracle 2);
    Base.mkTx 1 t0 (Base.DepositFunds (10 * ether));
    Base.mkTx 3 t0 (Base.Subscribe PREMIUM);
    Base.mkTx 3 t0 (Base.RegisterFlight "FL1" t0);
    Base.mkTx 2 (t0 + DELAY_THRESHOLD) (Base.UpdateFlightStatus "FL1" true);
    Base.mkTx 2 (t0 + DELAY_THRESHOLD + 1) (Base.UpdateFlightStatus "FL1" true) ].

(** [src/unnamed/part_002]: the same ledgers. *)
Definition rev0 : Rev.State := Rev.constructor 1.
Definition rev1 : Rev.State :=
  fst (Rev.transact 1 t0 (Rev.SetOracle 2) rev0).
Definition rev2 : Rev.State :=
  fst (Rev.transact 3 t0 (Rev.Subscribe PREMIUM) rev1).
Definition rev3 : Rev.State :=
  fst (Rev.transact 3 t0 (Rev.RegisterFlight "FL1" t0) rev2).
Definition rev4 : Rev.State :=
  fst (Rev.transact 1 (t0 + SUBSCRIPTION_DURATION)
         (Rev.DepositFunds (10 * ether)) rev3).
Definition revLapsed : Rev.State :=
  fst (Rev.transact 2 (t0 + SUBSCRIPTION_DURATION)
         (Rev.UpdateFlightStatus "FL2" true) rev4).
Definition revRenewed : Rev.State :=
  fst (Rev.transact 3 (t0 + SUBSCRIPTION_DURATION + 5)
         (Rev.Subscribe PREMIUM) revLapsed).
(** The owner names subscriber 3, who holds "FL1", as the oracle. *)
Definition revOracle : Rev.State :=
  fst (Rev.transact 1 t0 (Rev.SetOracle 3) rev3).
Definition rev5 : Rev.State :=
  fst (Rev.transact 4 t0 (Rev.Subscribe PREMIUM) rev3).
Definition rev6 : Rev.State :=
  fst (Rev.transact 4 t0 (Rev.RegisterFlight "FL1" t0) rev5).
Definition rev7 : Rev.State :=
  fst (Rev.transact 1 t0 (Rev.DepositFunds PAYOUT) rev6).

Definition rev7Mid : Rev.State :=
  match Rev.scanUsers (t0 + DELAY_THRESHOLD) "FL1" [3]
          (Rev.recordStatus rev7 "FL1" true) with
  | Ok (s1, _) => s1
  | Revert _ => rev7
  end.

Definition revTrace : list Rev.Tx :=
  [ Rev.mkTx 1 t0 (Rev.SetOracle 2);
    Rev.mkTx 1 t0 (Rev.DepositFunds (10 * ether));
    Rev.mkTx 3 t0 (Rev.Subscribe PREMIUM);
    Rev.mkTx 3 t0 (Rev.RegisterFlight "FL1" t0);
    Rev.mkTx 2 (t0 + DELAY_THRESHOLD) (Rev.UpdateFlightStatus "FL1" true);
    Rev.mkTx 2 (t0 + DELAY_THRESHOLD + 1) (Rev.UpdateFlightStatus "FL1" true) ].

(** The delay of "FL1" is reported thirty days after [t0], when the
    subscription of 3 has run out; 3 then subscribes again. *)
Definition baseMissed : Base.State :=
  fst (Base.transact 2 (t0 + SUBSCRIPTION_DURATION)
         (Base.UpdateFlightStatus "FL1" true) base4).
Definition baseBack : Base.State :=
  fst (Base.transact 3 (t0 + SUBSCRIPTION_DURATION + 5)
         (Base.Subscribe PREMIUM) baseMissed).

Definition revMissed : Rev.State :=
  fst (Rev.transact 2 (t0 + SUBSCRIPTION_DURATION)
         (Rev.UpdateFlightStatus "FL1" true) rev4).
Definition revBack : Rev.State :=
  fst (Rev.transact 3 (t0 + SUBSCRIPTION_DURATION + 5)
         (Rev.Subscribe PREMIUM) revMissed).

(** A policy whose timestamp is the largest [uint256], held by an
    address that the scan visits before subscriber 3.  In
    [src/contracts/FlightInsurance.sol] subscriber 4 registers "FL1"
    with that timestamp; in [src/unnamed/part_002] address 4 registers
    "FL7" with it, without subscribing.  The pools hold the premiums
    only. *)
Definition baseFar1 : Base.State :=
  fst (Base.transact 4 t0 (Base.Subscribe PREMIUM) base1).
Definition baseFar2 : Base.State :=
  fst (Base.transact 4 t0 (Base.RegisterFlight "FL1" MAX_UINT256) baseFar1).
Definition baseFar3 : Base.State :=
  fst (Base.transact 3 t0 (Base.Subscribe PREMIUM) baseFar2).
Definition baseFar : Base.State :=
  fst (Base.transact 3 t0 (Base.RegisterFlight "FL1" t0) baseFar3).

Definition revFar1 : Rev.State :=
  fst (Rev.transact 4 t0 (Rev.RegisterFlight "FL7" MAX_UINT256) rev1).
Definition revFar2 : Rev.State :=
  fst (Rev.transact 3 t0 (Rev.Subscribe PREMIUM) revFar1).
Definition revFar : Rev.State :=
  fst (Rev.transact 3 t0 (Rev.RegisterFlight "FL1" t0) revFar2).

End Samples.

(** ** Vocabulary for the further properties *)

(** The boolean form of [owed], and the number of owed policies. *)
Definition owedb (now : N) (fid : string) (p : Policy) : bool :=
  String.eqb (flightID p) fid && negb (hasPaidOut p)
  && (flightTimestamp p + DELAY_THRESHOLD <=? now).

Definition countOwed (now : N) (fid : string) (ps : list Policy) : nat :=
  length (List.filter (owedb now fid) ps).

(** The owed policies of the addresses of a list, each address counted
    as often as it is listed. *)
Fixpoint owedTotal (now : N) (fid : string) (pols : N -> list Policy)
    (us : list N) : nat :=
  match us with
  | [] => 0
  | u :: rest => countOwed now fid (pols u) + owedTotal now fid pols rest
  end.

(** The flight ids of a subscription are pairwise distinct. *)
Definition distinctIds (sub : Subscription) : Prop :=
  NoDup (map flightID (policies sub)).

(** What a call pays into the contract when it goes through: the
    [msg.value] of the two [payable] functions. *)
Definition baseCredit (c : Base.Call) : N :=
  match c with
  | Base.DepositFunds v => v
  | Base.Subscribe v => v
  | _ => 0
  end.

Definition revCredit (c : Rev.Call) : N :=
  match c with
  | Rev.DepositFunds v => v
  | Rev.Subscribe v => v
  | _ => 0
  end.

(** The sample ledgers of [Samples.baseTrace] and [Samples.revTrace]
    before the first report: funded with ten ether, subscriber 3 holding
    the unpaid policy "FL1". *)
Definition baseFunded : Base.State :=
  fst (Base.run (firstn 4 Samples.baseTrace) Samples.base0).

Definition revFunded : Rev.State :=
  fst (Rev.run (firstn 4 Samples.revTrace) Samples.rev0).

(** Every address whose subscription differs from the default one is
    listed for the scan. *)
Definition baseListed (s : Base.State) : Prop :=
  forall u, Base.subscriptionOf s u <> emptySubscription ->
    In u (Base.allSubscribers s).

Definition revListed (s : Rev.State) : Prop :=
  forall u, Rev.subscriptionOf s u <> emptySubscription ->
    In u (Rev.allUsersWithFlights s).

(** * Properties *)

(** ** The revert monad and the shared loops *)

Lemma bind_ok_inv {A B : Type} (m : result A) (k : A -> result B) (b : B) :
  bind m k = Ok b -> exists a, m = Ok a /\ k a = Ok b.
Proof.
  destruct m as [a|e]; simpl; intros H; [eauto | discriminate].
Qed.

Lemma require_ok_inv (b : bool) (e : Error) (u : unit) :
  require b e = Ok u -> b = true.
Proof. destruct b; simpl; [reflexivity | discriminate]. Qed.

Lemma checked_add_ok_inv (a b c : N) :
  checked_add a b = Ok c -> c = a + b /\ a + b <= MAX_UINT256.
Proof.
  unfold checked_add.
  destruct (N.leb_spec (a + b) MAX_UINT256) as [Hle|Hgt]; intros Heq.
  - injection Heq as <-. split; [reflexivity | assumption].
  - discriminate.
Qed.

Lemma checked_add_in_range (a b : N) :
  a + b <= MAX_UINT256 -> checked_add a b = Ok (a + b).
Proof.
  intros H. unfold checked_add.
  destruct (N.leb_spec (a + b) MAX_UINT256); [reflexivity | lia].
Qed.

(** Inversion of a successful monadic computation, one bind at a time. *)
Tactic Notation "ok_inv" hyp(H) "as" simple_intropattern(a) ident(Hm) :=
  apply bind_ok_inv in H; destruct H as (a & Hm & H).

Lemma requireUnregistered_dup (fid : string) (ps : list Policy) :
  hasFlight fid ps -> requireUnregistered fid ps = Revert DuplicateFlight.
Proof.
  intros (p & Hin & Hid). induction ps as [|q ps IH]; [destruct Hin|].
  simpl. destruct (String.eqb_spec (flightID q) fid) as [Heq|Hne]; simpl.
  - reflexivity.
  - destruct Hin as [->|Hin]; [contradiction | exact (IH Hin)].
Qed.

Lemma requireUnregistered_fresh (fid : string) (ps : list Policy) :
  ~ hasFlight fid ps -> requireUnregistered fid ps = Ok tt.
Proof.
  induction ps as [|q ps IH]; intros Hno; [reflexivity|].
  simpl. destruct (String.eqb_spec (flightID q) fid) as [Heq|Hne]; simpl.
  - exfalso. apply Hno. exists q. split; [left; reflexivity | exact Heq].
  - apply IH. intros (p & Hin & Hid). apply Hno. exists p.
    split; [right; exact Hin | exact Hid].
Qed.

Lemma requireUnregistered_ok_inv (fid : string) (ps : list Policy) (u : unit) :
  requireUnregistered fid ps = Ok u -> ~ hasFlight fid ps.
Proof.
  intros H Hdup. rewrite (requireUnregistered_dup _ _ Hdup) in H. discriminate.
Qed.

Lemma keepsPolicy_refl (p : Policy) : keepsPolicy p p.
Proof. repeat split; auto. Qed.

Lemma keepsPolicy_markPaid (p : Policy) : keepsPolicy p (markPaid p).
Proof. repeat split; auto. Qed.

Lemma keepsPolicy_trans (p q r : Policy) :
  keepsPolicy p q -> keepsPolicy q r -> keepsPolicy p r.
Proof.
  intros (H1 & H2 & H3) (K1 & K2 & K3).
  repeat split; [congruence | congruence | auto].
Qed.

Lemma policiesKept_refl (ps : list Policy) : policiesKept ps ps.
Proof. intros j p H. exists p. split; [exact H | apply keepsPolicy_refl]. Qed.

Lemma policiesKept_trans (ps qs rs : list Policy) :
  policiesKept ps qs -> policiesKept qs rs -> policiesKept ps rs.
Proof.
  intros H1 H2 j p Hp.
  destruct (H1 j p Hp) as (q & Hq & Kq).
  destruct (H2 j q Hq) as (r & Hr & Kr).
  exists r. split; [exact Hr | eapply keepsPolicy_trans; eassumption].
Qed.

Lemma policiesKept_app (ps extra : list Policy) : policiesKept ps (ps ++ extra).
Proof.
  intros j p H. exists p. split; [|apply keepsPolicy_refl].
  apply lookup_app_l_Some. exact H.
Qed.

Lemma policiesKept_Forall2 (ps ps' : list Policy) :
  Forall2 keepsPolicy ps ps' -> policiesKept ps ps'.
Proof.
  intros HF j p Hp. destruct (Forall2_lookup_l _ _ _ _ _ HF Hp) as (p' & H1 & H2).
  exists p'. split; assumption.
Qed.

Lemma paidCount_app (ps qs : list Policy) :
  paidCount (ps ++ qs) = (paidCount ps + paidCount qs)%nat.
Proof. unfold paidCount. rewrite List.filter_app, length_app. reflexivity. Qed.

Lemma transfersTo_app (u : N) (l1 l2 : list Transfer) :
  transfersTo u (l1 ++ l2) = (transfersTo u l1 + transfersTo u l2)%nat.
Proof. unfold transfersTo. rewrite List.filter_app, length_app. reflexivity. Qed.

Lemma transfersTo_all (u : N) (log : list Transfer) :
  Forall (fun t => t = (u, PAYOUT)) log -> transfersTo u log = length log.
Proof.
  induction 1 as [|t log Ht _ IH]; [reflexivity|].
  subst t. unfold transfersTo in *. simpl. rewrite N.eqb_refl. simpl.
  f_equal. exact IH.
Qed.

Lemma transfersTo_none (u v : N) (log : list Transfer) :
  u <> v -> Forall (fun t => t = (u, PAYOUT)) log -> transfersTo v log = 0%nat.
Proof.
  intros Hne. induction 1 as [|t log Ht _ IH]; [reflexivity|].
  subst t. unfold transfersTo in *. simpl.
  destruct (N.eqb_spec u v); [contradiction | exact IH].
Qed.

Lemma transfersTo_le_length (u : N) (log : list Transfer) :
  (transfersTo u log <= length log)%nat.
Proof.
  unfold transfersTo. induction log as [|t log IH]; simpl; [lia|].
  destruct (fst t =? u); simpl; lia.
Qed.

#[global] Opaque PREMIUM PAYOUT DELAY_THRESHOLD SUBSCRIPTION_DURATION MAX_UINT256.

(** ** Facts about [src/contracts/FlightInsurance.sol] *)

Module BaseFacts.
Import Base.

Lemma subscriptionOf_setSubscription (s : State) (u v : N) (sub : Subscription) :
  subscriptionOf (setSubscription s u sub) v =
  if decide (u = v) then sub else subscriptionOf s v.
Proof.
  unfold subscriptionOf, setSubscription; simpl.
  rewrite lookup_insert. destruct (decide (u = v)); reflexivity.
Qed.

Lemma subscriptionOf_setBalance (s : State) (b : N) (v : N) :
  subscriptionOf (setBalance s b) v = subscriptionOf s v.
Proof. reflexivity. Qed.

Lemma policyDue_true_inv (now : N) (fid : string) (p : Policy) :
  policyDue now fid p = Ok true ->
  flightID p = fid /\ hasPaidOut p = false /\
  flightTimestamp p + DELAY_THRESHOLD <= now.
Proof.
  unfold policyDue.
  destruct (String.eqb_spec (flightID p) fid) as [Heq|Hne]; simpl;
    [|discriminate].
  destruct (hasPaidOut p); simpl; [discriminate|].
  intros H. ok_inv H as limit Hm. apply checked_add_ok_inv in Hm as [-> _].
  injection H as H. apply N.leb_le in H. auto.
Qed.

(** What one pass of the inner loop does to a subscriber's policies, to
    the balance and to the log. *)
Lemma payPolicies_spec (now : N) (fid : string) (u : N) (ps : list Policy) :
  forall (bal : N) (ps' : list Policy) (bal' : N) (log : list Transfer),
    payPolicies now fid u ps bal = Ok (ps', bal', log) ->
    Forall2 keepsPolicy ps ps' /\
    paidCount ps' = (paidCount ps + length log)%nat /\
    Forall (fun t => t = (u, PAYOUT)) log /\
    bal = bal' + PAYOUT * N.of_nat (length log).
Proof.
  induction ps as [|p ps IH]; intros bal ps' bal' log H.
  - injection H as <- <- <-. repeat split; [constructor | constructor | simpl; lia].
  - simpl in H. ok_inv H as due Hdue. destruct due.
    + apply policyDue_true_inv in Hdue as (_ & Hunpaid & _).
      ok_inv H as x Hbal. apply require_ok_inv in Hbal. apply N.leb_le in Hbal.
      ok_inv H as [[r b] l] Hrec. injection H as <- <- <-.
      destruct (IH _ _ _ _ Hrec) as (K1 & K2 & K3 & K4).
      repeat split.
      * constructor; [apply keepsPolicy_markPaid | exact K1].
      * unfold paidCount in *. simpl. rewrite Hunpaid. simpl. lia.
      * constructor; [reflexivity | exact K3].
      * simpl length. lia.
    + ok_inv H as [[r b] l] Hrec. injection H as <- <- <-.
      destruct (IH _ _ _ _ Hrec) as (K1 & K2 & K3 & K4).
      repeat split.
      * constructor; [apply keepsPolicy_refl | exact K1].
      * unfold paidCount in *. simpl. destruct (hasPaidOut p); simpl; lia.
      * exact K3.
      * exact K4.
Qed.

(** What the scan over a list of subscribers does: the roles, the
    recorded statuses and the subscriber list are untouched, the
    balance pays for the logged transfers, and for every address the
    start time is kept, the active flag is never raised, every policy is
    kept, and the number of policies that became paid is the number of
    transfers the address received. *)
Lemma scanSubscribers_spec (now : N) (fid : string) (us : list N) :
  forall (s s' : State) (log : list Transfer),
    scanSubscribers now fid us s = Ok (s', log) ->
    insurer s' = insurer s /\ oracle s' = oracle s /\
    flightDelays s' = flightDelays s /\
    allSubscribers s' = allSubscribers s /\
    balance s = balance s' + PAYOUT * N.of_nat (length log) /\
    Forall (fun t => snd t = PAYOUT) log /\
    forall v : N,
      startTime (subscriptionOf s' v) = startTime (subscriptionOf s v) /\
      (isActive (subscriptionOf s' v) = true ->
       isActive (subscriptionOf s v) = true) /\
      policiesKept (policies (subscriptionOf s v))
                   (policies (subscriptionOf s' v)) /\
      paidCount (policies (subscriptionOf s' v)) =
      (paidCount (policies (subscriptionOf s v)) + transfersTo v log)%nat.
Proof.
  induction us as [|u us IH]; intros s s' log H.
  - injection H as <- <-. repeat split; auto using policiesKept_refl.
    simpl. lia.
  - simpl in H. ok_inv H as limit Hlimit.
    destruct (limit <=? now).
    + destruct (IH _ _ _ H) as (K1 & K2 & K3 & K4 & K5 & K6 & K7).
      repeat split; try assumption.
      all: destruct (K7 v) as (V1 & V2 & V3 & V4);
        rewrite subscriptionOf_setSubscription in V1, V2, V3, V4;
        destruct (decide (u = v)) as [->|Hne]; simpl in *; auto.
      intros Hact. apply V2 in Hact. discriminate.
    + ok_inv H as [[ps' bal'] plog] Hpay.
      ok_inv H as [s1 log1] Hrec. injection H as <- <-.
      destruct (payPolicies_spec _ _ _ _ _ _ _ _ Hpay) as (P1 & P2 & P3 & P4).
      destruct (IH _ _ _ Hrec) as (K1 & K2 & K3 & K4 & K5 & K6 & K7).
      simpl in K1, K2, K3, K4, K5.
      repeat split; try assumption.
      * rewrite length_app. lia.
      * apply Forall_app. split; [|exact K6].
        eapply Forall_impl; [exact P3|]. intros t ->. reflexivity.
      * destruct (K7 v) as (V1 & _). rewrite V1.
        rewrite subscriptionOf_setBalance, subscriptionOf_setSubscription.
        destruct (decide (u = v)) as [->|Hne]; reflexivity.
      * destruct (K7 v) as (_ & V2 & _). intros Hact. apply V2 in Hact.
        rewrite subscriptionOf_setBalance, subscriptionOf_setSubscription in Hact.
        destruct (decide (u = v)) as [->|Hne]; exact Hact.
      * destruct (K7 v) as (_ & _ & V3 & _).
        rewrite subscriptionOf_setBalance, subscriptionOf_setSubscription in V3.
        destruct (decide (u = v)) as [->|Hne]; [|exact V3].
        eapply policiesKept_trans; [|exact V3].
        apply policiesKept_Forall2. exact P1.
      * destruct (K7 v) as (_ & _ & _ & V4). rewrite V4.
        rewrite subscriptionOf_setBalance, subscriptionOf_setSubscription.
        rewrite transfersTo_app.
        destruct (decide (u = v)) as [->|Hne]; simpl.
        -- rewrite P2, (transfersTo_all _ _ P3). lia.
        -- rewrite (transfersTo_none _ _ _ Hne P3). lia.
Qed.

Lemma updateFlightStatus_ok_inv (sender now : N) (fid : string) (delayed : bool)
    (s s' : State) (log : list Transfer) :
  updateFlightStatus sender now fid delayed s = Ok (s', log) ->
  sender = oracle s /\
  if delayed
  then scanSubscribers now fid (allSubscribers s) (recordStatus s fid true)
       = Ok (s', log)
  else s' = recordStatus s fid false /\ log = [].
Proof.
  unfold updateFlightStatus. intros H. ok_inv H as x Hor.
  apply require_ok_inv in Hor. apply N.eqb_eq in Hor.
  split; [exact Hor|].
  destruct delayed; [exact H|]. injection H as <- <-. auto.
Qed.

(** One transaction keeps every policy of every address, and the number
    of policies that became paid is the number of transfers received. *)
Lemma transact_payouts (sender now : N) (c : Call) (s s' : State)
    (log : list Transfer) :
  transact sender now c s = (s', log) ->
  Forall (fun t => snd t = PAYOUT) log /\
  forall v : N,
    policiesKept (policies (subscriptionOf s v))
                 (policies (subscriptionOf s' v)) /\
    paidCount (policies (subscriptionOf s' v)) =
    (paidCount (policies (subscriptionOf s v)) + transfersTo v log)%nat.
Proof.
  unfold transact. destruct (exec sender now c s) as [[s1 log1]|e] eqn:He;
    intros H; injection H as <- <-.
  2:{ split; [constructor|]. intros v.
      split; [apply policiesKept_refl | unfold transfersTo, subscriptionOf; simpl; lia]. }
  destruct c as [o|v0|v0|fid fts|fid d]; simpl in He.
  - ok_inv He as s2 Hop. injection He as <- <-.
    unfold setOracle in Hop. ok_inv Hop as x1 H1. ok_inv Hop as x2 H2.
    injection Hop as <-. split; [constructor|]. intros v.
    split; [apply policiesKept_refl | unfold transfersTo, subscriptionOf; simpl; lia].
  - ok_inv He as s2 Hop. injection He as <- <-.
    unfold depositFunds in Hop. ok_inv Hop as x1 H1. injection Hop as <-.
    split; [constructor|]. intros v.
    split; [apply policiesKept_refl | unfold transfersTo, subscriptionOf; simpl; lia].
  - ok_inv He as s2 Hop. injection He as <- <-.
    unfold subscribe in Hop. ok_inv Hop as x1 H1. ok_inv Hop as x2 H2.
    injection Hop as <-. split; [constructor|]. intros v.
    unfold subscriptionOf at 2 4; simpl. rewrite lookup_insert.
    destruct (decide (sender = v)) as [->|Hne]; simpl;
      (split; [apply policiesKept_refl | unfold transfersTo, subscriptionOf; simpl; lia]).
  - ok_inv He as s2 Hop. injection He as <- <-.
    unfold registerFlight in Hop. ok_inv Hop as x1 H1. ok_inv Hop as limit H2.
    ok_inv Hop as x3 H3. ok_inv Hop as x4 H4. injection Hop as <-.
    split; [constructor|]. intros v.
    rewrite subscriptionOf_setSubscription.
    destruct (decide (sender = v)) as [->|Hne]; simpl.
    + split; [apply policiesKept_app|]. rewrite paidCount_app. reflexivity.
    + split; [apply policiesKept_refl | unfold transfersTo, subscriptionOf; simpl; lia].
  - apply updateFlightStatus_ok_inv in He as (_ & Hd).
    destruct d.
    + destruct (scanSubscribers_spec _ _ _ _ _ _ Hd)
        as (_ & _ & _ & _ & _ & K6 & K7).
      split; [exact K6|]. intros v. destruct (K7 v) as (_ & _ & V3 & V4).
      split; [exact V3 | exact V4].
    + destruct Hd as [-> ->]. split; [constructor|]. intros v.
      split; [apply policiesKept_refl | unfold transfersTo, subscriptionOf; simpl; lia].
Qed.

Lemma run_payouts (txs : list Tx) :
  forall (s s' : State) (log : list Transfer),
    run txs s = (s', log) ->
    Forall (fun t => snd t = PAYOUT) log /\
    forall v : N,
      policiesKept (policies (subscriptionOf s v))
                   (policies (subscriptionOf s' v)) /\
      paidCount (policies (subscriptionOf s' v)) =
      (paidCount (policies (subscriptionOf s v)) + transfersTo v log)%nat.
Proof.
  induction txs as [|tx txs IH]; intros s s' log H; simpl in H.
  - injection H as <- <-. split; [constructor|]. intros v.
    split; [apply policiesKept_refl | unfold transfersTo, subscriptionOf; simpl; lia].
  - destruct (transact (txSender tx) (txTime tx) (txCall tx) s)
      as [s1 log1] eqn:Hstep.
    destruct (run txs s1) as [s2 log2] eqn:Hrest. injection H as <- <-.
    destruct (transact_payouts _ _ _ _ _ _ Hstep) as (T1 & T2).
    destruct (IH _ _ _ Hrest) as (R1 & R2).
    split; [apply Forall_app; split; assumption|]. intros v.
    destruct (T2 v) as (A1 & A2). destruct (R2 v) as (B1 & B2).
    split; [eapply policiesKept_trans; eassumption|].
    rewrite B2, A2, transfersTo_app. lia.
Qed.

(** The inner loop over a concatenation runs the two parts in sequence. *)
Lemma payPolicies_app (now : N) (fid : string) (u : N) (ps1 ps2 : list Policy) :
  forall bal : N,
    payPolicies now fid u (ps1 ++ ps2) bal =
    let* (r1, b1, l1) := payPolicies now fid u ps1 bal in
    let* (r2, b2, l2) := payPolicies now fid u ps2 b1 in
    Ok (r1 ++ r2, b2, l1 ++ l2).
Proof.
  induction ps1 as [|p ps1 IH]; intros bal; simpl.
  - destruct (payPolicies now fid u ps2 bal) as [[[r b] l]|e]; reflexivity.
  - destruct (policyDue now fid p) as [[|]|e]; simpl; [| |reflexivity].
    + destruct (PAYOUT <=? bal); simpl; [|reflexivity].
      rewrite IH.
      destruct (payPolicies now fid u ps1 (bal - PAYOUT)) as [[[r b] l]|e];
        simpl; [|reflexivity].
      destruct (payPolicies now fid u ps2 b) as [[[r2 b2] l2]|e];
        reflexivity.
    + rewrite IH.
      destruct (payPolicies now fid u ps1 bal) as [[[r b] l]|e];
        simpl; [|reflexivity].
      destruct (payPolicies now fid u ps2 b) as [[[r2 b2] l2]|e];
        reflexivity.
Qed.

(** The outer loop over a concatenation likewise. *)
Lemma scanSubscribers_app (now : N) (fid : string) (us1 us2 : list N) :
  forall s : State,
    scanSubscribers now fid (us1 ++ us2) s =
    let* (s1, l1) := scanSubscribers now fid us1 s in
    let* (s2, l2) := scanSubscribers now fid us2 s1 in
    Ok (s2, l1 ++ l2).
Proof.
  induction us1 as [|u us1 IH]; intros s; simpl.
  - destruct (scanSubscribers now fid us2 s) as [[s2 l2]|e]; reflexivity.
  - destruct (checked_add _ _) as [limit|e]; simpl; [|reflexivity].
    destruct (limit <=? now).
    + apply IH.
    + destruct (payPolicies _ _ _ _ _) as [[[r b] l]|e]; simpl; [|reflexivity].
      rewrite IH.
      destruct (scanSubscribers now fid us1 _) as [[s1 l1]|e];
        simpl; [|reflexivity].
      destruct (scanSubscribers now fid us2 s1) as [[s2 l2]|e]; simpl;
        [rewrite app_assoc|]; reflexivity.
Qed.

(** A due policy met with less than [PAYOUT] left makes the inner loop
    revert. *)
Lemma payPolicies_insufficient (now : N) (fid : string) (u : N)
    (ps1 ps2 ps1' : list Policy) (p : Policy) (bal bal1 : N)
    (plog : list Transfer) :
  payPolicies now fid u ps1 bal = Ok (ps1', bal1, plog) ->
  policyDue now fid p = Ok true ->
  bal1 < PAYOUT ->
  payPolicies now fid u (ps1 ++ p :: ps2) bal = Revert InsufficientPool.
Proof.
  intros H1 Hdue Hbal. rewrite payPolicies_app, H1. simpl.
  rewrite Hdue. simpl.
  destruct (N.leb_spec PAYOUT bal1); [lia | reflexivity].
Qed.

(** The same for the whole call: the scan has reached subscriber [u] in
    storage [s1], [u] is not expired, and within [u]'s policies the loop
    has reached the due policy [p] with [bal1 < PAYOUT] left. *)
Lemma updateFlightStatus_insufficient (s s1 : State) (now : N) (fid : string)
    (us1 us2 : list N) (u : N) (log1 plog : list Transfer)
    (ps1 ps2 ps1' : list Policy) (p : Policy) (bal1 : N) :
  allSubscribers s = us1 ++ u :: us2 ->
  scanSubscribers now fid us1 (recordStatus s fid true) = Ok (s1, log1) ->
  now < startTime (subscriptionOf s1 u) + SUBSCRIPTION_DURATION <= MAX_UINT256 ->
  policies (subscriptionOf s1 u) = ps1 ++ p :: ps2 ->
  payPolicies now fid u ps1 (balance s1) = Ok (ps1', bal1, plog) ->
  policyDue now fid p = Ok true ->
  bal1 < PAYOUT ->
  updateFlightStatus (oracle s) now fid true s = Revert InsufficientPool.
Proof.
  intros Hus Hscan [Hnow Hmax] Hps Hpay Hdue Hbal.
  unfold updateFlightStatus. rewrite N.eqb_refl. simpl.
  rewrite Hus, scanSubscribers_app, Hscan. simpl.
  rewrite (checked_add_in_range _ _ Hmax). simpl.
  destruct (N.leb_spec (startTime (subscriptionOf s1 u) + SUBSCRIPTION_DURATION) now);
    [lia|].
  rewrite Hps, (payPolicies_insufficient _ _ _ _ _ _ _ _ _ _ Hpay Hdue Hbal).
  reflexivity.
Qed.


Lemma policyDue_in_range (now : N) (fid : string) (p : Policy) :
  flightTimestamp p + DELAY_THRESHOLD <= MAX_UINT256 ->
  (owed now fid p /\ policyDue now fid p = Ok true) \/
  (~ owed now fid p /\ policyDue now fid p = Ok false).
Proof.
  intros Hmax. unfold policyDue, owed.
  destruct (String.eqb_spec (flightID p) fid) as [Heq|Hne]; simpl.
  2:{ right. split; [intros (K & _); contradiction | reflexivity]. }
  destruct (hasPaidOut p); simpl.
  { right. split; [intros (_ & K & _); discriminate | reflexivity]. }
  rewrite (checked_add_in_range _ _ Hmax). simpl.
  destruct (N.leb_spec (flightTimestamp p + DELAY_THRESHOLD) now).
  - left. auto.
  - right. split; [intros (_ & _ & K); lia | reflexivity].
Qed.

(** With less than [PAYOUT] in the pool the inner loop either changes
    nothing, and then nothing was owed, or reverts for lack of funds. *)
Lemma payPolicies_broke (now : N) (fid : string) (u : N) (ps : list Policy)
    (bal : N) :
  bal < PAYOUT ->
  Forall (fun p => flightTimestamp p + DELAY_THRESHOLD <= MAX_UINT256) ps ->
  (~ owedIn now fid ps /\ payPolicies now fid u ps bal = Ok (ps, bal, [])) \/
  (owedIn now fid ps /\ payPolicies now fid u ps bal = Revert InsufficientPool).
Proof.
  intros Hbal. induction 1 as [|p ps Hp _ IH].
  - left. split; [intros (p & [] & _) | reflexivity].
  - simpl. destruct (policyDue_in_range now fid p Hp) as [[Ho ->]|[Hno ->]]; simpl.
    + right. split; [exists p; split; [left; reflexivity | exact Ho]|].
      destruct (N.leb_spec PAYOUT bal); [lia | reflexivity].
    + destruct IH as [[Hnone ->]|[Hsome ->]]; simpl.
      * left. split; [|reflexivity].
        intros (q & [<-|Hin] & Hq); [contradiction|].
        apply Hnone. exists q. auto.
      * right. split; [|reflexivity].
        destruct Hsome as (q & Hin & Hq). exists q. split; [right|]; assumption.
Qed.

(** The same for the scan: with less than [PAYOUT] in the pool and all
    stored timestamps in range, the scan either pays nothing, and then no
    listed unexpired subscriber was owed anything, or reverts for lack of
    funds. *)
Lemma scanSubscribers_broke (now : N) (fid : string) (us : list N) :
  forall s : State,
    balance s < PAYOUT ->
    (forall v, subscriptionInRange (subscriptionOf s v)) ->
    match scanSubscribers now fid us s with
    | Ok (s', log) =>
        log = [] /\
        forall v, In v us ->
          now < startTime (subscriptionOf s v) + SUBSCRIPTION_DURATION ->
          ~ owedIn now fid (policies (subscriptionOf s v))
    | Revert e => e = InsufficientPool
    end.
Proof.
  induction us as [|u us IH]; intros s Hbal Hrange.
  - simpl. split; [reflexivity | intros v []].
  - simpl. destruct (Hrange u) as [Hstart Hpols].
    rewrite (checked_add_in_range _ _ Hstart). simpl.
    destruct (N.leb_spec (startTime (subscriptionOf s u) + SUBSCRIPTION_DURATION) now)
      as [Hexp|Hlive].
    + set (s1 := setSubscription s u (deactivate (subscriptionOf s u))).
      assert (Hsame : forall v,
                 startTime (subscriptionOf s1 v) = startTime (subscriptionOf s v) /\
                 policies (subscriptionOf s1 v) = policies (subscriptionOf s v)).
      { intros v. unfold s1. rewrite subscriptionOf_setSubscription.
        destruct (decide (u = v)) as [->|]; auto. }
      specialize (IH s1 Hbal).
      destruct (scanSubscribers now fid us s1) as [[s' log]|e].
      * destruct IH as [-> IH].
        { intros v. destruct (Hsame v) as [E1 E2]. unfold subscriptionInRange.
          rewrite E1, E2. apply Hrange. }
        split; [reflexivity|]. intros v [<-|Hin] Hv; [lia|].
        destruct (Hsame v) as [E1 E2]. rewrite <- E2. apply IH; [exact Hin|].
        rewrite E1. exact Hv.
      * apply IH. intros v. destruct (Hsame v) as [E1 E2].
        unfold subscriptionInRange. rewrite E1, E2. apply Hrange.
    + destruct (payPolicies_broke now fid u _ _ Hbal Hpols)
        as [[Hnone ->]|[Hsome ->]]; simpl; [|reflexivity].
      set (s1 := setBalance (setSubscription s u
                   (withPolicies (subscriptionOf s u)
                      (policies (subscriptionOf s u)))) (balance s)).
      assert (Hsame : forall v,
                 startTime (subscriptionOf s1 v) = startTime (subscriptionOf s v) /\
                 policies (subscriptionOf s1 v) = policies (subscriptionOf s v)).
      { intros v. unfold s1.
        rewrite subscriptionOf_setBalance, subscriptionOf_setSubscription.
        destruct (decide (u = v)) as [->|]; auto. }
      specialize (IH s1 Hbal).
      destruct (scanSubscribers now fid us s1) as [[s' log]|e]; simpl.
      * destruct IH as [-> IH].
        { intros v. destruct (Hsame v) as [E1 E2]. unfold subscriptionInRange.
          rewrite E1, E2. apply Hrange. }
        split; [reflexivity|]. intros v [<-|Hin] Hv; [exact Hnone|].
        destruct (Hsame v) as [E1 E2]. rewrite <- E2. apply IH; [exact Hin|].
        rewrite E1. exact Hv.
      * apply IH. intros v. destruct (Hsame v) as [E1 E2].
        unfold subscriptionInRange. rewrite E1, E2. apply Hrange.
Qed.

(** An empty or short pool and an owed payout: the report reverts with
    [InsufficientPool]. *)
Lemma updateFlightStatus_broke (s : State) (now : N) (fid : string) (u : N) :
  balance s < PAYOUT ->
  (forall v, subscriptionInRange (subscriptionOf s v)) ->
  In u (allSubscribers s) ->
  now < startTime (subscriptionOf s u) + SUBSCRIPTION_DURATION ->
  owedIn now fid (policies (subscriptionOf s u)) ->
  updateFlightStatus (oracle s) now fid true s = Revert InsufficientPool.
Proof.
  intros Hbal Hrange Hin Hlive Howed.
  unfold updateFlightStatus. rewrite N.eqb_refl. simpl.
  pose proof (scanSubscribers_broke now fid (allSubscribers s)
                (recordStatus s fid true) Hbal Hrange) as Hscan.
  destruct (scanSubscribers now fid (allSubscribers s) (recordStatus s fid true))
    as [[s' log]|e].
  - destruct Hscan as [_ Hnone]. exfalso. exact (Hnone u Hin Hlive Howed).
  - subst e. reflexivity.
Qed.


(** A subscriber that is expired at [now], or has no policy, gets
    nothing from a scan at [now]: no transfer, and the policies stay as
    they are. *)
Lemma scanSubscribers_lapsed (now : N) (fid : string) (us : list N) (u : N) :
  forall (s s' : State) (log : list Transfer),
    (policies (subscriptionOf s u) = [] \/
     startTime (subscriptionOf s u) + SUBSCRIPTION_DURATION <= now) ->
    scanSubscribers now fid us s = Ok (s', log) ->
    transfersTo u log = 0%nat /\
    policies (subscriptionOf s' u) = policies (subscriptionOf s u).
Proof.
  induction us as [|w us IH]; intros s s' log Hlapsed H.
  - injection H as <- <-. auto.
  - simpl in H. ok_inv H as limit Hlimit.
    apply checked_add_ok_inv in Hlimit as [-> _].
    destruct (N.leb_spec (startTime (subscriptionOf s w) + SUBSCRIPTION_DURATION) now)
      as [Hexp|Hlive].
    + assert (Hsame : startTime (subscriptionOf
                 (setSubscription s w (deactivate (subscriptionOf s w))) u)
               = startTime (subscriptionOf s u) /\
               policies (subscriptionOf
                 (setSubscription s w (deactivate (subscriptionOf s w))) u)
               = policies (subscriptionOf s u)).
      { rewrite subscriptionOf_setSubscription.
        destruct (decide (w = u)) as [->|]; auto. }
      destruct Hsame as [E1 E2].
      destruct (IH _ _ _ (ltac:(rewrite E1, E2; exact Hlapsed)) H) as [K1 K2].
      split; [exact K1 | rewrite K2; exact E2].
    + ok_inv H as [[ps' bal'] plog] Hpay.
      ok_inv H as [s1 log1] Hrec. injection H as <- <-.
      destruct (payPolicies_spec _ _ _ _ _ _ _ _ Hpay) as (P1 & P2 & P3 & P4).
      assert (Hsame : startTime (subscriptionOf
                 (setBalance (setSubscription s w
                    (withPolicies (subscriptionOf s w) ps')) bal') u)
               = startTime (subscriptionOf s u) /\
               policies (subscriptionOf
                 (setBalance (setSubscription s w
                    (withPolicies (subscriptionOf s w) ps')) bal') u)
               = policies (subscriptionOf s u) /\
               transfersTo u plog = 0%nat).
      { rewrite subscriptionOf_setBalance, subscriptionOf_setSubscription.
        destruct (decide (w = u)) as [->|Hne]; simpl.
        - destruct Hlapsed as [Hnil|Hexp]; [|lia].
          rewrite Hnil in Hpay |- *. injection Hpay as <- <- <-. auto.
        - repeat split. exact (transfersTo_none _ _ _ Hne P3). }
      destruct Hsame as (E1 & E2 & E3).
      destruct (IH _ _ _ (ltac:(rewrite E1, E2; exact Hlapsed)) Hrec) as [K1 K2].
      split; [rewrite transfersTo_app, K1, E3; reflexivity|].
      rewrite K2. exact E2.
Qed.

Lemma payPolicies_nil_inv (now : N) (fid : string) (u : N) (ps ps' : list Policy)
    (bal bal' : N) (log : list Transfer) :
  payPolicies now fid u ps bal = Ok (ps', bal', log) -> ps = [] -> ps' = [].
Proof. intros H ->. injection H as <- _ _. reflexivity. Qed.

Lemma scanSubscribers_lapsedOk (now : N) (fid : string) (us : list N) :
  forall (s s' : State) (log : list Transfer),
    lapsedOk now s ->
    scanSubscribers now fid us s = Ok (s', log) ->
    lapsedOk now s'.
Proof.
  induction us as [|w us IH]; intros s s' log Hinv H.
  - injection H as <- <-. exact Hinv.
  - simpl in H. ok_inv H as limit Hlimit.
    apply checked_add_ok_inv in Hlimit as [-> _].
    destruct (N.leb_spec (startTime (subscriptionOf s w) + SUBSCRIPTION_DURATION) now)
      as [Hexp|Hlive].
    + refine (IH _ _ _ _ H). intros v.
      rewrite subscriptionOf_setSubscription.
      destruct (decide (w = v)) as [->|]; simpl;
        [intros _; right; exact Hexp | apply Hinv].
    + ok_inv H as [[ps' bal'] plog] Hpay.
      ok_inv H as [s1 log1] Hrec. injection H as <- <-.
      refine (IH _ _ _ _ Hrec). intros v.
      rewrite subscriptionOf_setBalance, subscriptionOf_setSubscription.
      destruct (decide (w = v)) as [->|]; simpl; [|apply Hinv].
      intros Hoff. destruct (Hinv v Hoff) as [Hnil|Hx]; [|lia].
      left. exact (payPolicies_nil_inv _ _ _ _ _ _ _ _ Hpay Hnil).
Qed.

Lemma lapsedOk_mono (t t' : N) (s : State) :
  t <= t' -> lapsedOk t s -> lapsedOk t' s.
Proof.
  intros Hle Hinv u Hoff. destruct (Hinv u Hoff) as [Hnil|Hexp]; [left|right];
    [assumption | lia].
Qed.

Lemma transact_lapsedOk (sender now : N) (c : Call) (s : State) :
  lapsedOk now s -> lapsedOk now (fst (transact sender now c s)).
Proof.
  intros Hinv. unfold transact.
  destruct (exec sender now c s) as [[s1 log1]|e] eqn:He; simpl; [|exact Hinv].
  destruct c as [o|v0|v0|fid fts|fid d]; simpl in He.
  - ok_inv He as s2 Hop. injection He as <- <-.
    unfold setOracle in Hop. ok_inv Hop as x1 H1. ok_inv Hop as x2 H2.
    injection Hop as <-. exact Hinv.
  - ok_inv He as s2 Hop. injection He as <- <-.
    unfold depositFunds in Hop. ok_inv Hop as x1 H1. injection Hop as <-.
    exact Hinv.
  - ok_inv He as s2 Hop. injection He as <- <-.
    unfold subscribe in Hop. ok_inv Hop as x1 H1. ok_inv Hop as x2 H2.
    injection Hop as <-. intros v. unfold subscriptionOf; simpl.
    rewrite lookup_insert. destruct (decide (sender = v)) as [->|Hne]; simpl.
    + discriminate.
    + apply Hinv.
  - ok_inv He as s2 Hop. injection He as <- <-.
    unfold registerFlight in Hop. ok_inv Hop as x1 H1. ok_inv Hop as limit H2.
    ok_inv Hop as x3 H3. ok_inv Hop as x4 H4. injection Hop as <-.
    apply require_ok_inv in H1.
    intros v. rewrite subscriptionOf_setSubscription.
    destruct (decide (sender = v)) as [->|Hne]; simpl.
    + rewrite H1. discriminate.
    + apply Hinv.
  - apply updateFlightStatus_ok_inv in He as (_ & Hd). destruct d.
    + refine (scanSubscribers_lapsedOk _ _ _ (recordStatus s fid true) _ _ _ Hd).
      exact Hinv.
    + destruct Hd as [-> _]. exact Hinv.
Qed.

Lemma reachable_lapsedOk (t : N) (s : State) :
  reachable t s -> lapsedOk t s.
Proof.
  induction 1 as [sender t|t s sender now c Hreach IH Hle].
  - intros u _. left. reflexivity.
  - apply transact_lapsedOk. exact (lapsedOk_mono _ _ _ Hle IH).
Qed.


(** *** [subscribe] *)

Lemma subscribe_wrong_premium (sender value now : N) (s : State) :
  value <> PREMIUM -> subscribe sender value now s = Revert WrongPremium.
Proof.
  intros Hne. unfold subscribe.
  destruct (N.eqb_spec value PREMIUM); [contradiction | reflexivity].
Qed.

Lemma subscribe_already (sender now : N) (s : State) :
  isActive (subscriptionOf s sender) = true ->
  subscribe sender PREMIUM now s = Revert AlreadySubscribed.
Proof.
  intros Hact. unfold subscribe. rewrite N.eqb_refl. simpl.
  change (subscriptionOf (setBalance s (balance s + PREMIUM)) sender)
    with (subscriptionOf s sender).
  rewrite Hact. reflexivity.
Qed.

Lemma subscribe_ok (sender now : N) (s : State) :
  isActive (subscriptionOf s sender) = false ->
  subscribe sender PREMIUM now s =
  Ok {| insurer := insurer s; oracle := oracle s;
        subscriptions :=
          <[sender := {| isActive := true; startTime := now;
                         policies := policies (subscriptionOf s sender) |}]>
            (subscriptions s);
        flightDelays := flightDelays s;
        allSubscribers := allSubscribers s ++ [sender];
        balance := balance s + PREMIUM |}.
Proof.
  intros Hoff. unfold subscribe. rewrite N.eqb_refl. simpl.
  change (subscriptionOf (setBalance s (balance s + PREMIUM)) sender)
    with (subscriptionOf s sender).
  rewrite Hoff. reflexivity.
Qed.

Lemma subscribe_ok_inv (sender value now : N) (s s' : State) :
  subscribe sender value now s = Ok s' ->
  value = PREMIUM /\ isActive (subscriptionOf s sender) = false /\
  isActive (subscriptionOf s' sender) = true /\
  startTime (subscriptionOf s' sender) = now /\
  policies (subscriptionOf s' sender) = policies (subscriptionOf s sender) /\
  balance s' = balance s + PREMIUM.
Proof.
  intros H. unfold subscribe in H.
  ok_inv H as x1 H1. apply require_ok_inv in H1. apply N.eqb_eq in H1.
  ok_inv H as x2 H2. apply require_ok_inv in H2. apply negb_true_iff in H2.
  injection H as <-. subst value.
  unfold subscriptionOf in *. simpl in *. rewrite !lookup_insert_eq. simpl.
  repeat split; try reflexivity. exact H2.
Qed.

(** *** [registerFlight] *)

Lemma registerFlight_dup_fails (sender now : N) (fid : string) (fts : N)
    (s : State) :
  hasFlight fid (policies (subscriptionOf s sender)) ->
  is_ok (registerFlight sender now fid fts s) = false.
Proof.
  intros Hdup. unfold registerFlight.
  destruct (isActive (subscriptionOf s sender)); simpl; [|reflexivity].
  destruct (checked_add _ _) as [limit|e]; simpl; [|reflexivity].
  destruct (now <? limit); simpl; [|reflexivity].
  rewrite (requireUnregistered_dup _ _ Hdup). reflexivity.
Qed.

Lemma registerFlight_dup (sender now : N) (fid : string) (fts : N) (s : State) :
  isActive (subscriptionOf s sender) = true ->
  now < startTime (subscriptionOf s sender) + SUBSCRIPTION_DURATION <= MAX_UINT256 ->
  hasFlight fid (policies (subscriptionOf s sender)) ->
  registerFlight sender now fid fts s = Revert DuplicateFlight.
Proof.
  intros Hact [Hnow Hmax] Hdup. unfold registerFlight.
  rewrite Hact, (checked_add_in_range _ _ Hmax). simpl.
  destruct (N.ltb_spec now (startTime (subscriptionOf s sender) + SUBSCRIPTION_DURATION));
    [|lia].
  simpl. rewrite (requireUnregistered_dup _ _ Hdup). reflexivity.
Qed.

Lemma registerFlight_ok (sender now : N) (fid : string) (fts : N) (s : State) :
  isActive (subscriptionOf s sender) = true ->
  now < startTime (subscriptionOf s sender) + SUBSCRIPTION_DURATION <= MAX_UINT256 ->
  ~ hasFlight fid (policies (subscriptionOf s sender)) ->
  registerFlight sender now fid fts s =
  Ok (setSubscription s sender
        (withPolicies (subscriptionOf s sender)
           (policies (subscriptionOf s sender) ++
            [{| flightID := fid; flightTimestamp := fts; hasPaidOut := false |}]))).
Proof.
  intros Hact [Hnow Hmax] Hfresh. unfold registerFlight.
  rewrite Hact, (checked_add_in_range _ _ Hmax). simpl.
  destruct (N.ltb_spec now (startTime (subscriptionOf s sender) + SUBSCRIPTION_DURATION));
    [|lia].
  simpl. rewrite (requireUnregistered_fresh _ _ Hfresh). reflexivity.
Qed.

Lemma registerFlight_ok_inv (sender now : N) (fid : string) (fts : N)
    (s s' : State) :
  registerFlight sender now fid fts s = Ok s' ->
  isActive (subscriptionOf s sender) = true /\
  now < startTime (subscriptionOf s sender) + SUBSCRIPTION_DURATION <= MAX_UINT256 /\
  ~ hasFlight fid (policies (subscriptionOf s sender)) /\
  s' = setSubscription s sender
        (withPolicies (subscriptionOf s sender)
           (policies (subscriptionOf s sender) ++
            [{| flightID := fid; flightTimestamp := fts; hasPaidOut := false |}])).
Proof.
  intros H. unfold registerFlight in H.
  ok_inv H as x1 H1. apply require_ok_inv in H1.
  ok_inv H as limit H2. apply checked_add_ok_inv in H2 as [-> Hmax].
  ok_inv H as x3 H3. apply require_ok_inv in H3. apply N.ltb_lt in H3.
  ok_inv H as x4 H4. apply requireUnregistered_ok_inv in H4.
  injection H as <-. auto.
Qed.

(** The outcome of [registerFlight] for a caller depends on the caller's
    own subscription only. *)
Lemma registerFlight_local (v now : N) (fid : string) (fts : N) (s1 s2 : State) :
  subscriptionOf s1 v = subscriptionOf s2 v ->
  is_ok (registerFlight v now fid fts s1) = is_ok (registerFlight v now fid fts s2).
Proof.
  intros Heq. unfold registerFlight. rewrite Heq.
  destruct (isActive (subscriptionOf s2 v)); simpl; [|reflexivity].
  destruct (checked_add _ _) as [limit|e]; simpl; [|reflexivity].
  destruct (now <? limit); simpl; [|reflexivity].
  destruct (requireUnregistered fid _) as [[]|e]; reflexivity.
Qed.

Lemma isSubscribed_true_inv (now user : N) (s : State) :
  isSubscribed now user s = Ok true ->
  isActive (subscriptionOf s user) = true /\
  now < startTime (subscriptionOf s user) + SUBSCRIPTION_DURATION.
Proof.
  unfold isSubscribed. destruct (isActive (subscriptionOf s user)); [|discriminate].
  intros H. ok_inv H as limit Hlimit.
  apply checked_add_ok_inv in Hlimit as [-> _].
  injection H as H. apply N.ltb_lt in H. auto.
Qed.

(** *** [depositFunds] *)

Lemma depositFunds_ok (value : N) (s : State) :
  depositFunds (insurer s) value s = Ok (setBalance s (balance s + value)).
Proof. unfold depositFunds. simpl. rewrite N.eqb_refl. reflexivity. Qed.

Lemma depositFunds_ok_inv (sender value : N) (s s' : State) :
  depositFunds sender value s = Ok s' ->
  sender = insurer s /\ s' = setBalance s (balance s + value).
Proof.
  unfold depositFunds. intros H. ok_inv H as x1 H1.
  apply require_ok_inv in H1. apply N.eqb_eq in H1. injection H as <-. auto.
Qed.

(** *** Calls that are not a delayed report *)

(** They make no transfer and leave every stored policy as it is; at
    most an unpaid policy is appended. *)
Lemma transact_quiet (sender now : N) (c : Call) (s s' : State)
    (log : list Transfer) :
  isDelayedReport c = false ->
  transact sender now c s = (s', log) ->
  log = [] /\
  forall v, exists extra,
    policies (subscriptionOf s' v) = policies (subscriptionOf s v) ++ extra /\
    Forall (fun p => hasPaidOut p = false) extra.
Proof.
  intros Hc. unfold transact.
  destruct (exec sender now c s) as [[s1 log1]|e] eqn:He;
    intros H; injection H as <- <-.
  2:{ split; [reflexivity|]. intros v. exists []. rewrite app_nil_r. auto. }
  destruct c as [o|v0|v0|fid fts|fid d]; simpl in He.
  - ok_inv He as s2 Hop. injection He as <- <-.
    unfold setOracle in Hop. ok_inv Hop as x1 H1. ok_inv Hop as x2 H2.
    injection Hop as <-. split; [reflexivity|]. intros v. exists [].
    rewrite app_nil_r. auto.
  - ok_inv He as s2 Hop. injection He as <- <-.
    apply depositFunds_ok_inv in Hop as [_ ->].
    split; [reflexivity|]. intros v. exists []. rewrite app_nil_r. auto.
  - ok_inv He as s2 Hop. injection He as <- <-.
    unfold subscribe in Hop. ok_inv Hop as x1 H1. ok_inv Hop as x2 H2.
    injection Hop as <-. split; [reflexivity|]. intros v. exists [].
    rewrite app_nil_r. split; [|constructor].
    unfold subscriptionOf; simpl. rewrite lookup_insert.
    destruct (decide (sender = v)) as [->|Hne]; reflexivity.
  - ok_inv He as s2 Hop. injection He as <- <-.
    apply registerFlight_ok_inv in Hop as (_ & _ & _ & ->).
    split; [reflexivity|]. intros v.
    rewrite subscriptionOf_setSubscription.
    destruct (decide (sender = v)) as [->|Hne]; simpl.
    + eexists. split; [reflexivity|]. repeat constructor.
    + exists []. rewrite app_nil_r. auto.
  - destruct d; [discriminate|].
    apply updateFlightStatus_ok_inv in He as (_ & -> & ->).
    split; [reflexivity|]. intros v. exists []. rewrite app_nil_r. auto.
Qed.

(** They do not clear a stored active flag either. *)
Lemma transact_keeps_active (sender now : N) (c : Call) (s : State) (u : N) :
  isDelayedReport c = false ->
  isActive (subscriptionOf s u) = true ->
  isActive (subscriptionOf (fst (transact sender now c s)) u) = true.
Proof.
  intros Hc Hact. unfold transact.
  destruct (exec sender now c s) as [[s1 log1]|e] eqn:He; simpl; [|exact Hact].
  destruct c as [o|v0|v0|fid fts|fid d]; simpl in He.
  - ok_inv He as s2 Hop. injection He as <- <-.
    unfold setOracle in Hop. ok_inv Hop as x1 H1. ok_inv Hop as x2 H2.
    injection Hop as <-. exact Hact.
  - ok_inv He as s2 Hop. injection He as <- <-.
    apply depositFunds_ok_inv in Hop as [_ ->]. exact Hact.
  - ok_inv He as s2 Hop. injection He as <- <-.
    unfold subscribe in Hop. ok_inv Hop as x1 H1. ok_inv Hop as x2 H2.
    injection Hop as <-. unfold subscriptionOf; simpl. rewrite lookup_insert.
    destruct (decide (sender = u)) as [->|Hne]; [reflexivity | exact Hact].
  - ok_inv He as s2 Hop. injection He as <- <-.
    apply registerFlight_ok_inv in Hop as (_ & _ & _ & ->).
    rewrite subscriptionOf_setSubscription.
    destruct (decide (sender = u)) as [->|Hne]; simpl; exact Hact.
  - destruct d; [discriminate|].
    apply updateFlightStatus_ok_inv in He as (_ & -> & ->). exact Hact.
Qed.

(** *** Calls other than the subscriber's own [subscribe] *)

(** They keep the subscriber's start time and never raise the stored
    active flag. *)
Lemma transact_subscription_frame (sender now : N) (c : Call) (s : State) (u : N) :
  isSubscribeBy u sender c = false ->
  startTime (subscriptionOf (fst (transact sender now c s)) u)
  = startTime (subscriptionOf s u) /\
  (isActive (subscriptionOf (fst (transact sender now c s)) u) = true ->
   isActive (subscriptionOf s u) = true).
Proof.
  intros Hc. unfold transact.
  destruct (exec sender now c s) as [[s1 log1]|e] eqn:He; simpl; [|auto].
  destruct c as [o|v0|v0|fid fts|fid d]; simpl in He.
  - ok_inv He as s2 Hop. injection He as <- <-.
    unfold setOracle in Hop. ok_inv Hop as x1 H1. ok_inv Hop as x2 H2.
    injection Hop as <-. auto.
  - ok_inv He as s2 Hop. injection He as <- <-.
    apply depositFunds_ok_inv in Hop as [_ ->]. auto.
  - ok_inv He as s2 Hop. injection He as <- <-.
    unfold subscribe in Hop. ok_inv Hop as x1 H1. ok_inv Hop as x2 H2.
    injection Hop as <-. simpl in Hc. apply N.eqb_neq in Hc.
    unfold subscriptionOf; simpl. rewrite lookup_insert_ne by exact Hc. auto.
  - ok_inv He as s2 Hop. injection He as <- <-.
    apply registerFlight_ok_inv in Hop as (_ & _ & _ & ->).
    rewrite subscriptionOf_setSubscription.
    destruct (decide (sender = u)) as [->|Hne]; simpl; auto.
  - apply updateFlightStatus_ok_inv in He as (_ & Hd). destruct d.
    + destruct (scanSubscribers_spec _ _ _ _ _ _ Hd)
        as (_ & _ & _ & _ & _ & _ & K7).
      destruct (K7 u) as (V1 & V2 & _). auto.
    + destruct Hd as [-> _]. auto.
Qed.

(** *** The scan clears the flag of every listed expired subscriber *)

Lemma scanSubscribers_clears (now : N) (fid : string) (us : list N) (u : N) :
  forall (s s' : State) (log : list Transfer),
    scanSubscribers now fid us s = Ok (s', log) ->
    In u us ->
    startTime (subscriptionOf s u) + SUBSCRIPTION_DURATION <= now ->
    isActive (subscriptionOf s' u) = false.
Proof.
  induction us as [|w us IH]; intros s s' log H Hin Hexp; [destruct Hin|].
  simpl in H. ok_inv H as limit Hlimit.
  apply checked_add_ok_inv in Hlimit as [-> _].
  destruct (N.leb_spec (startTime (subscriptionOf s w) + SUBSCRIPTION_DURATION) now)
    as [Hexpw|Hlive].
  - destruct (scanSubscribers_spec _ _ _ _ _ _ H) as (_ & _ & _ & _ & _ & _ & K7).
    destruct (K7 u) as (_ & V2 & _).
    rewrite subscriptionOf_setSubscription in V2.
    destruct (decide (w = u)) as [->|Hne]; simpl in V2.
    + destruct (isActive (subscriptionOf s' u)); [|reflexivity].
      specialize (V2 eq_refl). discriminate.
    + destruct Hin as [->|Hin]; [contradiction|].
      refine (IH _ _ _ H Hin _). rewrite subscriptionOf_setSubscription.
      destruct (decide (w = u)); [contradiction | exact Hexp].
  - ok_inv H as [[ps' bal'] plog] Hpay.
    ok_inv H as [s1 log1] Hrec. injection H as <- <-.
    destruct Hin as [->|Hin]; [lia|].
    refine (IH _ _ _ Hrec Hin _).
    rewrite subscriptionOf_setBalance, subscriptionOf_setSubscription.
    destruct (decide (w = u)) as [->|]; [lia | exact Hexp].
Qed.

End BaseFacts.

(** ** Facts about [src/unnamed/part_002] *)

Module RevFacts.
Import Rev.

Lemma rev_subscriptionOf_setSubscription (s : State) (u v : N) (sub : Subscription) :
  subscriptionOf (setSubscription s u sub) v =
  if decide (u = v) then sub else subscriptionOf s v.
Proof.
  unfold subscriptionOf, setSubscription; simpl.
  rewrite lookup_insert. destruct (decide (u = v)); reflexivity.
Qed.

Lemma rev_subscriptionOf_setBalance (s : State) (b : N) (v : N) :
  subscriptionOf (setBalance s b) v = subscriptionOf s v.
Proof. reflexivity. Qed.

Lemma stillActive_true_inv (now : N) (sub : Subscription) :
  stillActive now sub = Ok true ->
  isActive sub = true /\ now < startTime sub + SUBSCRIPTION_DURATION.
Proof.
  unfold stillActive. destruct (isActive sub); [|discriminate].
  intros H. ok_inv H as limit Hlimit.
  apply checked_add_ok_inv in Hlimit as [-> _].
  injection H as H. apply N.ltb_lt in H. auto.
Qed.

Lemma stillActive_false_inv (now : N) (sub : Subscription) :
  stillActive now sub = Ok false ->
  isActive sub = false \/ startTime sub + SUBSCRIPTION_DURATION <= now.
Proof.
  unfold stillActive. destruct (isActive sub); [|auto].
  intros H. ok_inv H as limit Hlimit.
  apply checked_add_ok_inv in Hlimit as [-> _].
  injection H as H. apply N.ltb_ge in H. auto.
Qed.

(** What one pass of the inner loop does to a user's policies, to the
    balance and to the log; without [active] it does nothing. *)
Lemma rev_payPolicies_spec (now : N) (fid : string) (u : N) (active : bool)
    (ps : list Policy) :
  forall (bal : N) (ps' : list Policy) (bal' : N) (log : list Transfer),
    payPolicies now fid u active ps bal = Ok (ps', bal', log) ->
    Forall2 keepsPolicy ps ps' /\
    paidCount ps' = (paidCount ps + length log)%nat /\
    Forall (fun t => t = (u, PAYOUT)) log /\
    bal = bal' + PAYOUT * N.of_nat (length log) /\
    (active = false -> ps' = ps /\ log = []).
Proof.
  induction ps as [|p ps IH]; intros bal ps' bal' log H.
  - injection H as <- <- <-.
    repeat split; [constructor | constructor | simpl; lia].
  - simpl in H. ok_inv H as limit Hlimit.
    destruct (String.eqb (flightID p) fid && negb (hasPaidOut p)
              && (limit <=? now) && active) eqn:Hcond.
    + apply andb_true_iff in Hcond as [Hcond Hact].
      apply andb_true_iff in Hcond as [Hcond _].
      apply andb_true_iff in Hcond as [_ Hunpaid].
      apply negb_true_iff in Hunpaid.
      ok_inv H as x Hbal. apply require_ok_inv in Hbal. apply N.leb_le in Hbal.
      ok_inv H as [[r b] l] Hrec. injection H as <- <- <-.
      destruct (IH _ _ _ _ Hrec) as (K1 & K2 & K3 & K4 & K5).
      repeat split.
      * constructor; [apply keepsPolicy_markPaid | exact K1].
      * unfold paidCount in *. simpl. rewrite Hunpaid. simpl. lia.
      * constructor; [reflexivity | exact K3].
      * simpl length. lia.
      * congruence.
      * congruence.
    + ok_inv H as [[r b] l] Hrec. injection H as <- <- <-.
      destruct (IH _ _ _ _ Hrec) as (K1 & K2 & K3 & K4 & K5).
      repeat split.
      * constructor; [apply keepsPolicy_refl | exact K1].
      * unfold paidCount in *. simpl. destruct (hasPaidOut p); simpl; lia.
      * exact K3.
      * exact K4.
      * f_equal. apply K5. assumption.
      * apply K5. assumption.
Qed.

Lemma expire_facts (active : bool) (sub : Subscription) :
  startTime (expire active sub) = startTime sub /\
  policies (expire active sub) = policies sub /\
  (isActive (expire active sub) = true -> isActive sub = true) /\
  (active = false -> isActive (expire active sub) = false).
Proof.
  unfold expire. destruct (isActive sub) eqn:Hact, active; simpl;
    repeat split; congruence.
Qed.

(** What the scan over a list of users does; the statement is the one
    of the other revision. *)
Lemma scanUsers_spec (now : N) (fid : string) (us : list N) :
  forall (s s' : State) (log : list Transfer),
    scanUsers now fid us s = Ok (s', log) ->
    owner s' = owner s /\ oracle s' = oracle s /\
    flightDelays s' = flightDelays s /\
    allSubscribers s' = allSubscribers s /\
    allUsersWithFlights s' = allUsersWithFlights s /\
    balance s = balance s' + PAYOUT * N.of_nat (length log) /\
    Forall (fun t => snd t = PAYOUT) log /\
    forall v : N,
      startTime (subscriptionOf s' v) = startTime (subscriptionOf s v) /\
      (isActive (subscriptionOf s' v) = true ->
       isActive (subscriptionOf s v) = true) /\
      policiesKept (policies (subscriptionOf s v))
                   (policies (subscriptionOf s' v)) /\
      paidCount (policies (subscriptionOf s' v)) =
      (paidCount (policies (subscriptionOf s v)) + transfersTo v log)%nat.
Proof.
  induction us as [|u us IH]; intros s s' log H.
  - injection H as <- <-. repeat split; auto using policiesKept_refl.
    simpl. lia.
  - simpl in H. ok_inv H as active Hactive.
    ok_inv H as [[ps' bal'] plog] Hpay.
    ok_inv H as [s1 log1] Hrec. injection H as <- <-.
    destruct (IH _ _ _ Hrec) as (K1 & K2 & K3 & K4 & K5 & K6 & K7 & K8).
    simpl in K1, K2, K3, K4, K5, K6.
    destruct (expire_facts active (subscriptionOf s u)) as (X1 & X2 & X3 & _).
    rewrite X2 in Hpay.
    destruct (rev_payPolicies_spec _ _ _ _ _ _ _ _ _ Hpay) as (P1 & P2 & P3 & P4 & _).
    repeat split; try assumption.
    * rewrite length_app. lia.
    * apply Forall_app. split; [|exact K7].
      eapply Forall_impl; [exact P3|]. intros t ->. reflexivity.
    * destruct (K8 v) as (V1 & _). rewrite V1.
      rewrite rev_subscriptionOf_setBalance, rev_subscriptionOf_setSubscription.
      destruct (decide (u = v)) as [->|Hne]; [exact X1 | reflexivity].
    * destruct (K8 v) as (_ & V2 & _). intros Hact. apply V2 in Hact.
      rewrite rev_subscriptionOf_setBalance, rev_subscriptionOf_setSubscription in Hact.
      destruct (decide (u = v)) as [->|Hne]; [exact (X3 Hact) | exact Hact].
    * destruct (K8 v) as (_ & _ & V3 & _).
      rewrite rev_subscriptionOf_setBalance, rev_subscriptionOf_setSubscription in V3.
      destruct (decide (u = v)) as [->|Hne]; [|exact V3].
      eapply policiesKept_trans; [|exact V3].
      apply policiesKept_Forall2. exact P1.
    * destruct (K8 v) as (_ & _ & _ & V4). rewrite V4.
      rewrite rev_subscriptionOf_setBalance, rev_subscriptionOf_setSubscription.
      rewrite transfersTo_app.
      destruct (decide (u = v)) as [->|Hne]; simpl.
      -- rewrite P2, (transfersTo_all _ _ P3). lia.
      -- rewrite (transfersTo_none _ _ _ Hne P3). lia.
Qed.

Lemma rev_updateFlightStatus_ok_inv (sender now : N) (fid : string) (delayed : bool)
    (s s' : State) (log : list Transfer) :
  updateFlightStatus sender now fid delayed s = Ok (s', log) ->
  sender = oracle s /\
  if delayed
  then scanUsers now fid (allUsersWithFlights s) (recordStatus s fid true)
       = Ok (s', log)
  else s' = recordStatus s fid false /\ log = [].
Proof.
  unfold updateFlightStatus. intros H. ok_inv H as x Hor.
  apply require_ok_inv in Hor. apply N.eqb_eq in Hor.
  split; [exact Hor|].
  destruct delayed; [exact H|]. injection H as <- <-. auto.
Qed.

Lemma rev_registerFlight_ok_inv (sender : N) (fid : string) (fts : N)
    (s s' : State) :
  registerFlight sender fid fts s = Ok s' ->
  sender <> oracle s /\
  ~ hasFlight fid (policies (subscriptionOf s sender)) /\
  s' = {| oracle := oracle s; owner := owner s;
          subscriptions :=
            <[sender := withPolicies (subscriptionOf s sender)
                (policies (subscriptionOf s sender) ++
                 [{| flightID := fid; flightTimestamp := fts;
                     hasPaidOut := false |}])]> (subscriptions s);
          flightDelays := flightDelays s;
          allSubscribers := allSubscribers s;
          allUsersWithFlights := pushUnique sender (allUsersWithFlights s);
          balance := balance s |}.
Proof.
  intros H. unfold registerFlight in H.
  ok_inv H as x1 H1. apply require_ok_inv in H1. apply negb_true_iff in H1.
  apply N.eqb_neq in H1.
  ok_inv H as x4 H4. apply requireUnregistered_ok_inv in H4.
  injection H as <-. auto.
Qed.

Lemma rev_depositFunds_ok_inv (sender value : N) (s s' : State) :
  depositFunds sender value s = Ok s' ->
  sender = owner s /\ 0 < value /\ s' = setBalance s (balance s + value).
Proof.
  unfold depositFunds. intros H. ok_inv H as x1 H1.
  apply require_ok_inv in H1. apply N.eqb_eq in H1.
  ok_inv H as x2 H2. apply require_ok_inv in H2. apply N.ltb_lt in H2.
  injection H as <-. auto.
Qed.

(** One transaction keeps every policy of every address, and the number
    of policies that became paid is the number of transfers received. *)
Lemma rev_transact_payouts (sender now : N) (c : Call) (s s' : State)
    (log : list Transfer) :
  transact sender now c s = (s', log) ->
  Forall (fun t => snd t = PAYOUT) log /\
  forall v : N,
    policiesKept (policies (subscriptionOf s v))
                 (policies (subscriptionOf s' v)) /\
    paidCount (policies (subscriptionOf s' v)) =
    (paidCount (policies (subscriptionOf s v)) + transfersTo v log)%nat.
Proof.
  unfold transact. destruct (exec sender now c s) as [[s1 log1]|e] eqn:He;
    intros H; injection H as <- <-.
  2:{ split; [constructor|]. intros v.
      split; [apply policiesKept_refl | unfold transfersTo, subscriptionOf; simpl; lia]. }
  destruct c as [o|v0|v0|fid fts|fid d]; simpl in He.
  - ok_inv He as s2 Hop. injection He as <- <-.
    unfold setOracle in Hop. ok_inv Hop as x1 H1.
    injection Hop as <-. split; [constructor|]. intros v.
    split; [apply policiesKept_refl | unfold transfersTo, subscriptionOf; simpl; lia].
  - ok_inv He as s2 Hop. injection He as <- <-.
    apply rev_depositFunds_ok_inv in Hop as (_ & _ & ->).
    split; [constructor|]. intros v.
    split; [apply policiesKept_refl | unfold transfersTo, subscriptionOf; simpl; lia].
  - ok_inv He as s2 Hop. injection He as <- <-.
    unfold subscribe in Hop. ok_inv Hop as x1 H1. ok_inv Hop as x2 H2.
    injection Hop as <-. split; [constructor|]. intros v.
    unfold subscriptionOf; simpl. rewrite lookup_insert.
    destruct (decide (sender = v)) as [->|Hne]; simpl;
      (split; [apply policiesKept_refl | unfold transfersTo; simpl; lia]).
  - ok_inv He as s2 Hop. injection He as <- <-.
    apply rev_registerFlight_ok_inv in Hop as (_ & _ & ->).
    split; [constructor|]. intros v.
    unfold subscriptionOf; simpl. rewrite lookup_insert.
    destruct (decide (sender = v)) as [->|Hne]; simpl.
    + split; [apply policiesKept_app|]. rewrite paidCount_app. reflexivity.
    + split; [apply policiesKept_refl | unfold transfersTo; simpl; lia].
  - apply rev_updateFlightStatus_ok_inv in He as (_ & Hd).
    destruct d.
    + destruct (scanUsers_spec _ _ _ _ _ _ Hd)
        as (_ & _ & _ & _ & _ & _ & K6 & K7).
      split; [exact K6|]. intros v. destruct (K7 v) as (_ & _ & V3 & V4).
      split; [exact V3 | exact V4].
    + destruct Hd as [-> ->]. split; [constructor|]. intros v.
      split; [apply policiesKept_refl | unfold transfersTo, subscriptionOf; simpl; lia].
Qed.

Lemma rev_run_payouts (txs : list Tx) :
  forall (s s' : State) (log : list Transfer),
    run txs s = (s', log) ->
    Forall (fun t => snd t = PAYOUT) log /\
    forall v : N,
      policiesKept (policies (subscriptionOf s v))
                   (policies (subscriptionOf s' v)) /\
      paidCount (policies (subscriptionOf s' v)) =
      (paidCount (policies (subscriptionOf s v)) + transfersTo v log)%nat.
Proof.
  induction txs as [|tx txs IH]; intros s s' log H; simpl in H.
  - injection H as <- <-. split; [constructor|]. intros v.
    split; [apply policiesKept_refl | unfold transfersTo, subscriptionOf; simpl; lia].
  - destruct (transact (txSender tx) (txTime tx) (txCall tx) s)
      as [s1 log1] eqn:Hstep.
    destruct (run txs s1) as [s2 log2] eqn:Hrest. injection H as <- <-.
    destruct (rev_transact_payouts _ _ _ _ _ _ Hstep) as (T1 & T2).
    destruct (IH _ _ _ Hrest) as (R1 & R2).
    split; [apply Forall_app; split; assumption|]. intros v.
    destruct (T2 v) as (A1 & A2). destruct (R2 v) as (B1 & B2).
    split; [eapply policiesKept_trans; eassumption|].
    rewrite B2, A2, transfersTo_app. lia.
Qed.

(** The loops over a concatenation run the two parts in sequence. *)
Lemma rev_payPolicies_app (now : N) (fid : string) (u : N) (active : bool)
    (ps1 ps2 : list Policy) :
  forall bal : N,
    payPolicies now fid u active (ps1 ++ ps2) bal =
    let* (r1, b1, l1) := payPolicies now fid u active ps1 bal in
    let* (r2, b2, l2) := payPolicies now fid u active ps2 b1 in
    Ok (r1 ++ r2, b2, l1 ++ l2).
Proof.
  induction ps1 as [|p ps1 IH]; intros bal; simpl.
  - destruct (payPolicies now fid u active ps2 bal) as [[[r b] l]|e]; reflexivity.
  - destruct (checked_add _ _) as [limit|e]; simpl; [|reflexivity].
    destruct (String.eqb (flightID p) fid && negb (hasPaidOut p)
              && (limit <=? now) && active).
    + destruct (PAYOUT <=? bal); simpl; [|reflexivity].
      rewrite IH.
      destruct (payPolicies now fid u active ps1 (bal - PAYOUT))
        as [[[r b] l]|e]; simpl; [|reflexivity].
      destruct (payPolicies now fid u active ps2 b) as [[[r2 b2] l2]|e];
        reflexivity.
    + rewrite IH.
      destruct (payPolicies now fid u active ps1 bal) as [[[r b] l]|e];
        simpl; [|reflexivity].
      destruct (payPolicies now fid u active ps2 b) as [[[r2 b2] l2]|e];
        reflexivity.
Qed.

Lemma scanUsers_app (now : N) (fid : string) (us1 us2 : list N) :
  forall s : State,
    scanUsers now fid (us1 ++ us2) s =
    let* (s1, l1) := scanUsers now fid us1 s in
    let* (s2, l2) := scanUsers now fid us2 s1 in
    Ok (s2, l1 ++ l2).
Proof.
  induction us1 as [|u us1 IH]; intros s; simpl.
  - destruct (scanUsers now fid us2 s) as [[s2 l2]|e]; reflexivity.
  - destruct (stillActive _ _) as [active|e]; simpl; [|reflexivity].
    destruct (payPolicies _ _ _ _ _ _) as [[[r b] l]|e]; simpl; [|reflexivity].
    rewrite IH.
    destruct (scanUsers now fid us1 _) as [[s1 l1]|e]; simpl; [|reflexivity].
    destruct (scanUsers now fid us2 s1) as [[s2 l2]|e]; simpl;
      [rewrite app_assoc|]; reflexivity.
Qed.

Lemma stillActive_live (now : N) (sub : Subscription) :
  isActive sub = true ->
  now < startTime sub + SUBSCRIPTION_DURATION <= MAX_UINT256 ->
  stillActive now sub = Ok true.
Proof.
  intros Hact [Hnow Hmax]. unfold stillActive.
  rewrite Hact, (checked_add_in_range _ _ Hmax). simpl.
  destruct (N.ltb_spec now (startTime sub + SUBSCRIPTION_DURATION)); [reflexivity | lia].
Qed.

Lemma stillActive_lapsed (now : N) (sub : Subscription) (active : bool) :
  isActive sub = false \/ startTime sub + SUBSCRIPTION_DURATION <= now ->
  stillActive now sub = Ok active -> active = false.
Proof.
  intros Hlapsed H. destruct active; [|reflexivity].
  apply stillActive_true_inv in H as [Hact Hnow].
  destruct Hlapsed as [Hoff|Hexp]; [congruence | lia].
Qed.

Lemma expire_live (sub : Subscription) : expire true sub = sub.
Proof. unfold expire. rewrite andb_false_r. reflexivity. Qed.

(** An owed policy of an active user met with less than [PAYOUT] left
    makes the inner loop revert. *)
Lemma rev_payPolicies_insufficient (now : N) (fid : string) (u : N)
    (ps1 ps2 ps1' : list Policy) (p : Policy) (bal bal1 : N)
    (plog : list Transfer) :
  payPolicies now fid u true ps1 bal = Ok (ps1', bal1, plog) ->
  owed now fid p ->
  flightTimestamp p + DELAY_THRESHOLD <= MAX_UINT256 ->
  bal1 < PAYOUT ->
  payPolicies now fid u true (ps1 ++ p :: ps2) bal = Revert InsufficientPool.
Proof.
  intros H1 (Hid & Hunpaid & Hlate) Hmax Hbal.
  rewrite rev_payPolicies_app, H1. simpl.
  rewrite (checked_add_in_range _ _ Hmax). simpl.
  rewrite Hid, String.eqb_refl, Hunpaid. simpl.
  destruct (N.leb_spec (flightTimestamp p + DELAY_THRESHOLD) now); [|lia].
  simpl. destruct (N.leb_spec PAYOUT bal1); [lia | reflexivity].
Qed.

Lemma rev_updateFlightStatus_insufficient (s s1 : State) (now : N) (fid : string)
    (us1 us2 : list N) (u : N) (log1 plog : list Transfer)
    (ps1 ps2 ps1' : list Policy) (p : Policy) (bal1 : N) :
  allUsersWithFlights s = us1 ++ u :: us2 ->
  scanUsers now fid us1 (recordStatus s fid true) = Ok (s1, log1) ->
  isActive (subscriptionOf s1 u) = true ->
  now < startTime (subscriptionOf s1 u) + SUBSCRIPTION_DURATION <= MAX_UINT256 ->
  policies (subscriptionOf s1 u) = ps1 ++ p :: ps2 ->
  payPolicies now fid u true ps1 (balance s1) = Ok (ps1', bal1, plog) ->
  owed now fid p ->
  flightTimestamp p + DELAY_THRESHOLD <= MAX_UINT256 ->
  bal1 < PAYOUT ->
  updateFlightStatus (oracle s) now fid true s = Revert InsufficientPool.
Proof.
  intros Hus Hscan Hact Hlive Hps Hpay Howed Hmax Hbal.
  unfold updateFlightStatus. rewrite N.eqb_refl. simpl.
  rewrite Hus, scanUsers_app, Hscan. simpl.
  rewrite (stillActive_live _ _ Hact Hlive). simpl.
  rewrite expire_live, Hps.
  rewrite (rev_payPolicies_insufficient _ _ _ _ _ _ _ _ _ _ Hpay Howed Hmax Hbal).
  reflexivity.
Qed.

(** With less than [PAYOUT] in the pool the inner loop either changes
    nothing, and then nothing was owed to an active user, or reverts for
    lack of funds. *)
Lemma rev_payPolicies_broke (now : N) (fid : string) (u : N) (active : bool)
    (ps : list Policy) (bal : N) :
  bal < PAYOUT ->
  Forall (fun p => flightTimestamp p + DELAY_THRESHOLD <= MAX_UINT256) ps ->
  ((active = true -> ~ owedIn now fid ps) /\
   payPolicies now fid u active ps bal = Ok (ps, bal, [])) \/
  (active = true /\ owedIn now fid ps /\
   payPolicies now fid u active ps bal = Revert InsufficientPool).
Proof.
  intros Hbal. induction 1 as [|p ps Hp _ IH].
  - left. split; [intros _ (p & [] & _) | reflexivity].
  - simpl. rewrite (checked_add_in_range _ _ Hp). simpl.
    destruct (String.eqb (flightID p) fid && negb (hasPaidOut p)
              && (flightTimestamp p + DELAY_THRESHOLD <=? now) && active)
      eqn:Hcond.
    + apply andb_true_iff in Hcond as [Hcond Hact].
      apply andb_true_iff in Hcond as [Hcond Hlate].
      apply andb_true_iff in Hcond as [Hid Hunpaid].
      apply negb_true_iff in Hunpaid. apply N.leb_le in Hlate.
      apply String.eqb_eq in Hid.
      right. split; [exact Hact|]. split.
      * exists p. split; [left; reflexivity | repeat split; assumption].
      * destruct (N.leb_spec PAYOUT bal); [lia | reflexivity].
    + destruct IH as [[Hnone ->]|(Hact & Hsome & ->)]; simpl.
      * left. split; [|reflexivity].
        intros Hact (q & [<-|Hin] & (Hid & Hunpaid & Hlate)).
        -- rewrite Hid, String.eqb_refl, Hunpaid, Hact in Hcond. simpl in Hcond.
           destruct (N.leb_spec (flightTimestamp p + DELAY_THRESHOLD) now);
             [discriminate | lia].
        -- apply (Hnone Hact). exists q. split; [exact Hin|].
           repeat split; assumption.
      * right. split; [exact Hact|]. split; [|reflexivity].
        destruct Hsome as (q & Hin & Hq). exists q. split; [right|]; assumption.
Qed.

Lemma stillActive_in_range (now : N) (sub : Subscription) :
  startTime sub + SUBSCRIPTION_DURATION <= MAX_UINT256 ->
  stillActive now sub =
  Ok (isActive sub && (now <? startTime sub + SUBSCRIPTION_DURATION)).
Proof.
  intros Hmax. unfold stillActive. destruct (isActive sub); [|reflexivity].
  rewrite (checked_add_in_range _ _ Hmax). reflexivity.
Qed.

Lemma scanUsers_broke (now : N) (fid : string) (us : list N) :
  forall s : State,
    balance s < PAYOUT ->
    (forall v, subscriptionInRange (subscriptionOf s v)) ->
    match scanUsers now fid us s with
    | Ok (s', log) =>
        log = [] /\
        forall v, In v us ->
          isActive (subscriptionOf s v) = true ->
          now < startTime (subscriptionOf s v) + SUBSCRIPTION_DURATION ->
          ~ owedIn now fid (policies (subscriptionOf s v))
    | Revert e => e = InsufficientPool
    end.
Proof.
  induction us as [|u us IH]; intros s Hbal Hrange.
  - simpl. split; [reflexivity | intros v []].
  - simpl. destruct (Hrange u) as [Hstart Hpols].
    rewrite (stillActive_in_range _ _ Hstart). simpl.
    set (active := isActive (subscriptionOf s u)
                   && (now <? startTime (subscriptionOf s u) + SUBSCRIPTION_DURATION)).
    destruct (expire_facts active (subscriptionOf s u)) as (X1 & X2 & X3 & X4).
    rewrite X2.
    destruct (rev_payPolicies_broke now fid u active _ _ Hbal Hpols)
      as [[Hnone ->]|(Hact & Hsome & ->)]; simpl; [|reflexivity].
    set (s1 := setBalance (setSubscription s u
                 (withPolicies (expire active (subscriptionOf s u))
                    (policies (subscriptionOf s u)))) (balance s)).
    assert (Hsame : forall v,
               startTime (subscriptionOf s1 v) = startTime (subscriptionOf s v) /\
               policies (subscriptionOf s1 v) = policies (subscriptionOf s v) /\
               (u <> v -> isActive (subscriptionOf s1 v)
                          = isActive (subscriptionOf s v))).
    { intros v. unfold s1.
      rewrite rev_subscriptionOf_setBalance, rev_subscriptionOf_setSubscription.
      destruct (decide (u = v)) as [->|]; simpl; auto.
      repeat split; [exact X1 | contradiction]. }
    assert (Hrange1 : forall v, subscriptionInRange (subscriptionOf s1 v)).
    { intros v. destruct (Hsame v) as (E1 & E2 & _). unfold subscriptionInRange.
      rewrite E1, E2. apply Hrange. }
    specialize (IH s1 Hbal Hrange1).
    destruct (scanUsers now fid us s1) as [[s' log]|e]; simpl; [|exact IH].
    destruct IH as [-> IH]. split; [reflexivity|].
    intros v Hin Hact Hlive. destruct (decide (u = v)) as [<-|Hne].
    + apply Hnone. unfold active. rewrite Hact. simpl.
      apply N.ltb_lt. exact Hlive.
    + destruct Hin as [->|Hin]; [contradiction|].
      destruct (Hsame v) as (E1 & E2 & E3). rewrite <- E2.
      apply IH; [exact Hin | rewrite (E3 Hne); exact Hact | rewrite E1; exact Hlive].
Qed.

Lemma rev_updateFlightStatus_broke (s : State) (now : N) (fid : string) (u : N) :
  balance s < PAYOUT ->
  (forall v, subscriptionInRange (subscriptionOf s v)) ->
  In u (allUsersWithFlights s) ->
  isActive (subscriptionOf s u) = true ->
  now < startTime (subscriptionOf s u) + SUBSCRIPTION_DURATION ->
  owedIn now fid (policies (subscriptionOf s u)) ->
  updateFlightStatus (oracle s) now fid true s = Revert InsufficientPool.
Proof.
  intros Hbal Hrange Hin Hact Hlive Howed.
  unfold updateFlightStatus. rewrite N.eqb_refl. simpl.
  pose proof (scanUsers_broke now fid (allUsersWithFlights s)
                (recordStatus s fid true) Hbal Hrange) as Hscan.
  destruct (scanUsers now fid (allUsersWithFlights s) (recordStatus s fid true))
    as [[s' log]|e].
  - destruct Hscan as [_ Hnone]. exfalso. exact (Hnone u Hin Hact Hlive Howed).
  - subst e. reflexivity.
Qed.

(** A user that is inactive or expired at [now] gets nothing from a scan
    at [now]: no transfer, and the policies stay as they are. *)
Lemma scanUsers_lapsed (now : N) (fid : string) (us : list N) (u : N) :
  forall (s s' : State) (log : list Transfer),
    (isActive (subscriptionOf s u) = false \/
     startTime (subscriptionOf s u) + SUBSCRIPTION_DURATION <= now) ->
    scanUsers now fid us s = Ok (s', log) ->
    transfersTo u log = 0%nat /\
    policies (subscriptionOf s' u) = policies (subscriptionOf s u).
Proof.
  induction us as [|w us IH]; intros s s' log Hlapsed H.
  - injection H as <- <-. auto.
  - simpl in H. ok_inv H as active Hactive.
    ok_inv H as [[ps' bal'] plog] Hpay.
    ok_inv H as [s1 log1] Hrec. injection H as <- <-.
    destruct (expire_facts active (subscriptionOf s w)) as (X1 & X2 & X3 & X4).
    rewrite X2 in Hpay.
    destruct (rev_payPolicies_spec _ _ _ _ _ _ _ _ _ Hpay) as (P1 & P2 & P3 & P4 & P5).
    assert (Hsame :
      (isActive (subscriptionOf
         (setBalance (setSubscription s w
            (withPolicies (expire active (subscriptionOf s w)) ps')) bal') u) = false \/
       startTime (subscriptionOf
         (setBalance (setSubscription s w
            (withPolicies (expire active (subscriptionOf s w)) ps')) bal') u)
       + SUBSCRIPTION_DURATION <= now) /\
      policies (subscriptionOf
         (setBalance (setSubscription s w
            (withPolicies (expire active (subscriptionOf s w)) ps')) bal') u)
      = policies (subscriptionOf s u) /\
      transfersTo u plog = 0%nat).
    { rewrite rev_subscriptionOf_setBalance, rev_subscriptionOf_setSubscription.
      destruct (decide (w = u)) as [->|Hne]; simpl.
      - pose proof (stillActive_lapsed _ _ _ Hlapsed Hactive) as ->.
        destruct (P5 eq_refl) as [-> ->].
        split; [left; exact (X4 eq_refl) | split; reflexivity].
      - repeat split; [exact Hlapsed | exact (transfersTo_none _ _ _ Hne P3)]. }
    destruct Hsame as (E1 & E2 & E3).
    destruct (IH _ _ _ E1 Hrec) as [K1 K2].
    split; [rewrite transfersTo_app, K1, E3; reflexivity|].
    rewrite K2. exact E2.
Qed.

(** The scan clears the flag of every listed expired user. *)
Lemma scanUsers_clears (now : N) (fid : string) (us : list N) (u : N) :
  forall (s s' : State) (log : list Transfer),
    scanUsers now fid us s = Ok (s', log) ->
    In u us ->
    startTime (subscriptionOf s u) + SUBSCRIPTION_DURATION <= now ->
    isActive (subscriptionOf s' u) = false.
Proof.
  induction us as [|w us IH]; intros s s' log H Hin Hexp; [destruct Hin|].
  simpl in H. ok_inv H as active Hactive.
  ok_inv H as [[ps' bal'] plog] Hpay.
  ok_inv H as [s1 log1] Hrec. injection H as <- <-.
  destruct (expire_facts active (subscriptionOf s w)) as (X1 & X2 & X3 & X4).
  destruct (scanUsers_spec _ _ _ _ _ _ Hrec) as (_ & _ & _ & _ & _ & _ & _ & K8).
  destruct (K8 u) as (_ & V2 & _).
  rewrite rev_subscriptionOf_setBalance, rev_subscriptionOf_setSubscription in V2.
  destruct (decide (w = u)) as [->|Hne]; simpl in V2.
  - pose proof (stillActive_lapsed _ _ _ (or_intror Hexp) Hactive) as ->.
    destruct (isActive (subscriptionOf s1 u)); [|reflexivity].
    rewrite (X4 eq_refl) in V2. specialize (V2 eq_refl). discriminate.
  - destruct Hin as [->|Hin]; [contradiction|].
    refine (IH _ _ _ Hrec Hin _).
    rewrite rev_subscriptionOf_setBalance, rev_subscriptionOf_setSubscription.
    destruct (decide (w = u)); [contradiction | exact Hexp].
Qed.


(** *** [subscribe] *)

Lemma rev_subscribe_wrong_premium (sender value now : N) (s : State) :
  value <> PREMIUM -> subscribe sender value now s = Revert WrongPremium.
Proof.
  intros Hne. unfold subscribe.
  destruct (N.eqb_spec value PREMIUM); [contradiction | reflexivity].
Qed.

Lemma rev_subscribe_already (sender now : N) (s : State) :
  isActive (subscriptionOf s sender) = true ->
  subscribe sender PREMIUM now s = Revert AlreadySubscribed.
Proof.
  intros Hact. unfold subscribe. rewrite N.eqb_refl. simpl.
  change (subscriptionOf (setBalance s (balance s + PREMIUM)) sender)
    with (subscriptionOf s sender).
  rewrite Hact. reflexivity.
Qed.

Lemma rev_subscribe_ok (sender now : N) (s : State) :
  isActive (subscriptionOf s sender) = false ->
  subscribe sender PREMIUM now s =
  Ok {| oracle := oracle s; owner := owner s;
        subscriptions :=
          <[sender := {| isActive := true; startTime := now;
                         policies := policies (subscriptionOf s sender) |}]>
            (subscriptions s);
        flightDelays := flightDelays s;
        allSubscribers := pushUnique sender (allSubscribers s);
        allUsersWithFlights := pushUnique sender (allUsersWithFlights s);
        balance := balance s + PREMIUM |}.
Proof.
  intros Hoff. unfold subscribe. rewrite N.eqb_refl. simpl.
  change (subscriptionOf (setBalance s (balance s + PREMIUM)) sender)
    with (subscriptionOf s sender).
  rewrite Hoff. reflexivity.
Qed.

Lemma rev_subscribe_ok_inv (sender value now : N) (s s' : State) :
  subscribe sender value now s = Ok s' ->
  value = PREMIUM /\ isActive (subscriptionOf s sender) = false /\
  isActive (subscriptionOf s' sender) = true /\
  startTime (subscriptionOf s' sender) = now /\
  policies (subscriptionOf s' sender) = policies (subscriptionOf s sender) /\
  balance s' = balance s + PREMIUM.
Proof.
  intros H. unfold subscribe in H.
  ok_inv H as x1 H1. apply require_ok_inv in H1. apply N.eqb_eq in H1.
  ok_inv H as x2 H2. apply require_ok_inv in H2. apply negb_true_iff in H2.
  injection H as <-. subst value.
  unfold subscriptionOf in *. simpl in *. rewrite !lookup_insert_eq. simpl.
  repeat split; try reflexivity. exact H2.
Qed.

(** *** [registerFlight] *)

Lemma registerFlight_oracle (fid : string) (fts : N) (s : State) :
  registerFlight (oracle s) fid fts s = Revert OracleNotAllowed.
Proof. unfold registerFlight. rewrite N.eqb_refl. reflexivity. Qed.

Lemma rev_registerFlight_dup_fails (sender : N) (fid : string) (fts : N) (s : State) :
  hasFlight fid (policies (subscriptionOf s sender)) ->
  is_ok (registerFlight sender fid fts s) = false.
Proof.
  intros Hdup. unfold registerFlight.
  destruct (sender =? oracle s); simpl; [reflexivity|].
  rewrite (requireUnregistered_dup _ _ Hdup). reflexivity.
Qed.

Lemma rev_registerFlight_dup (sender : N) (fid : string) (fts : N) (s : State) :
  sender <> oracle s ->
  hasFlight fid (policies (subscriptionOf s sender)) ->
  registerFlight sender fid fts s = Revert DuplicateFlight.
Proof.
  intros Hne Hdup. unfold registerFlight.
  destruct (N.eqb_spec sender (oracle s)); [contradiction|]. simpl.
  rewrite (requireUnregistered_dup _ _ Hdup). reflexivity.
Qed.

Lemma rev_registerFlight_ok (sender : N) (fid : string) (fts : N) (s : State) :
  sender <> oracle s ->
  ~ hasFlight fid (policies (subscriptionOf s sender)) ->
  registerFlight sender fid fts s =
  Ok {| oracle := oracle s; owner := owner s;
        subscriptions :=
          <[sender := withPolicies (subscriptionOf s sender)
              (policies (subscriptionOf s sender) ++
               [{| flightID := fid; flightTimestamp := fts;
                   hasPaidOut := false |}])]> (subscriptions s);
        flightDelays := flightDelays s;
        allSubscribers := allSubscribers s;
        allUsersWithFlights := pushUnique sender (allUsersWithFlights s);
        balance := balance s |}.
Proof.
  intros Hne Hfresh. unfold registerFlight.
  destruct (N.eqb_spec sender (oracle s)); [contradiction|]. simpl.
  rewrite (requireUnregistered_fresh _ _ Hfresh). reflexivity.
Qed.

(** The outcome of [registerFlight] for a caller depends on the oracle
    address and on the caller's own subscription only. *)
Lemma rev_registerFlight_local (v : N) (fid : string) (fts : N) (s1 s2 : State) :
  oracle s1 = oracle s2 ->
  subscriptionOf s1 v = subscriptionOf s2 v ->
  is_ok (registerFlight v fid fts s1) = is_ok (registerFlight v fid fts s2).
Proof.
  intros Hor Heq. unfold registerFlight. rewrite Hor, Heq.
  destruct (v =? oracle s2); simpl; [reflexivity|].
  destruct (requireUnregistered fid _) as [[]|e]; reflexivity.
Qed.

(** *** [depositFunds] *)

Lemma depositFunds_zero (s : State) :
  depositFunds (owner s) 0 s = Revert InvalidAmount.
Proof. unfold depositFunds. simpl. rewrite N.eqb_refl. reflexivity. Qed.

Lemma rev_depositFunds_ok (value : N) (s : State) :
  0 < value ->
  depositFunds (owner s) value s = Ok (setBalance s (balance s + value)).
Proof.
  intros Hpos. unfold depositFunds. simpl. rewrite N.eqb_refl. simpl.
  destruct (N.ltb_spec 0 value); [reflexivity | lia].
Qed.

(** *** Calls that are not a delayed report *)

Lemma rev_transact_quiet (sender now : N) (c : Call) (s s' : State)
    (log : list Transfer) :
  isDelayedReport c = false ->
  transact sender now c s = (s', log) ->
  log = [] /\
  forall v, exists extra,
    policies (subscriptionOf s' v) = policies (subscriptionOf s v) ++ extra /\
    Forall (fun p => hasPaidOut p = false) extra.
Proof.
  intros Hc. unfold transact.
  destruct (exec sender now c s) as [[s1 log1]|e] eqn:He;
    intros H; injection H as <- <-.
  2:{ split; [reflexivity|]. intros v. exists []. rewrite app_nil_r. auto. }
  destruct c as [o|v0|v0|fid fts|fid d]; simpl in He.
  - ok_inv He as s2 Hop. injection He as <- <-.
    unfold setOracle in Hop. ok_inv Hop as x1 H1.
    injection Hop as <-. split; [reflexivity|]. intros v. exists [].
    rewrite app_nil_r. auto.
  - ok_inv He as s2 Hop. injection He as <- <-.
    apply rev_depositFunds_ok_inv in Hop as (_ & _ & ->).
    split; [reflexivity|]. intros v. exists []. rewrite app_nil_r. auto.
  - ok_inv He as s2 Hop. injection He as <- <-.
    unfold subscribe in Hop. ok_inv Hop as x1 H1. ok_inv Hop as x2 H2.
    injection Hop as <-. split; [reflexivity|]. intros v. exists [].
    rewrite app_nil_r. split; [|constructor].
    unfold subscriptionOf; simpl. rewrite lookup_insert.
    destruct (decide (sender = v)) as [->|Hne]; reflexivity.
  - ok_inv He as s2 Hop. injection He as <- <-.
    apply rev_registerFlight_ok_inv in Hop as (_ & _ & ->).
    split; [reflexivity|]. intros v.
    unfold subscriptionOf; simpl. rewrite lookup_insert.
    destruct (decide (sender = v)) as [->|Hne]; simpl.
    + eexists. split; [reflexivity|]. repeat constructor.
    + exists []. rewrite app_nil_r. auto.
  - destruct d; [discriminate|].
    apply rev_updateFlightStatus_ok_inv in He as (_ & -> & ->).
    split; [reflexivity|]. intros v. exists []. rewrite app_nil_r. auto.
Qed.

Lemma rev_transact_keeps_active (sender now : N) (c : Call) (s : State) (u : N) :
  isDelayedReport c = false ->
  isActive (subscriptionOf s u) = true ->
  isActive (subscriptionOf (fst (transact sender now c s)) u) = true.
Proof.
  intros Hc Hact. unfold transact.
  destruct (exec sender now c s) as [[s1 log1]|e] eqn:He; simpl; [|exact Hact].
  destruct c as [o|v0|v0|fid fts|fid d]; simpl in He.
  - ok_inv He as s2 Hop. injection He as <- <-.
    unfold setOracle in Hop. ok_inv Hop as x1 H1.
    injection Hop as <-. exact Hact.
  - ok_inv He as s2 Hop. injection He as <- <-.
    apply rev_depositFunds_ok_inv in Hop as (_ & _ & ->). exact Hact.
  - ok_inv He as s2 Hop. injection He as <- <-.
    unfold subscribe in Hop. ok_inv Hop as x1 H1. ok_inv Hop as x2 H2.
    injection Hop as <-. unfold subscriptionOf; simpl. rewrite lookup_insert.
    destruct (decide (sender = u)) as [->|Hne]; [reflexivity | exact Hact].
  - ok_inv He as s2 Hop. injection He as <- <-.
    apply rev_registerFlight_ok_inv in Hop as (_ & _ & ->).
    unfold subscriptionOf; simpl. rewrite lookup_insert.
    destruct (decide (sender = u)) as [->|Hne]; simpl; exact Hact.
  - destruct d; [discriminate|].
    apply rev_updateFlightStatus_ok_inv in He as (_ & -> & ->). exact Hact.
Qed.

(** *** Calls other than the subscriber's own [subscribe] *)

Lemma rev_transact_subscription_frame (sender now : N) (c : Call) (s : State) (u : N) :
  isSubscribeBy u sender c = false ->
  startTime (subscriptionOf (fst (transact sender now c s)) u)
  = startTime (subscriptionOf s u) /\
  (isActive (subscriptionOf (fst (transact sender now c s)) u) = true ->
   isActive (subscriptionOf s u) = true).
Proof.
  intros Hc. unfold transact.
  destruct (exec sender now c s) as [[s1 log1]|e] eqn:He; simpl; [|auto].
  destruct c as [o|v0|v0|fid fts|fid d]; simpl in He.
  - ok_inv He as s2 Hop. injection He as <- <-.
    unfold setOracle in Hop. ok_inv Hop as x1 H1.
    injection Hop as <-. auto.
  - ok_inv He as s2 Hop. injection He as <- <-.
    apply rev_depositFunds_ok_inv in Hop as (_ & _ & ->). auto.
  - ok_inv He as s2 Hop. injection He as <- <-.
    unfold subscribe in Hop. ok_inv Hop as x1 H1. ok_inv Hop as x2 H2.
    injection Hop as <-. simpl in Hc. apply N.eqb_neq in Hc.
    unfold subscriptionOf; simpl. rewrite lookup_insert_ne by exact Hc. auto.
  - ok_inv He as s2 Hop. injection He as <- <-.
    apply rev_registerFlight_ok_inv in Hop as (_ & _ & ->).
    unfold subscriptionOf; simpl. rewrite lookup_insert.
    destruct (decide (sender = u)) as [->|Hne]; simpl; auto.
  - apply rev_updateFlightStatus_ok_inv in He as (_ & Hd). destruct d.
    + destruct (scanUsers_spec _ _ _ _ _ _ Hd)
        as (_ & _ & _ & _ & _ & _ & _ & K7).
      destruct (K7 u) as (V1 & V2 & _). auto.
    + destruct Hd as [-> _]. auto.
Qed.

End RevFacts.

(** ** Counting what is owed, lists and flight ids *)

Lemma owedb_owed (now : N) (fid : string) (p : Policy) :
  owedb now fid p = true <-> owed now fid p.
Proof.
  unfold owedb, owed. rewrite !andb_true_iff, negb_true_iff, N.leb_le.
  rewrite String.eqb_eq. tauto.
Qed.

Lemma owedb_markPaid (now : N) (fid : string) (p : Policy) :
  owedb now fid (markPaid p) = false.
Proof. unfold owedb. simpl. rewrite andb_false_r. reflexivity. Qed.

Lemma countOwed_zero (now : N) (fid : string) (ps : list Policy) :
  countOwed now fid ps = 0%nat <-> ~ owedIn now fid ps.
Proof.
  unfold countOwed, owedIn. induction ps as [|p ps IH]; simpl.
  - split; [intros _ (q & [] & _) | reflexivity].
  - destruct (owedb now fid p) eqn:Hp; simpl.
    + split; [discriminate|]. intros Hno. exfalso. apply Hno.
      exists p. split; [left; reflexivity | apply owedb_owed; exact Hp].
    + rewrite IH. split.
      * intros Hno (q & [<-|Hin] & Hq).
        -- apply owedb_owed in Hq. congruence.
        -- apply Hno. exists q. auto.
      * intros Hno (q & Hin & Hq). apply Hno. exists q. auto.
Qed.

Lemma keepsPolicy_ids (ps ps' : list Policy) :
  Forall2 keepsPolicy ps ps' -> map flightID ps' = map flightID ps.
Proof.
  induction 1 as [|p p' ps ps' (Hid & _) _ IH]; simpl; [reflexivity|].
  rewrite Hid, IH. reflexivity.
Qed.

Lemma keepsPolicy_Forall2_refl (ps : list Policy) : Forall2 keepsPolicy ps ps.
Proof. induction ps; constructor; [apply keepsPolicy_refl | assumption]. Qed.

Lemma keepsPolicy_Forall2_trans (ps qs rs : list Policy) :
  Forall2 keepsPolicy ps qs -> Forall2 keepsPolicy qs rs ->
  Forall2 keepsPolicy ps rs.
Proof.
  intros H. revert rs. induction H as [|p q ps qs Hpq _ IH]; intros rs Hq.
  - inversion Hq. constructor.
  - inversion Hq as [|q' r qs' rs' Hqr Hrest]; subst.
    constructor; [eapply keepsPolicy_trans; eassumption | apply IH; assumption].
Qed.

Lemma hasFlight_ids (fid : string) (ps : list Policy) :
  hasFlight fid ps <-> In fid (map flightID ps).
Proof.
  unfold hasFlight. rewrite in_map_iff. split.
  - intros (p & Hin & Hid). exists p. auto.
  - intros (p & Hid & Hin). exists p. auto.
Qed.

Lemma userExists_In (u : N) (l : list N) : userExists u l = true <-> In u l.
Proof.
  induction l as [|x l IH]; simpl; [split; [discriminate | contradiction]|].
  destruct (N.eqb_spec x u) as [->|Hne].
  - split; auto.
  - rewrite IH. split; [auto | intros [Heq|Hin]; [contradiction | exact Hin]].
Qed.

Lemma pushUnique_In (u v : N) (l : list N) :
  In v (pushUnique u l) <-> v = u \/ In v l.
Proof.
  unfold pushUnique. destruct (userExists u l) eqn:He.
  - apply userExists_In in He. split; [auto | intros [->|H]; assumption].
  - rewrite in_app_iff. simpl. split.
    + intros [H|[<-|[]]]; auto.
    + intros [->|H]; auto.
Qed.

Lemma pushUnique_NoDup (u : N) (l : list N) :
  NoDup l -> NoDup (pushUnique u l).
Proof.
  intros Hnd. unfold pushUnique. destruct (userExists u l) eqn:He; [exact Hnd|].
  apply NoDup_app. split; [exact Hnd|]. split.
  - intros x Hx Hx'. apply list_elem_of_In in Hx.
    apply list_elem_of_In in Hx'. destruct Hx' as [<-|[]].
    apply userExists_In in Hx. congruence.
  - apply NoDup_singleton.
Qed.

Lemma pushUnique_grows (u : N) (l : list N) : exists k, pushUnique u l = l ++ k.
Proof.
  unfold pushUnique. destruct (userExists u l).
  - exists []. rewrite app_nil_r. reflexivity.
  - exists [u]. reflexivity.
Qed.

(** ** More on [src/contracts/FlightInsurance.sol] *)

Module BaseMore.
Import Base BaseFacts.

(** What each call has done when it went through. *)
Lemma exec_ok_inv (sender now : N) (c : Call) (s s' : State) (log : list Transfer) :
  exec sender now c s = Ok (s', log) ->
  match c with
  | SetOracle o =>
      sender = insurer s /\ o <> 0 /\ log = [] /\
      s' = {| insurer := insurer s; oracle := o;
              subscriptions := subscriptions s;
              flightDelays := flightDelays s;
              allSubscribers := allSubscribers s;
              balance := balance s |}
  | DepositFunds v =>
      sender = insurer s /\ log = [] /\ s' = setBalance s (balance s + v)
  | Subscribe v =>
      v = PREMIUM /\ isActive (subscriptionOf s sender) = false /\ log = [] /\
      s' = {| insurer := insurer s; oracle := oracle s;
              subscriptions :=
                <[sender := {| isActive := true; startTime := now;
                               policies := policies (subscriptionOf s sender) |}]>
                  (subscriptions s);
              flightDelays := flightDelays s;
              allSubscribers := allSubscribers s ++ [sender];
              balance := balance s + PREMIUM |}
  | RegisterFlight fid fts =>
      isActive (subscriptionOf s sender) = true /\
      now < startTime (subscriptionOf s sender) + SUBSCRIPTION_DURATION
            <= MAX_UINT256 /\
      ~ hasFlight fid (policies (subscriptionOf s sender)) /\ log = [] /\
      s' = setSubscription s sender
             (withPolicies (subscriptionOf s sender)
                (policies (subscriptionOf s sender) ++
                 [{| flightID := fid; flightTimestamp := fts;
                     hasPaidOut := false |}]))
  | UpdateFlightStatus fid d =>
      sender = oracle s /\
      if d
      then scanSubscribers now fid (allSubscribers s) (recordStatus s fid true)
           = Ok (s', log)
      else s' = recordStatus s fid false /\ log = []
  end.
Proof.
  destruct c as [o|v|v|fid fts|fid d]; simpl; intros H.
  - ok_inv H as s2 Hop. injection H as <- <-.
    unfold setOracle in Hop. ok_inv Hop as x1 H1. ok_inv Hop as x2 H2.
    apply require_ok_inv in H1, H2. apply N.eqb_eq in H1.
    apply negb_true_iff, N.eqb_neq in H2. injection Hop as <-. auto.
  - ok_inv H as s2 Hop. injection H as <- <-.
    apply depositFunds_ok_inv in Hop as [-> ->]. auto.
  - ok_inv H as s2 Hop. injection H as <- <-.
    destruct (subscribe_ok_inv _ _ _ _ _ Hop) as (-> & Hoff & _).
    rewrite (subscribe_ok _ _ _ Hoff) in Hop. injection Hop as <-. auto.
  - ok_inv H as s2 Hop. injection H as <- <-.
    apply registerFlight_ok_inv in Hop as (A & B & C & ->). auto.
  - exact (updateFlightStatus_ok_inv _ _ _ _ _ _ _ H).
Qed.

Lemma transact_cases (sender now : N) (c : Call) (s : State) :
  (exists e, exec sender now c s = Revert e /\ transact sender now c s = (s, [])) \/
  (exists s' log, exec sender now c s = Ok (s', log) /\
                  transact sender now c s = (s', log)).
Proof.
  unfold transact. destruct (exec sender now c s) as [[s' log]|e].
  - right. eauto.
  - left. eauto.
Qed.

(** The scan leaves the subscription of every address that is not in
    the scanned list exactly as it was. *)
Lemma scanSubscribers_unlisted (now : N) (fid : string) (us : list N) (v : N) :
  forall (s s' : State) (log : list Transfer),
    scanSubscribers now fid us s = Ok (s', log) ->
    ~ In v us ->
    subscriptionOf s' v = subscriptionOf s v /\ transfersTo v log = 0%nat.
Proof.
  induction us as [|w us IH]; intros s s' log H Hnot.
  - injection H as <- <-. auto.
  - simpl in H. ok_inv H as limit Hlimit.
    assert (Hne : w <> v) by (intros ->; apply Hnot; left; reflexivity).
    assert (Hrest : ~ In v us) by (intros K; apply Hnot; right; exact K).
    destruct (limit <=? now).
    + destruct (IH _ _ _ H Hrest) as [E1 E2]. split; [|exact E2].
      rewrite E1, subscriptionOf_setSubscription.
      destruct (decide (w = v)); [contradiction | reflexivity].
    + ok_inv H as [[ps' bal'] plog] Hpay.
      ok_inv H as [s1 log1] Hrec. injection H as <- <-.
      destruct (payPolicies_spec _ _ _ _ _ _ _ _ Hpay) as (_ & _ & P3 & _).
      destruct (IH _ _ _ Hrec Hrest) as [E1 E2]. split.
      * rewrite E1, subscriptionOf_setBalance, subscriptionOf_setSubscription.
        destruct (decide (w = v)); [contradiction | reflexivity].
      * rewrite transfersTo_app, E2, (transfersTo_none _ _ _ Hne P3). reflexivity.
Qed.

(** The scan keeps the policies of every address position by position. *)
Lemma scanSubscribers_pointwise (now : N) (fid : string) (us : list N) :
  forall (s s' : State) (log : list Transfer),
    scanSubscribers now fid us s = Ok (s', log) ->
    forall v, Forall2 keepsPolicy (policies (subscriptionOf s v))
                                  (policies (subscriptionOf s' v)).
Proof.
  induction us as [|w us IH]; intros s s' log H v.
  - injection H as <- <-. apply keepsPolicy_Forall2_refl.
  - simpl in H. ok_inv H as limit Hlimit. destruct (limit <=? now).
    + pose proof (IH _ _ _ H v) as K.
      rewrite subscriptionOf_setSubscription in K.
      destruct (decide (w = v)) as [->|]; exact K.
    + ok_inv H as [[ps' bal'] plog] Hpay.
      ok_inv H as [s1 log1] Hrec. injection H as <- <-.
      destruct (payPolicies_spec _ _ _ _ _ _ _ _ Hpay) as (P1 & _).
      pose proof (IH _ _ _ Hrec v) as K.
      rewrite subscriptionOf_setBalance, subscriptionOf_setSubscription in K.
      destruct (decide (w = v)) as [->|]; [|exact K].
      eapply keepsPolicy_Forall2_trans; [exact P1 | exact K].
Qed.

(** *** Roles, recorded statuses, balance *)

Lemma transact_roles (sender now : N) (c : Call) (s : State) :
  insurer (fst (transact sender now c s)) = insurer s /\
  (oracle (fst (transact sender now c s)) <> oracle s ->
   sender = insurer s /\
   c = SetOracle (oracle (fst (transact sender now c s))) /\
   oracle (fst (transact sender now c s)) <> 0).
Proof.
  destruct (transact_cases sender now c s)
    as [(e & _ & ->)|(s' & log & He & ->)]; simpl; [split; congruence|].
  apply exec_ok_inv in He. destruct c as [o|v|v|fid fts|fid d].
  - destruct He as (-> & Ho & _ & ->). simpl. auto.
  - destruct He as (_ & _ & ->). simpl. split; congruence.
  - destruct He as (_ & _ & _ & ->). simpl. split; congruence.
  - destruct He as (_ & _ & _ & _ & ->). simpl. split; congruence.
  - destruct He as (_ & Hd). destruct d.
    + destruct (scanSubscribers_spec _ _ _ _ _ _ Hd) as (K1 & K2 & _).
      simpl in K1, K2. split; congruence.
    + destruct Hd as [-> _]. simpl. split; congruence.
Qed.

Lemma transact_flightDelays (sender now : N) (c : Call) (s : State) :
  match c with
  | UpdateFlightStatus fid d =>
      is_ok (exec sender now c s) = true ->
      flightDelays (fst (transact sender now c s)) = <[fid := d]> (flightDelays s)
  | _ => True
  end /\
  (flightDelays (fst (transact sender now c s)) <> flightDelays s ->
   sender = oracle s /\ exists fid d, c = UpdateFlightStatus fid d).
Proof.
  destruct (transact_cases sender now c s)
    as [(e & He & ->)|(s' & log & He & ->)]; simpl.
  { rewrite He. split; [destruct c; auto; discriminate | congruence]. }
  rewrite He. apply exec_ok_inv in He. destruct c as [o|v|v|fid fts|fid d].
  - destruct He as (_ & _ & _ & ->). simpl. split; [exact I | congruence].
  - destruct He as (_ & _ & ->). simpl. split; [exact I | congruence].
  - destruct He as (_ & _ & _ & ->). simpl. split; [exact I | congruence].
  - destruct He as (_ & _ & _ & _ & ->). simpl. split; [exact I | congruence].
  - destruct He as (Hs & Hd). destruct d.
    + destruct (scanSubscribers_spec _ _ _ _ _ _ Hd) as (_ & _ & K3 & _).
      simpl in K3. split; [intros _; exact K3 | intros _; eauto].
    + destruct Hd as [-> _]. simpl. split; [reflexivity | intros _; eauto].
Qed.

Lemma transact_balance (sender now : N) (c : Call) (s : State) :
  balance (fst (transact sender now c s))
  + PAYOUT * N.of_nat (length (snd (transact sender now c s)))
  = balance s + (if is_ok (exec sender now c s) then baseCredit c else 0).
Proof.
  destruct (transact_cases sender now c s)
    as [(e & He & ->)|(s' & log & He & ->)]; rewrite He; simpl; [lia|].
  apply exec_ok_inv in He. destruct c as [o|v|v|fid fts|fid d].
  - destruct He as (_ & _ & -> & ->). simpl. lia.
  - destruct He as (_ & -> & ->). simpl. lia.
  - destruct He as (-> & _ & -> & ->). simpl. lia.
  - destruct He as (_ & _ & _ & -> & ->). simpl. lia.
  - destruct He as (_ & Hd). destruct d.
    + destruct (scanSubscribers_spec _ _ _ _ _ _ Hd) as (_ & _ & _ & _ & K5 & _).
      simpl in K5 |- *. lia.
    + destruct Hd as [-> ->]. simpl. lia.
Qed.

(** *** A caller that is not the oracle *)

Lemma transact_outsider (sender now : N) (c : Call) (s : State) :
  sender <> oracle s ->
  snd (transact sender now c s) = [] /\
  flightDelays (fst (transact sender now c s)) = flightDelays s /\
  balance s <= balance (fst (transact sender now c s)) /\
  (forall v, v <> sender ->
     subscriptionOf (fst (transact sender now c s)) v = subscriptionOf s v) /\
  (sender <> insurer s -> oracle (fst (transact sender now c s)) = oracle s).
Proof.
  intros Hno.
  destruct (transact_cases sender now c s)
    as [(e & _ & ->)|(s' & log & He & ->)]; simpl.
  { split; [|split; [|split; [|split]]]; auto; lia. }
  apply exec_ok_inv in He. destruct c as [o|v|v|fid fts|fid d].
  - destruct He as (Hs & _ & -> & ->). simpl.
    split; [|split; [|split; [|split]]]; auto; try lia; contradiction.
  - destruct He as (_ & -> & ->). simpl.
    split; [|split; [|split; [|split]]]; auto; lia.
  - destruct He as (_ & _ & -> & ->). simpl.
    split; [|split; [|split; [|split]]]; auto; try lia. intros w Hw.
    unfold subscriptionOf; simpl. rewrite lookup_insert_ne by congruence.
    reflexivity.
  - destruct He as (_ & _ & _ & -> & ->).
    split; [|split; [|split; [|split]]]; auto; try (simpl; lia). intros w Hw.
    rewrite subscriptionOf_setSubscription.
    destruct (decide (sender = w)); [congruence | reflexivity].
  - destruct He as (Hs & _). contradiction.
Qed.

(** *** Lists and ids *)

Lemma transact_list_grows (sender now : N) (c : Call) (s : State) :
  exists k, allSubscribers (fst (transact sender now c s)) = allSubscribers s ++ k.
Proof.
  destruct (transact_cases sender now c s)
    as [(e & _ & ->)|(s' & log & He & ->)]; simpl.
  { exists []. rewrite app_nil_r. reflexivity. }
  apply exec_ok_inv in He. destruct c as [o|v|v|fid fts|fid d].
  - destruct He as (_ & _ & _ & ->). exists []. simpl. rewrite app_nil_r. reflexivity.
  - destruct He as (_ & _ & ->). exists []. simpl. rewrite app_nil_r. reflexivity.
  - destruct He as (_ & _ & _ & ->). exists [sender]. reflexivity.
  - destruct He as (_ & _ & _ & _ & ->). exists []. simpl.
    rewrite app_nil_r. reflexivity.
  - destruct He as (_ & Hd). exists []. rewrite app_nil_r. destruct d.
    + destruct (scanSubscribers_spec _ _ _ _ _ _ Hd) as (_ & _ & _ & K4 & _).
      exact K4.
    + destruct Hd as [-> _]. reflexivity.
Qed.

Lemma transact_distinctIds (sender now : N) (c : Call) (s : State) :
  (forall u, distinctIds (subscriptionOf s u)) ->
  forall u, distinctIds (subscriptionOf (fst (transact sender now c s)) u).
Proof.
  intros Hinv.
  destruct (transact_cases sender now c s)
    as [(e & _ & ->)|(s' & log & He & ->)]; simpl; [exact Hinv|].
  apply exec_ok_inv in He. destruct c as [o|v|v|fid fts|fid d].
  - destruct He as (_ & _ & _ & ->). exact Hinv.
  - destruct He as (_ & _ & ->). exact Hinv.
  - destruct He as (_ & _ & _ & ->). intros u.
    unfold subscriptionOf; simpl. rewrite lookup_insert.
    destruct (decide (sender = u)) as [->|]; [|apply Hinv].
    unfold distinctIds; simpl. apply Hinv.
  - destruct He as (_ & _ & Hfresh & _ & ->). intros u.
    rewrite subscriptionOf_setSubscription.
    destruct (decide (sender = u)) as [->|]; [|apply Hinv].
    unfold distinctIds; simpl. rewrite map_app. simpl.
    apply NoDup_app. split; [apply Hinv|]. split; [|apply NoDup_singleton].
    intros x Hx Hx'. apply list_elem_of_In in Hx, Hx'.
    destruct Hx' as [<-|[]]. apply Hfresh. apply hasFlight_ids. exact Hx.
  - destruct He as (_ & Hd). destruct d.
    + intros u. unfold distinctIds.
      rewrite (keepsPolicy_ids _ _ (scanSubscribers_pointwise _ _ _ _ _ _ Hd u)).
      apply Hinv.
    + destruct Hd as [-> _]. exact Hinv.
Qed.

Lemma transact_listed (sender now : N) (c : Call) (s : State) :
  baseListed s -> baseListed (fst (transact sender now c s)).
Proof.
  intros Hinv.
  destruct (transact_cases sender now c s)
    as [(e & _ & ->)|(s' & log & He & ->)]; simpl; [exact Hinv|].
  apply exec_ok_inv in He. destruct c as [o|v|v|fid fts|fid d].
  - destruct He as (_ & _ & _ & ->). exact Hinv.
  - destruct He as (_ & _ & ->). exact Hinv.
  - destruct He as (_ & _ & _ & ->). intros u. unfold subscriptionOf; simpl.
    rewrite lookup_insert, in_app_iff.
    destruct (decide (sender = u)) as [->|]; [intros _; right; left; reflexivity|].
    intros H. left. apply Hinv. exact H.
  - destruct He as (Hact & _ & _ & _ & ->). intros u.
    rewrite subscriptionOf_setSubscription. simpl.
    destruct (decide (sender = u)) as [->|]; [|apply Hinv].
    intros _. apply Hinv. intros Heq. rewrite Heq in Hact. discriminate.
  - destruct He as (_ & Hd). destruct d.
    + destruct (scanSubscribers_spec _ _ _ _ _ _ Hd) as (_ & _ & _ & K4 & _).
      intros u Hu. rewrite K4. simpl.
      destruct (in_dec N.eq_dec u (allSubscribers s)) as [Hin|Hnot]; [exact Hin|].
      destruct (scanSubscribers_unlisted _ _ _ _ _ _ _ Hd Hnot) as [E _].
      change (subscriptionOf (recordStatus s fid true) u)
        with (subscriptionOf s u) in E.
      apply Hinv. rewrite <- E. exact Hu.
    + destruct Hd as [-> _]. exact Hinv.
Qed.

(** *** What a report pays *)

Lemma policyDue_owedb (now : N) (fid : string) (p : Policy) (b : bool) :
  policyDue now fid p = Ok b -> b = owedb now fid p.
Proof.
  unfold policyDue, owedb.
  destruct (String.eqb (flightID p) fid && negb (hasPaidOut p)); simpl.
  - intros H. ok_inv H as limit Hlimit.
    apply checked_add_ok_inv in Hlimit as [-> _]. injection H as <-. reflexivity.
  - intros H. injection H as <-. reflexivity.
Qed.

Lemma payPolicies_count (now : N) (fid : string) (u : N) (ps : list Policy) :
  forall (bal : N) (ps' : list Policy) (bal' : N) (log : list Transfer),
    payPolicies now fid u ps bal = Ok (ps', bal', log) ->
    length log = countOwed now fid ps /\ countOwed now fid ps' = 0%nat.
Proof.
  unfold countOwed.
  induction ps as [|p ps IH]; intros bal ps' bal' log H.
  - injection H as <- <- <-. auto.
  - simpl in H. ok_inv H as due Hdue. apply policyDue_owedb in Hdue.
    simpl. rewrite <- Hdue. destruct due.
    + ok_inv H as x Hbal. ok_inv H as [[r b] l] Hrec. injection H as <- <- <-.
      destruct (IH _ _ _ _ Hrec) as [K1 K2]. simpl.
      rewrite owedb_markPaid, K1. auto.
    + ok_inv H as [[r b] l] Hrec. injection H as <- <- <-.
      destruct (IH _ _ _ _ Hrec) as [K1 K2]. simpl.
      rewrite <- Hdue. auto.
Qed.

(** A listed subscriber that is not expired receives one payout per owed
    policy, however often the address is listed, and is owed nothing
    afterwards. *)
Lemma scanSubscribers_count (now : N) (fid : string) (us : list N) (u : N) :
  forall (s s' : State) (log : list Transfer),
    scanSubscribers now fid us s = Ok (s', log) ->
    now < startTime (subscriptionOf s u) + SUBSCRIPTION_DURATION ->
    In u us ->
    transfersTo u log = countOwed now fid (policies (subscriptionOf s u)) /\
    countOwed now fid (policies (subscriptionOf s' u)) = 0%nat.
Proof.
  induction us as [|w us IH]; intros s s' log H Hlive Hin; [destruct Hin|].
  simpl in H. ok_inv H as limit Hlimit.
  apply checked_add_ok_inv in Hlimit as [-> _].
  destruct (N.leb_spec (startTime (subscriptionOf s w) + SUBSCRIPTION_DURATION) now)
    as [Hexp|Hlivew].
  - assert (Hne : w <> u) by (intros ->; lia).
    destruct Hin as [->|Hin]; [contradiction|].
    assert (E : subscriptionOf (setSubscription s w (deactivate (subscriptionOf s w))) u
                = subscriptionOf s u).
    { rewrite subscriptionOf_setSubscription.
      destruct (decide (w = u)); [contradiction | reflexivity]. }
    rewrite <- E. apply (IH _ _ _ H); [rewrite E; exact Hlive | exact Hin].
  - ok_inv H as [[ps' bal'] plog] Hpay.
    ok_inv H as [s1 log1] Hrec. injection H as <- <-.
    destruct (payPolicies_spec _ _ _ _ _ _ _ _ Hpay) as (_ & _ & P3 & _).
    destruct (payPolicies_count _ _ _ _ _ _ _ _ Hpay) as [C1 C2].
    rewrite transfersTo_app.
    set (s0 := setBalance (setSubscription s w
                 (withPolicies (subscriptionOf s w) ps')) bal') in *.
    destruct (decide (w = u)) as [->|Hne].
    + assert (E : policies (subscriptionOf s0 u) = ps' /\
                  startTime (subscriptionOf s0 u) = startTime (subscriptionOf s u)).
      { unfold s0. rewrite subscriptionOf_setBalance, subscriptionOf_setSubscription.
        destruct (decide (u = u)); [auto | contradiction]. }
      destruct E as [E1 E2].
      rewrite (transfersTo_all _ _ P3), C1.
      destruct (in_dec N.eq_dec u us) as [Hin'|Hnot].
      * destruct (IH _ _ _ Hrec (ltac:(rewrite E2; exact Hlive)) Hin') as [K1 K2].
        rewrite K1, E1, C2. split; [lia | exact K2].
      * destruct (scanSubscribers_unlisted _ _ _ _ _ _ _ Hrec Hnot) as [K1 K2].
        rewrite K2, K1, E1. split; [lia | exact C2].
    + destruct Hin as [->|Hin]; [contradiction|].
      assert (E : subscriptionOf s0 u = subscriptionOf s u).
      { unfold s0. rewrite subscriptionOf_setBalance, subscriptionOf_setSubscription.
        destruct (decide (w = u)); [contradiction | reflexivity]. }
      rewrite (transfersTo_none _ _ _ Hne P3). rewrite <- E.
      apply (IH _ _ _ Hrec); [rewrite E; exact Hlive | exact Hin].
Qed.

(** *** How a report can fail *)

Lemma payPolicies_errors (now : N) (fid : string) (u : N) (ps : list Policy) :
  forall (bal : N) (e : Error),
    payPolicies now fid u ps bal = Revert e ->
    e = InsufficientPool \/
    (e = ArithmeticOverflow /\
     ~ Forall (fun p => flightTimestamp p + DELAY_THRESHOLD <= MAX_UINT256) ps).
Proof.
  induction ps as [|p ps IH]; intros bal e H; [discriminate|].
  simpl in H. unfold policyDue in H.
  destruct (String.eqb (flightID p) fid && negb (hasPaidOut p)).
  - unfold checked_add in H.
    destruct (N.leb_spec (flightTimestamp p + DELAY_THRESHOLD) MAX_UINT256)
      as [Hle|Hgt]; simpl in H.
    + destruct (flightTimestamp p + DELAY_THRESHOLD <=? now).
      * destruct (PAYOUT <=? bal); simpl in H;
          [|injection H as <-; left; reflexivity].
        destruct (payPolicies now fid u ps (bal - PAYOUT)) as [[[r b] l]|e'] eqn:Hr;
          simpl in H; [discriminate|]. injection H as <-.
        destruct (IH _ _ Hr) as [->|[-> Hbad]]; [left; reflexivity|].
        right. split; [reflexivity|]. intros HF. inversion HF; subst. auto.
      * destruct (payPolicies now fid u ps bal) as [[[r b] l]|e'] eqn:Hr;
          simpl in H; [discriminate|]. injection H as <-.
        destruct (IH _ _ Hr) as [->|[-> Hbad]]; [left; reflexivity|].
        right. split; [reflexivity|]. intros HF. inversion HF; subst. auto.
    + injection H as <-. right. split; [reflexivity|].
      intros HF. inversion HF; subst. lia.
  - simpl in H.
    destruct (payPolicies now fid u ps bal) as [[[r b] l]|e'] eqn:Hr;
      simpl in H; [discriminate|]. injection H as <-.
    destruct (IH _ _ Hr) as [->|[-> Hbad]]; [left; reflexivity|].
    right. split; [reflexivity|]. intros HF. inversion HF; subst. auto.
Qed.

Lemma scanSubscribers_errors (now : N) (fid : string) (us : list N) :
  forall (s : State) (e : Error),
    scanSubscribers now fid us s = Revert e ->
    e = InsufficientPool \/
    (e = ArithmeticOverflow /\
     ~ forall v, subscriptionInRange (subscriptionOf s v)).
Proof.
  induction us as [|w us IH]; intros s e H; [discriminate|].
  simpl in H. unfold checked_add in H.
  destruct (N.leb_spec (startTime (subscriptionOf s w) + SUBSCRIPTION_DURATION)
              MAX_UINT256) as [Hle|Hgt]; simpl in H.
  2:{ injection H as <-. right. split; [reflexivity|].
      intros HR. destruct (HR w) as [K _]. lia. }
  destruct (startTime (subscriptionOf s w) + SUBSCRIPTION_DURATION <=? now).
  - destruct (IH _ _ H) as [->|[-> Hbad]]; [left; reflexivity|].
    right. split; [reflexivity|]. intros HR. apply Hbad. intros v.
    rewrite subscriptionOf_setSubscription.
    destruct (decide (w = v)) as [->|]; [|apply HR].
    destruct (HR v) as [K1 K2]. split; assumption.
  - destruct (payPolicies now fid w (policies (subscriptionOf s w)) (balance s))
      as [[[ps' bal'] plog]|e'] eqn:Hpay; simpl in H.
    + destruct (scanSubscribers now fid us _) as [[s1 log1]|e''] eqn:Hrec;
        simpl in H; [discriminate|]. injection H as <-.
      destruct (IH _ _ Hrec) as [->|[-> Hbad]]; [left; reflexivity|].
      right. split; [reflexivity|]. intros HR. apply Hbad. intros v.
      rewrite subscriptionOf_setBalance, subscriptionOf_setSubscription.
      destruct (decide (w = v)) as [->|]; [|apply HR].
      destruct (HR v) as [K1 K2]. split; [exact K1|]. simpl.
      destruct (payPolicies_spec _ _ _ _ _ _ _ _ Hpay) as (P1 & _).
      clear -P1 K2. induction P1 as [|p p' ps qs (_ & Ht & _) _ IHP];
        [constructor|].
      inversion K2; subst. constructor; [rewrite Ht; assumption | auto].
    + injection H as <-.
      destruct (payPolicies_errors _ _ _ _ _ _ Hpay) as [->|[-> Hbad]];
        [left; reflexivity|].
      right. split; [reflexivity|]. intros HR. apply Hbad.
      destruct (HR w) as [_ K]. exact K.
Qed.

(** *** Success conditions and the view *)

Lemma registerFlight_ok_iff (sender now : N) (fid : string) (fts : N) (s : State) :
  is_ok (registerFlight sender now fid fts s) = true <->
  isActive (subscriptionOf s sender) = true /\
  now < startTime (subscriptionOf s sender) + SUBSCRIPTION_DURATION
        <= MAX_UINT256 /\
  ~ hasFlight fid (policies (subscriptionOf s sender)).
Proof.
  split.
  - destruct (registerFlight sender now fid fts s) as [s'|e] eqn:H; [|discriminate].
    intros _. apply registerFlight_ok_inv in H as (A & B & C & _). auto.
  - intros (A & B & C). rewrite (registerFlight_ok _ _ _ _ _ A B C). reflexivity.
Qed.

Lemma isSubscribed_after_subscribe (sender value now now' : N) (s s' : State) :
  subscribe sender value now s = Ok s' ->
  now + SUBSCRIPTION_DURATION <= MAX_UINT256 ->
  isSubscribed now' sender s' = Ok (now' <? now + SUBSCRIPTION_DURATION).
Proof.
  intros H Hmax. destruct (subscribe_ok_inv _ _ _ _ _ H) as (_ & _ & A & B & _).
  unfold isSubscribed. rewrite A, B, (checked_add_in_range _ _ Hmax). reflexivity.
Qed.

(** *** Sequences of transactions *)

Lemma run_step (tx : Tx) (txs : list Tx) (s : State) :
  fst (run (tx :: txs) s)
  = fst (run txs (fst (transact (txSender tx) (txTime tx) (txCall tx) s))).
Proof.
  simpl. destruct (transact _ _ _ s) as [s1 l1]. simpl.
  destruct (run txs s1) as [s2 l2]. reflexivity.
Qed.

Lemma run_invariant (P : State -> Prop) :
  (forall sender now c s, P s -> P (fst (transact sender now c s))) ->
  forall txs s, P s -> P (fst (run txs s)).
Proof.
  intros Hstep. induction txs as [|tx txs IH]; intros s Hs; [exact Hs|].
  rewrite run_step. apply IH, Hstep, Hs.
Qed.

(** A report leaves the stored flag of an unexpired subscriber as it
    is. *)
Lemma scanSubscribers_keeps_live (now : N) (fid : string) (us : list N) (u : N) :
  forall (s s' : State) (log : list Transfer),
    scanSubscribers now fid us s = Ok (s', log) ->
    now < startTime (subscriptionOf s u) + SUBSCRIPTION_DURATION ->
    isActive (subscriptionOf s' u) = isActive (subscriptionOf s u).
Proof.
  induction us as [|w us IH]; intros s s' log H Hlive; simpl in H.
  - injection H as <- <-. reflexivity.
  - ok_inv H as limit Hlim. apply checked_add_ok_inv in Hlim as [-> Hmax].
    destruct (N.leb_spec (startTime (subscriptionOf s w) + SUBSCRIPTION_DURATION) now)
      as [Hexp|Hnow].
    + assert (Hne : w <> u) by (intros ->; lia).
      assert (Hsame : subscriptionOf
                        (setSubscription s w (deactivate (subscriptionOf s w))) u
                      = subscriptionOf s u).
      { rewrite subscriptionOf_setSubscription.
        destruct (decide (w = u)); [contradiction | reflexivity]. }
      rewrite (IH _ _ _ H); rewrite Hsame; [reflexivity | exact Hlive].
    + ok_inv H as [[ps' bal'] plog] Hpay. ok_inv H as [s2 log2] Hscan.
      injection H as <- <-.
      assert (Hhead : isActive (subscriptionOf
                        (setBalance (setSubscription s w
                           (withPolicies (subscriptionOf s w) ps')) bal') u)
                      = isActive (subscriptionOf s u) /\
                      startTime (subscriptionOf
                        (setBalance (setSubscription s w
                           (withPolicies (subscriptionOf s w) ps')) bal') u)
                      = startTime (subscriptionOf s u)).
      { rewrite subscriptionOf_setBalance, subscriptionOf_setSubscription.
        destruct (decide (w = u)) as [->|]; simpl; split; reflexivity. }
      destruct Hhead as [Ha Hs].
      rewrite (IH _ _ _ Hscan); [exact Ha | rewrite Hs; exact Hlive].
Qed.

(** A transaction clears a set flag only if it is a delayed report, sent
    by the oracle, that goes through and finds the address on its list,
    expired. *)
Lemma transact_clears (sender now : N) (c : Call) (s : State) (u : N) :
  isActive (subscriptionOf s u) = true ->
  isActive (subscriptionOf (fst (transact sender now c s)) u) = false ->
  (exists fid, c = UpdateFlightStatus fid true) /\
  sender = oracle s /\
  is_ok (exec sender now c s) = true /\
  In u (allSubscribers s) /\
  startTime (subscriptionOf s u) + SUBSCRIPTION_DURATION <= now.
Proof.
  intros Hon Hoff.
  destruct (isDelayedReport c) eqn:Hc.
  2:{ pose proof (transact_keeps_active sender now c s u Hc Hon) as K. congruence. }
  destruct c as [o|v|v|fid fts|fid [|]]; try discriminate.
  destruct (transact_cases sender now (UpdateFlightStatus fid true) s)
    as [(e & He & Ht)|(s' & log & He & Ht)]; rewrite Ht in Hoff; simpl in Hoff.
  { congruence. }
  pose proof (exec_ok_inv _ _ _ _ _ _ He) as [Hsender Hscan]. simpl in Hscan.
  split; [exists fid; reflexivity|]. split; [exact Hsender|].
  split; [rewrite He; reflexivity|].
  assert (Hin : In u (allSubscribers s)).
  { destruct (in_dec N.eq_dec u (allSubscribers s)) as [Hin|Hnin]; [exact Hin|].
    destruct (scanSubscribers_unlisted now fid _ u
                (recordStatus s fid true) s' log Hscan Hnin) as [Hsame _].
    rewrite Hsame in Hoff.
    change (subscriptionOf (recordStatus s fid true) u)
      with (subscriptionOf s u) in Hoff.
    congruence. }
  split; [exact Hin|].
  destruct (N.le_gt_cases (startTime (subscriptionOf s u) + SUBSCRIPTION_DURATION) now)
    as [Hexp|Hlive]; [exact Hexp|].
  pose proof (scanSubscribers_keeps_live now fid _ u
                (recordStatus s fid true) s' log Hscan Hlive) as K.
  change (subscriptionOf (recordStatus s fid true) u)
    with (subscriptionOf s u) in K.
  congruence.
Qed.

(** With less than [PAYOUT] in the pool and a listed, unexpired
    subscriber owed a payout, a delayed report by the oracle fails: at
    the first due payout, or before that at an overflowing addition. *)
Lemma updateFlightStatus_short (s : State) (now : N) (fid : string) (u : N) :
  balance s < PAYOUT ->
  In u (allSubscribers s) ->
  now < startTime (subscriptionOf s u) + SUBSCRIPTION_DURATION ->
  owedIn now fid (policies (subscriptionOf s u)) ->
  updateFlightStatus (oracle s) now fid true s = Revert InsufficientPool \/
  (updateFlightStatus (oracle s) now fid true s = Revert ArithmeticOverflow /\
   ~ forall v, subscriptionInRange (subscriptionOf s v)).
Proof.
  intros Hbal Hin Hlive Howed.
  unfold updateFlightStatus. rewrite N.eqb_refl. simpl.
  destruct (scanSubscribers now fid (allSubscribers s) (recordStatus s fid true))
    as [[s' log]|e] eqn:Hscan.
  - exfalso.
    destruct (scanSubscribers_count now fid _ u (recordStatus s fid true) s' log
                Hscan Hlive Hin) as [Hcount _].
    destruct (scanSubscribers_spec _ _ _ _ _ _ Hscan)
      as (_ & _ & _ & _ & Hb & _).
    change (subscriptionOf (recordStatus s fid true) u)
      with (subscriptionOf s u) in Hcount.
    change (balance (recordStatus s fid true)) with (balance s) in Hb.
    assert (Hpos : countOwed now fid (policies (subscriptionOf s u)) <> 0%nat).
    { intros Hz. apply countOwed_zero in Hz. contradiction. }
    pose proof (transfersTo_le_length u log) as Hle.
    assert (1 <= N.of_nat (length log)) by lia.
    nia.
  - destruct (scanSubscribers_errors _ _ _ _ _ Hscan) as [->|[-> Hbad]];
      [left; reflexivity | right; split; [reflexivity | exact Hbad]].
Qed.

(** The ways [updateFlightStatus] can fail. *)
Lemma updateFlightStatus_errors (sender now : N) (fid : string) (d : bool)
    (s : State) (e : Error) :
  updateFlightStatus sender now fid d s = Revert e ->
  (e = Unauthorized /\ sender <> oracle s) \/
  (d = true /\ e = InsufficientPool) \/
  (d = true /\ e = ArithmeticOverflow /\
   ~ forall v, subscriptionInRange (subscriptionOf s v)).
Proof.
  intros H. unfold updateFlightStatus in H.
  destruct (N.eqb_spec sender (oracle s)) as [Heq|Hne]; simpl in H.
  2:{ injection H as <-. left. auto. }
  destruct d; [|discriminate]. right.
  destruct (scanSubscribers_errors _ _ _ _ _ H) as [->|[-> Hbad]];
    [left; auto | right; auto].
Qed.

(** With recipients that may refuse the ether, each loop either does
    what it does with recipients that accept, or reverts because some
    recipient refuses. *)
Lemma payPoliciesTo_sim (accepts : nat -> N -> bool) (now : N) (fid : string)
    (u : N) (ps : list Policy) :
  forall (n : nat) (bal : N),
    payPoliciesTo accepts n now fid u ps bal = payPolicies now fid u ps bal \/
    (payPoliciesTo accepts n now fid u ps bal = Revert TransferRefused /\
     exists i, accepts i u = false).
Proof.
  induction ps as [|p ps IH]; intros n bal; simpl; [left; reflexivity|].
  destruct (policyDue now fid p) as [[|]|e]; simpl.
  - destruct (PAYOUT <=? bal); simpl; [|left; reflexivity].
    destruct (accepts n u) eqn:Hacc; simpl.
    + destruct (IH (S n) (bal - PAYOUT)) as [->|[-> Hex]];
        [left; reflexivity | right; split; [reflexivity | exact Hex]].
    + right. split; [reflexivity | exists n; exact Hacc].
  - destruct (IH n bal) as [->|[-> Hex]];
      [left; reflexivity | right; split; [reflexivity | exact Hex]].
  - left. reflexivity.
Qed.

Lemma scanSubscribersTo_sim (accepts : nat -> N -> bool) (now : N) (fid : string)
    (us : list N) :
  forall (n : nat) (s : State),
    scanSubscribersTo accepts n now fid us s = scanSubscribers now fid us s \/
    (scanSubscribersTo accepts n now fid us s = Revert TransferRefused /\
     exists i u, In u us /\ accepts i u = false).
Proof.
  induction us as [|w us IH]; intros n s; simpl; [left; reflexivity|].
  destruct (checked_add (startTime (subscriptionOf s w)) SUBSCRIPTION_DURATION)
    as [limit|e]; simpl; [|left; reflexivity].
  destruct (limit <=? now).
  - destruct (IH n (setSubscription s w (deactivate (subscriptionOf s w))))
      as [->|[-> (i & u & Hin & Hacc)]]; [left; reflexivity|].
    right. split; [reflexivity | exists i, u; auto].
  - destruct (payPoliciesTo_sim accepts now fid w
                (policies (subscriptionOf s w)) n (balance s))
      as [->|[-> [i Hacc]]].
    + destruct (payPolicies now fid w (policies (subscriptionOf s w)) (balance s))
        as [[[ps' bal'] log]|e]; simpl; [|left; reflexivity].
      destruct (IH (n + length log)%nat
                  (setBalance (setSubscription s w
                     (withPolicies (subscriptionOf s w) ps')) bal'))
        as [->|[-> (i & u & Hin & Hacc)]]; [left; reflexivity|].
      right. split; [reflexivity | exists i, u; auto].
    + right. split; [reflexivity | exists i, w; auto].
Qed.

Lemma updateFlightStatusTo_sim (accepts : nat -> N -> bool) (sender now : N)
    (fid : string) (d : bool) (s : State) :
  updateFlightStatusTo accepts sender now fid d s
  = updateFlightStatus sender now fid d s \/
  (d = true /\
   updateFlightStatusTo accepts sender now fid d s = Revert TransferRefused /\
   exists i u, In u (allSubscribers s) /\ accepts i u = false).
Proof.
  unfold updateFlightStatusTo, updateFlightStatus.
  destruct (sender =? oracle s); simpl; [|left; reflexivity].
  destruct d; [|left; reflexivity].
  destruct (scanSubscribersTo_sim accepts now fid (allSubscribers s) 0
              (recordStatus s fid true)) as [H|[H Hex]].
  - left. exact H.
  - right. split; [reflexivity | split; [exact H | exact Hex]].
Qed.

End BaseMore.

(** ** More on [src/unnamed/part_002] *)

Module RevMore.
Import Rev RevFacts.

Lemma rev_exec_ok_inv (sender now : N) (c : Call) (s s' : State)
    (log : list Transfer) :
  exec sender now c s = Ok (s', log) ->
  match c with
  | SetOracle o =>
      sender = owner s /\ log = [] /\
      s' = {| oracle := o; owner := owner s;
              subscriptions := subscriptions s;
              flightDelays := flightDelays s;
              allSubscribers := allSubscribers s;
              allUsersWithFlights := allUsersWithFlights s;
              balance := balance s |}
  | DepositFunds v =>
      sender = owner s /\ 0 < v /\ log = [] /\ s' = setBalance s (balance s + v)
  | Subscribe v =>
      v = PREMIUM /\ isActive (subscriptionOf s sender) = false /\ log = [] /\
      s' = {| oracle := oracle s; owner := owner s;
              subscriptions :=
                <[sender := {| isActive := true; startTime := now;
                               policies := policies (subscriptionOf s sender) |}]>
                  (subscriptions s);
              flightDelays := flightDelays s;
              allSubscribers := pushUnique sender (allSubscribers s);
              allUsersWithFlights := pushUnique sender (allUsersWithFlights s);
              balance := balance s + PREMIUM |}
  | RegisterFlight fid fts =>
      sender <> oracle s /\
      ~ hasFlight fid (policies (subscriptionOf s sender)) /\ log = [] /\
      s' = {| oracle := oracle s; owner := owner s;
              subscriptions :=
                <[sender := withPolicies (subscriptionOf s sender)
                    (policies (subscriptionOf s sender) ++
                     [{| flightID := fid; flightTimestamp := fts;
                         hasPaidOut := false |}])]> (subscriptions s);
              flightDelays := flightDelays s;
              allSubscribers := allSubscribers s;
              allUsersWithFlights := pushUnique sender (allUsersWithFlights s);
              balance := balance s |}
  | UpdateFlightStatus fid d =>
      sender = oracle s /\
      if d
      then scanUsers now fid (allUsersWithFlights s) (recordStatus s fid true)
           = Ok (s', log)
      else s' = recordStatus s fid false /\ log = []
  end.
Proof.
  destruct c as [o|v|v|fid fts|fid d]; simpl; intros H.
  - ok_inv H as s2 Hop. injection H as <- <-.
    unfold setOracle in Hop. ok_inv Hop as x1 H1.
    apply require_ok_inv in H1. apply N.eqb_eq in H1. injection Hop as <-. auto.
  - ok_inv H as s2 Hop. injection H as <- <-.
    apply rev_depositFunds_ok_inv in Hop as (-> & Hpos & ->). auto.
  - ok_inv H as s2 Hop. injection H as <- <-.
    destruct (rev_subscribe_ok_inv _ _ _ _ _ Hop) as (-> & Hoff & _).
    rewrite (rev_subscribe_ok _ _ _ Hoff) in Hop. injection Hop as <-. auto.
  - ok_inv H as s2 Hop. injection H as <- <-.
    apply rev_registerFlight_ok_inv in Hop as (A & B & ->). auto.
  - exact (rev_updateFlightStatus_ok_inv _ _ _ _ _ _ _ H).
Qed.

Lemma rev_transact_cases (sender now : N) (c : Call) (s : State) :
  (exists e, exec sender now c s = Revert e /\ transact sender now c s = (s, [])) \/
  (exists s' log, exec sender now c s = Ok (s', log) /\
                  transact sender now c s = (s', log)).
Proof.
  unfold transact. destruct (exec sender now c s) as [[s' log]|e].
  - right. eauto.
  - left. eauto.
Qed.

(** One step of the scan, on the subscription of any address. *)
Lemma scanUsers_head (s : State) (w v : N) (active : bool) (ps' : list Policy)
    (bal' : N) :
  subscriptionOf
    (setBalance (setSubscription s w
       (withPolicies (expire active (subscriptionOf s w)) ps')) bal') v
  = if decide (w = v)
    then withPolicies (expire active (subscriptionOf s w)) ps'
    else subscriptionOf s v.
Proof.
  rewrite rev_subscriptionOf_setBalance, rev_subscriptionOf_setSubscription.
  reflexivity.
Qed.

Lemma scanUsers_unlisted (now : N) (fid : string) (us : list N) (v : N) :
  forall (s s' : State) (log : list Transfer),
    scanUsers now fid us s = Ok (s', log) ->
    ~ In v us ->
    subscriptionOf s' v = subscriptionOf s v /\ transfersTo v log = 0%nat.
Proof.
  induction us as [|w us IH]; intros s s' log H Hnot.
  - injection H as <- <-. auto.
  - simpl in H. ok_inv H as active Hactive.
    assert (Hne : w <> v) by (intros ->; apply Hnot; left; reflexivity).
    assert (Hrest : ~ In v us) by (intros K; apply Hnot; right; exact K).
    ok_inv H as [[ps' bal'] plog] Hpay.
    ok_inv H as [s1 log1] Hrec. injection H as <- <-.
    destruct (rev_payPolicies_spec _ _ _ _ _ _ _ _ _ Hpay) as (_ & _ & P3 & _).
    destruct (IH _ _ _ Hrec Hrest) as [E1 E2]. split.
    + rewrite E1, scanUsers_head.
      destruct (decide (w = v)); [contradiction | reflexivity].
    + rewrite transfersTo_app, E2, (transfersTo_none _ _ _ Hne P3). reflexivity.
Qed.

Lemma scanUsers_pointwise (now : N) (fid : string) (us : list N) :
  forall (s s' : State) (log : list Transfer),
    scanUsers now fid us s = Ok (s', log) ->
    forall v, Forall2 keepsPolicy (policies (subscriptionOf s v))
                                  (policies (subscriptionOf s' v)).
Proof.
  induction us as [|w us IH]; intros s s' log H v.
  - injection H as <- <-. apply keepsPolicy_Forall2_refl.
  - simpl in H. ok_inv H as active Hactive.
    ok_inv H as [[ps' bal'] plog] Hpay.
    ok_inv H as [s1 log1] Hrec. injection H as <- <-.
    destruct (expire_facts active (subscriptionOf s w)) as (_ & X2 & _).
    rewrite X2 in Hpay.
    destruct (rev_payPolicies_spec _ _ _ _ _ _ _ _ _ Hpay) as (P1 & _).
    pose proof (IH _ _ _ Hrec v) as K. rewrite scanUsers_head in K.
    destruct (decide (w = v)) as [->|]; [|exact K].
    eapply keepsPolicy_Forall2_trans; [exact P1 | exact K].
Qed.

(** *** Roles, recorded statuses, balance *)

Lemma rev_transact_roles (sender now : N) (c : Call) (s : State) :
  owner (fst (transact sender now c s)) = owner s /\
  (oracle (fst (transact sender now c s)) <> oracle s ->
   sender = owner s /\
   c = SetOracle (oracle (fst (transact sender now c s)))).
Proof.
  destruct (rev_transact_cases sender now c s)
    as [(e & _ & ->)|(s' & log & He & ->)]; simpl; [split; congruence|].
  apply rev_exec_ok_inv in He. destruct c as [o|v|v|fid fts|fid d].
  - destruct He as (-> & _ & ->). simpl. auto.
  - destruct He as (_ & _ & _ & ->). simpl. split; congruence.
  - destruct He as (_ & _ & _ & ->). simpl. split; congruence.
  - destruct He as (_ & _ & _ & ->). simpl. split; congruence.
  - destruct He as (_ & Hd). destruct d.
    + destruct (scanUsers_spec _ _ _ _ _ _ Hd) as (K1 & K2 & _).
      simpl in K1, K2. split; congruence.
    + destruct Hd as [-> _]. simpl. split; congruence.
Qed.

Lemma rev_transact_flightDelays (sender now : N) (c : Call) (s : State) :
  match c with
  | UpdateFlightStatus fid d =>
      is_ok (exec sender now c s) = true ->
      flightDelays (fst (transact sender now c s)) = <[fid := d]> (flightDelays s)
  | _ => True
  end /\
  (flightDelays (fst (transact sender now c s)) <> flightDelays s ->
   sender = oracle s /\ exists fid d, c = UpdateFlightStatus fid d).
Proof.
  destruct (rev_transact_cases sender now c s)
    as [(e & He & ->)|(s' & log & He & ->)]; simpl.
  { rewrite He. split; [destruct c; auto; discriminate | congruence]. }
  rewrite He. apply rev_exec_ok_inv in He. destruct c as [o|v|v|fid fts|fid d].
  - destruct He as (_ & _ & ->). simpl. split; [exact I | congruence].
  - destruct He as (_ & _ & _ & ->). simpl. split; [exact I | congruence].
  - destruct He as (_ & _ & _ & ->). simpl. split; [exact I | congruence].
  - destruct He as (_ & _ & _ & ->). simpl. split; [exact I | congruence].
  - destruct He as (Hs & Hd). destruct d.
    + destruct (scanUsers_spec _ _ _ _ _ _ Hd) as (_ & _ & K3 & _).
      simpl in K3. split; [intros _; exact K3 | intros _; eauto].
    + destruct Hd as [-> _]. simpl. split; [reflexivity | intros _; eauto].
Qed.

Lemma rev_transact_balance (sender now : N) (c : Call) (s : State) :
  balance (fst (transact sender now c s))
  + PAYOUT * N.of_nat (length (snd (transact sender now c s)))
  = balance s + (if is_ok (exec sender now c s) then revCredit c else 0).
Proof.
  destruct (rev_transact_cases sender now c s)
    as [(e & He & ->)|(s' & log & He & ->)]; rewrite He; simpl; [lia|].
  apply rev_exec_ok_inv in He. destruct c as [o|v|v|fid fts|fid d].
  - destruct He as (_ & -> & ->). simpl. lia.
  - destruct He as (_ & _ & -> & ->). simpl. lia.
  - destruct He as (-> & _ & -> & ->). simpl. lia.
  - destruct He as (_ & _ & -> & ->). simpl. lia.
  - destruct He as (_ & Hd). destruct d.
    + destruct (scanUsers_spec _ _ _ _ _ _ Hd) as (_ & _ & _ & _ & _ & K5 & _).
      simpl in K5 |- *. lia.
    + destruct Hd as [-> ->]. simpl. lia.
Qed.

Lemma rev_transact_outsider (sender now : N) (c : Call) (s : State) :
  sender <> oracle s ->
  snd (transact sender now c s) = [] /\
  flightDelays (fst (transact sender now c s)) = flightDelays s /\
  balance s <= balance (fst (transact sender now c s)) /\
  (forall v, v <> sender ->
     subscriptionOf (fst (transact sender now c s)) v = subscriptionOf s v) /\
  (sender <> owner s -> oracle (fst (transact sender now c s)) = oracle s).
Proof.
  intros Hno.
  destruct (rev_transact_cases sender now c s)
    as [(e & _ & ->)|(s' & log & He & ->)]; simpl.
  { split; [|split; [|split; [|split]]]; auto; lia. }
  apply rev_exec_ok_inv in He. destruct c as [o|v|v|fid fts|fid d].
  - destruct He as (Hs & -> & ->). simpl.
    split; [|split; [|split; [|split]]]; auto; try lia; contradiction.
  - destruct He as (_ & _ & -> & ->). simpl.
    split; [|split; [|split; [|split]]]; auto; lia.
  - destruct He as (_ & _ & -> & ->). simpl.
    split; [|split; [|split; [|split]]]; auto; try lia. intros w Hw.
    unfold subscriptionOf; simpl. rewrite lookup_insert_ne by congruence.
    reflexivity.
  - destruct He as (_ & _ & -> & ->). simpl.
    split; [|split; [|split; [|split]]]; auto; try lia. intros w Hw.
    unfold subscriptionOf; simpl. rewrite lookup_insert_ne by congruence.
    reflexivity.
  - destruct He as (Hs & _). contradiction.
Qed.

(** *** Lists and ids *)

Lemma rev_transact_lists_grow (sender now : N) (c : Call) (s : State) :
  (exists k, allSubscribers (fst (transact sender now c s))
             = allSubscribers s ++ k) /\
  (exists k, allUsersWithFlights (fst (transact sender now c s))
             = allUsersWithFlights s ++ k).
Proof.
  assert (Hnil : forall l : list N, exists k, l = l ++ k).
  { intros l. exists []. rewrite app_nil_r. reflexivity. }
  destruct (rev_transact_cases sender now c s)
    as [(e & _ & ->)|(s' & log & He & ->)]; simpl; [auto|].
  apply rev_exec_ok_inv in He. destruct c as [o|v|v|fid fts|fid d].
  - destruct He as (_ & _ & ->). simpl. auto.
  - destruct He as (_ & _ & _ & ->). simpl. auto.
  - destruct He as (_ & _ & _ & ->). simpl. split; apply pushUnique_grows.
  - destruct He as (_ & _ & _ & ->). simpl. split; [auto | apply pushUnique_grows].
  - destruct He as (_ & Hd). destruct d.
    + destruct (scanUsers_spec _ _ _ _ _ _ Hd) as (_ & _ & _ & K4 & K5 & _).
      simpl in K4, K5. rewrite K4, K5. auto.
    + destruct Hd as [-> _]. simpl. auto.
Qed.

Lemma rev_transact_lists_NoDup (sender now : N) (c : Call) (s : State) :
  NoDup (allSubscribers s) /\ NoDup (allUsersWithFlights s) ->
  NoDup (allSubscribers (fst (transact sender now c s))) /\
  NoDup (allUsersWithFlights (fst (transact sender now c s))).
Proof.
  intros [H1 H2].
  destruct (rev_transact_cases sender now c s)
    as [(e & _ & ->)|(s' & log & He & ->)]; simpl; [auto|].
  apply rev_exec_ok_inv in He. destruct c as [o|v|v|fid fts|fid d].
  - destruct He as (_ & _ & ->). simpl. auto.
  - destruct He as (_ & _ & _ & ->). simpl. auto.
  - destruct He as (_ & _ & _ & ->). simpl.
    split; apply pushUnique_NoDup; assumption.
  - destruct He as (_ & _ & _ & ->). simpl.
    split; [assumption | apply pushUnique_NoDup; assumption].
  - destruct He as (_ & Hd). destruct d.
    + destruct (scanUsers_spec _ _ _ _ _ _ Hd) as (_ & _ & _ & K4 & K5 & _).
      simpl in K4, K5. rewrite K4, K5. auto.
    + destruct Hd as [-> _]. simpl. auto.
Qed.

Lemma rev_transact_distinctIds (sender now : N) (c : Call) (s : State) :
  (forall u, distinctIds (subscriptionOf s u)) ->
  forall u, distinctIds (subscriptionOf (fst (transact sender now c s)) u).
Proof.
  intros Hinv.
  destruct (rev_transact_cases sender now c s)
    as [(e & _ & ->)|(s' & log & He & ->)]; simpl; [exact Hinv|].
  apply rev_exec_ok_inv in He. destruct c as [o|v|v|fid fts|fid d].
  - destruct He as (_ & _ & ->). exact Hinv.
  - destruct He as (_ & _ & _ & ->). exact Hinv.
  - destruct He as (_ & _ & _ & ->). intros u.
    unfold subscriptionOf; simpl. rewrite lookup_insert.
    destruct (decide (sender = u)) as [->|]; [|apply Hinv].
    unfold distinctIds; simpl. apply Hinv.
  - destruct He as (_ & Hfresh & _ & ->). intros u.
    unfold subscriptionOf at 1; simpl. rewrite lookup_insert.
    destruct (decide (sender = u)) as [->|]; [|apply Hinv].
    unfold distinctIds; simpl. rewrite map_app. simpl.
    apply NoDup_app. split; [apply Hinv|]. split; [|apply NoDup_singleton].
    intros x Hx Hx'. apply list_elem_of_In in Hx, Hx'.
    destruct Hx' as [<-|[]]. apply Hfresh. apply hasFlight_ids. exact Hx.
  - destruct He as (_ & Hd). destruct d.
    + intros u. unfold distinctIds.
      rewrite (keepsPolicy_ids _ _ (scanUsers_pointwise _ _ _ _ _ _ Hd u)).
      apply Hinv.
    + destruct Hd as [-> _]. exact Hinv.
Qed.

Lemma rev_transact_listed (sender now : N) (c : Call) (s : State) :
  revListed s -> revListed (fst (transact sender now c s)).
Proof.
  intros Hinv.
  destruct (rev_transact_cases sender now c s)
    as [(e & _ & ->)|(s' & log & He & ->)]; simpl; [exact Hinv|].
  apply rev_exec_ok_inv in He. destruct c as [o|v|v|fid fts|fid d].
  - destruct He as (_ & _ & ->). exact Hinv.
  - destruct He as (_ & _ & _ & ->). exact Hinv.
  - destruct He as (_ & _ & _ & ->). intros u. unfold subscriptionOf; simpl.
    rewrite lookup_insert, pushUnique_In.
    destruct (decide (sender = u)) as [->|]; [intros _; left; reflexivity|].
    intros H. right. apply Hinv. exact H.
  - destruct He as (_ & _ & _ & ->). intros u. unfold subscriptionOf; simpl.
    rewrite lookup_insert, pushUnique_In.
    destruct (decide (sender = u)) as [->|]; [intros _; left; reflexivity|].
    intros H. right. apply Hinv. exact H.
  - destruct He as (_ & Hd). destruct d.
    + destruct (scanUsers_spec _ _ _ _ _ _ Hd) as (_ & _ & _ & _ & K5 & _).
      intros u Hu. rewrite K5. simpl.
      destruct (in_dec N.eq_dec u (allUsersWithFlights s)) as [Hin|Hnot];
        [exact Hin|].
      destruct (scanUsers_unlisted _ _ _ _ _ _ _ Hd Hnot) as [E _].
      change (subscriptionOf (recordStatus s fid true) u)
        with (subscriptionOf s u) in E.
      apply Hinv. rewrite <- E. exact Hu.
    + destruct Hd as [-> _]. exact Hinv.
Qed.

(** *** What a report pays *)

Lemma rev_payPolicies_count (now : N) (fid : string) (u : N) (ps : list Policy) :
  forall (bal : N) (ps' : list Policy) (bal' : N) (log : list Transfer),
    payPolicies now fid u true ps bal = Ok (ps', bal', log) ->
    length log = countOwed now fid ps /\ countOwed now fid ps' = 0%nat.
Proof.
  unfold countOwed.
  induction ps as [|p ps IH]; intros bal ps' bal' log H.
  - injection H as <- <- <-. auto.
  - simpl in H. ok_inv H as limit Hlimit.
    apply checked_add_ok_inv in Hlimit as [-> _].
    rewrite andb_true_r in H. fold (owedb now fid p) in H. simpl.
    destruct (owedb now fid p) eqn:Hp.
    + ok_inv H as x Hbal. ok_inv H as [[r b] l] Hrec. injection H as <- <- <-.
      destruct (IH _ _ _ _ Hrec) as [K1 K2]. simpl.
      rewrite owedb_markPaid, K1. auto.
    + ok_inv H as [[r b] l] Hrec. injection H as <- <- <-.
      destruct (IH _ _ _ _ Hrec) as [K1 K2]. simpl.
      rewrite Hp. auto.
Qed.

(** A listed user whose subscription is active and not expired receives
    one payout per owed policy and is owed nothing afterwards. *)
Lemma scanUsers_count (now : N) (fid : string) (us : list N) (u : N) :
  forall (s s' : State) (log : list Transfer),
    scanUsers now fid us s = Ok (s', log) ->
    isActive (subscriptionOf s u) = true ->
    now < startTime (subscriptionOf s u) + SUBSCRIPTION_DURATION ->
    In u us ->
    transfersTo u log = countOwed now fid (policies (subscriptionOf s u)) /\
    countOwed now fid (policies (subscriptionOf s' u)) = 0%nat.
Proof.
  induction us as [|w us IH]; intros s s' log H Hact Hlive Hin; [destruct Hin|].
  simpl in H. ok_inv H as active Hactive.
  ok_inv H as [[ps' bal'] plog] Hpay.
  ok_inv H as [s1 log1] Hrec. injection H as <- <-.
  destruct (expire_facts active (subscriptionOf s w)) as (X1 & X2 & X3 & X4).
  rewrite X2 in Hpay.
  destruct (rev_payPolicies_spec _ _ _ _ _ _ _ _ _ Hpay) as (_ & _ & P3 & _).
  rewrite transfersTo_app.
  set (s0 := setBalance (setSubscription s w
               (withPolicies (expire active (subscriptionOf s w)) ps')) bal') in *.
  destruct (decide (w = u)) as [->|Hne].
  - assert (Hon : active = true).
    { destruct active; [reflexivity|].
      destruct (stillActive_false_inv _ _ Hactive) as [K|K]; [congruence | lia]. }
    subst active. rewrite expire_live in *.
    destruct (rev_payPolicies_count _ _ _ _ _ _ _ _ Hpay) as [C1 C2].
    assert (E : policies (subscriptionOf s0 u) = ps' /\
                startTime (subscriptionOf s0 u) = startTime (subscriptionOf s u) /\
                isActive (subscriptionOf s0 u) = true).
    { unfold s0. rewrite scanUsers_head.
      destruct (decide (u = u)); [|contradiction]. simpl.
      rewrite ?expire_live. split; [reflexivity | split; [reflexivity | exact Hact]]. }
    destruct E as (E1 & E2 & E3).
    rewrite (transfersTo_all _ _ P3), C1.
    destruct (in_dec N.eq_dec u us) as [Hin'|Hnot].
    + destruct (IH _ _ _ Hrec E3 (ltac:(rewrite E2; exact Hlive)) Hin') as [K1 K2].
      rewrite K1, E1, C2. split; [lia | exact K2].
    + destruct (scanUsers_unlisted _ _ _ _ _ _ _ Hrec Hnot) as [K1 K2].
      rewrite K2, K1, E1. split; [lia | exact C2].
  - destruct Hin as [->|Hin]; [contradiction|].
    assert (E : subscriptionOf s0 u = subscriptionOf s u).
    { unfold s0. rewrite scanUsers_head.
      destruct (decide (w = u)); [contradiction | reflexivity]. }
    rewrite (transfersTo_none _ _ _ Hne P3). rewrite <- E.
    apply (IH _ _ _ Hrec); [rewrite E; exact Hact | rewrite E; exact Hlive | exact Hin].
Qed.

(** *** How a report can fail *)

Lemma rev_payPolicies_errors (now : N) (fid : string) (u : N) (active : bool)
    (ps : list Policy) :
  forall (bal : N) (e : Error),
    payPolicies now fid u active ps bal = Revert e ->
    e = InsufficientPool \/
    (e = ArithmeticOverflow /\
     ~ Forall (fun p => flightTimestamp p + DELAY_THRESHOLD <= MAX_UINT256) ps).
Proof.
  induction ps as [|p ps IH]; intros bal e H; [discriminate|].
  simpl in H. unfold checked_add in H.
  destruct (N.leb_spec (flightTimestamp p + DELAY_THRESHOLD) MAX_UINT256)
    as [Hle|Hgt]; simpl in H.
  2:{ injection H as <-. right. split; [reflexivity|].
      intros HF. inversion HF; subst. lia. }
  destruct (String.eqb (flightID p) fid && negb (hasPaidOut p)
            && (flightTimestamp p + DELAY_THRESHOLD <=? now) && active).
  - destruct (PAYOUT <=? bal); simpl in H;
      [|injection H as <-; left; reflexivity].
    destruct (payPolicies now fid u active ps (bal - PAYOUT))
      as [[[r b] l]|e'] eqn:Hr; simpl in H; [discriminate|]. injection H as <-.
    destruct (IH _ _ Hr) as [->|[-> Hbad]]; [left; reflexivity|].
    right. split; [reflexivity|]. intros HF. inversion HF; subst. auto.
  - destruct (payPolicies now fid u active ps bal) as [[[r b] l]|e'] eqn:Hr;
      simpl in H; [discriminate|]. injection H as <-.
    destruct (IH _ _ Hr) as [->|[-> Hbad]]; [left; reflexivity|].
    right. split; [reflexivity|]. intros HF. inversion HF; subst. auto.
Qed.

Lemma scanUsers_errors (now : N) (fid : string) (us : list N) :
  forall (s : State) (e : Error),
    scanUsers now fid us s = Revert e ->
    e = InsufficientPool \/
    (e = ArithmeticOverflow /\
     ~ forall v, subscriptionInRange (subscriptionOf s v)).
Proof.
  induction us as [|w us IH]; intros s e H; [discriminate|].
  simpl in H.
  destruct (stillActive now (subscriptionOf s w)) as [active|e0] eqn:Hactive;
    simpl in H.
  2:{ injection H as <-. unfold stillActive in Hactive.
      destruct (isActive (subscriptionOf s w)); [|discriminate].
      unfold checked_add in Hactive.
      destruct (N.leb_spec (startTime (subscriptionOf s w) + SUBSCRIPTION_DURATION)
                  MAX_UINT256) as [Hle|Hgt]; simpl in Hactive; [discriminate|].
      injection Hactive as <-. right. split; [reflexivity|].
      intros HR. destruct (HR w) as [K _]. lia. }
  destruct (expire_facts active (subscriptionOf s w)) as (X1 & X2 & _).
  rewrite X2 in H.
  destruct (payPolicies now fid w active (policies (subscriptionOf s w)) (balance s))
    as [[[ps' bal'] plog]|e'] eqn:Hpay; simpl in H.
  - destruct (scanUsers now fid us _) as [[s1 log1]|e''] eqn:Hrec;
      simpl in H; [discriminate|]. injection H as <-.
    destruct (IH _ _ Hrec) as [->|[-> Hbad]]; [left; reflexivity|].
    right. split; [reflexivity|]. intros HR. apply Hbad. intros v.
    rewrite scanUsers_head.
    destruct (decide (w = v)) as [->|]; [|apply HR].
    destruct (HR v) as [K1 K2]. split; [simpl; rewrite X1; exact K1|]. simpl.
    destruct (rev_payPolicies_spec _ _ _ _ _ _ _ _ _ Hpay) as (P1 & _).
    clear -P1 K2. induction P1 as [|p p' ps qs (_ & Ht & _) _ IHP];
      [constructor|].
    inversion K2; subst. constructor; [rewrite Ht; assumption | auto].
  - injection H as <-.
    destruct (rev_payPolicies_errors _ _ _ _ _ _ _ Hpay) as [->|[-> Hbad]];
      [left; reflexivity|].
    right. split; [reflexivity|]. intros HR. apply Hbad.
    destruct (HR w) as [_ K]. exact K.
Qed.

(** *** Success conditions and the views *)

Lemma rev_registerFlight_ok_iff (sender : N) (fid : string) (fts : N) (s : State) :
  is_ok (registerFlight sender fid fts s) = true <->
  sender <> oracle s /\ ~ hasFlight fid (policies (subscriptionOf s sender)).
Proof.
  split.
  - destruct (registerFlight sender fid fts s) as [s'|e] eqn:H; [|discriminate].
    intros _. apply rev_registerFlight_ok_inv in H as (A & B & _). auto.
  - intros (A & B). rewrite (rev_registerFlight_ok _ _ _ _ A B). reflexivity.
Qed.

Lemma rev_isSubscribed_after_subscribe (sender value now now' : N) (s s' : State) :
  subscribe sender value now s = Ok s' ->
  now + SUBSCRIPTION_DURATION <= MAX_UINT256 ->
  isSubscribed now' sender s' = Ok (now' <? now + SUBSCRIPTION_DURATION).
Proof.
  intros H Hmax. destruct (rev_subscribe_ok_inv _ _ _ _ _ H) as (_ & _ & A & B & _).
  unfold isSubscribed, stillActive.
  rewrite A, B, (checked_add_in_range _ _ Hmax). reflexivity.
Qed.

Lemma getUserPolicies_after_register (sender : N) (fid : string) (fts : N)
    (s s' : State) :
  registerFlight sender fid fts s = Ok s' ->
  getPolicyCount sender s' = S (getPolicyCount sender s) /\
  getUserPolicies sender s'
  = (fst (fst (getUserPolicies sender s)) ++ [fid],
     snd (fst (getUserPolicies sender s)) ++ [fts],
     snd (getUserPolicies sender s) ++ [false]) /\
  forall v, v <> sender ->
    getPolicyCount v s' = getPolicyCount v s /\
    getUserPolicies v s' = getUserPolicies v s.
Proof.
  intros H. apply rev_registerFlight_ok_inv in H as (_ & _ & ->).
  unfold getPolicyCount, getUserPolicies, subscriptionOf; simpl.
  rewrite lookup_insert_eq. simpl. rewrite !map_app, length_app. simpl.
  split; [lia|]. split; [reflexivity|]. intros v Hv.
  rewrite lookup_insert_ne by congruence. auto.
Qed.

(** *** Sequences of transactions *)

Lemma rev_run_step (tx : Tx) (txs : list Tx) (s : State) :
  fst (run (tx :: txs) s)
  = fst (run txs (fst (transact (txSender tx) (txTime tx) (txCall tx) s))).
Proof.
  simpl. destruct (transact _ _ _ s) as [s1 l1]. simpl.
  destruct (run txs s1) as [s2 l2]. reflexivity.
Qed.

Lemma rev_run_invariant (P : State -> Prop) :
  (forall sender now c s, P s -> P (fst (transact sender now c s))) ->
  forall txs s, P s -> P (fst (run txs s)).
Proof.
  intros Hstep. induction txs as [|tx txs IH]; intros s Hs; [exact Hs|].
  rewrite rev_run_step. apply IH, Hstep, Hs.
Qed.

(** A report leaves the stored flag of an unexpired subscriber as it
    is. *)
Lemma scanUsers_keeps_live (now : N) (fid : string) (us : list N) (u : N) :
  forall (s s' : State) (log : list Transfer),
    scanUsers now fid us s = Ok (s', log) ->
    now < startTime (subscriptionOf s u) + SUBSCRIPTION_DURATION ->
    isActive (subscriptionOf s' u) = isActive (subscriptionOf s u).
Proof.
  induction us as [|w us IH]; intros s s' log H Hlive; simpl in H.
  - injection H as <- <-. reflexivity.
  - ok_inv H as active Hact.
    ok_inv H as [[ps' bal'] plog] Hpay. ok_inv H as [s2 log2] Hscan.
    injection H as <- <-.
    destruct (expire_facts active (subscriptionOf s w)) as (X1 & X2 & X3 & X4).
    assert (Hhead : isActive (subscriptionOf
                      (setBalance (setSubscription s w
                         (withPolicies (expire active (subscriptionOf s w)) ps')) bal') u)
                    = isActive (subscriptionOf s u) /\
                    startTime (subscriptionOf
                      (setBalance (setSubscription s w
                         (withPolicies (expire active (subscriptionOf s w)) ps')) bal') u)
                    = startTime (subscriptionOf s u)).
    { rewrite scanUsers_head.
      destruct (decide (w = u)) as [->|]; simpl; [|split; reflexivity].
      split; [|exact X1].
      destruct (isActive (subscriptionOf s u)) eqn:Hon.
      - rewrite (stillActive_live now (subscriptionOf s u) Hon) in Hact.
        + injection Hact as <-. rewrite expire_live. exact Hon.
        + unfold stillActive in Hact. rewrite Hon in Hact.
          destruct (checked_add (startTime (subscriptionOf s u)) SUBSCRIPTION_DURATION)
            as [limit|e] eqn:Hlim; [|discriminate].
          apply checked_add_ok_inv in Hlim as [_ Hmax]. split; [exact Hlive | exact Hmax].
      - destruct (isActive (expire active (subscriptionOf s u))) eqn:Hexp;
          [|reflexivity].
        discriminate (X3 eq_refl). }
    destruct Hhead as [Ha Hs].
    rewrite (IH _ _ _ Hscan); [exact Ha | rewrite Hs; exact Hlive].
Qed.

(** A transaction clears a set flag only if it is a delayed report, sent
    by the oracle, that goes through and finds the address on its list,
    expired. *)
Lemma rev_transact_clears (sender now : N) (c : Call) (s : State) (u : N) :
  isActive (subscriptionOf s u) = true ->
  isActive (subscriptionOf (fst (transact sender now c s)) u) = false ->
  (exists fid, c = UpdateFlightStatus fid true) /\
  sender = oracle s /\
  is_ok (exec sender now c s) = true /\
  In u (allUsersWithFlights s) /\
  startTime (subscriptionOf s u) + SUBSCRIPTION_DURATION <= now.
Proof.
  intros Hon Hoff.
  destruct (isDelayedReport c) eqn:Hc.
  2:{ pose proof (rev_transact_keeps_active sender now c s u Hc Hon) as K. congruence. }
  destruct c as [o|v|v|fid fts|fid [|]]; try discriminate.
  destruct (rev_transact_cases sender now (UpdateFlightStatus fid true) s)
    as [(e & He & Ht)|(s' & log & He & Ht)]; rewrite Ht in Hoff; simpl in Hoff.
  { congruence. }
  pose proof (rev_exec_ok_inv _ _ _ _ _ _ He) as [Hsender Hscan]. simpl in Hscan.
  split; [exists fid; reflexivity|]. split; [exact Hsender|].
  split; [rewrite He; reflexivity|].
  assert (Hin : In u (allUsersWithFlights s)).
  { destruct (in_dec N.eq_dec u (allUsersWithFlights s)) as [Hin|Hnin]; [exact Hin|].
    destruct (scanUsers_unlisted now fid _ u
                (recordStatus s fid true) s' log Hscan Hnin) as [Hsame _].
    rewrite Hsame in Hoff.
    change (subscriptionOf (recordStatus s fid true) u)
      with (subscriptionOf s u) in Hoff.
    congruence. }
  split; [exact Hin|].
  destruct (N.le_gt_cases (startTime (subscriptionOf s u) + SUBSCRIPTION_DURATION) now)
    as [Hexp|Hlive]; [exact Hexp|].
  pose proof (scanUsers_keeps_live now fid _ u
                (recordStatus s fid true) s' log Hscan Hlive) as K.
  change (subscriptionOf (recordStatus s fid true) u)
    with (subscriptionOf s u) in K.
  congruence.
Qed.

(** With less than [PAYOUT] in the pool and a listed, active, unexpired
    subscriber owed a payout, a delayed report by the oracle fails: at
    the first due payout, or before that at an overflowing addition. *)
Lemma rev_updateFlightStatus_short (s : State) (now : N) (fid : string) (u : N) :
  balance s < PAYOUT ->
  In u (allUsersWithFlights s) ->
  isActive (subscriptionOf s u) = true ->
  now < startTime (subscriptionOf s u) + SUBSCRIPTION_DURATION ->
  owedIn now fid (policies (subscriptionOf s u)) ->
  updateFlightStatus (oracle s) now fid true s = Revert InsufficientPool \/
  (updateFlightStatus (oracle s) now fid true s = Revert ArithmeticOverflow /\
   ~ forall v, subscriptionInRange (subscriptionOf s v)).
Proof.
  intros Hbal Hin Hact Hlive Howed.
  unfold updateFlightStatus. rewrite N.eqb_refl. simpl.
  destruct (scanUsers now fid (allUsersWithFlights s) (recordStatus s fid true))
    as [[s' log]|e] eqn:Hscan.
  - exfalso.
    destruct (scanUsers_count now fid _ u (recordStatus s fid true) s' log
                Hscan Hact Hlive Hin) as [Hcount _].
    destruct (scanUsers_spec _ _ _ _ _ _ Hscan)
      as (_ & _ & _ & _ & _ & Hb & _).
    change (subscriptionOf (recordStatus s fid true) u)
      with (subscriptionOf s u) in Hcount.
    change (balance (recordStatus s fid true)) with (balance s) in Hb.
    assert (Hpos : countOwed now fid (policies (subscriptionOf s u)) <> 0%nat).
    { intros Hz. apply countOwed_zero in Hz. contradiction. }
    pose proof (transfersTo_le_length u log) as Hle.
    assert (1 <= N.of_nat (length log)) by lia.
    nia.
  - destruct (scanUsers_errors _ _ _ _ _ Hscan) as [->|[-> Hbad]];
      [left; reflexivity | right; split; [reflexivity | exact Hbad]].
Qed.

(** The ways [updateFlightStatus] can fail. *)
Lemma rev_updateFlightStatus_errors (sender now : N) (fid : string) (d : bool)
    (s : State) (e : Error) :
  updateFlightStatus sender now fid d s = Revert e ->
  (e = Unauthorized /\ sender <> oracle s) \/
  (d = true /\ e = InsufficientPool) \/
  (d = true /\ e = ArithmeticOverflow /\
   ~ forall v, subscriptionInRange (subscriptionOf s v)).
Proof.
  intros H. unfold updateFlightStatus in H.
  destruct (N.eqb_spec sender (oracle s)) as [Heq|Hne]; simpl in H.
  2:{ injection H as <-. left. auto. }
  destruct d; [|discriminate]. right.
  destruct (scanUsers_errors _ _ _ _ _ H) as [->|[-> Hbad]];
    [left; auto | right; auto].
Qed.

(** With recipients that may refuse the ether, each loop either does
    what it does with recipients that accept, or reverts because some
    recipient refuses. *)
Lemma rev_payPoliciesTo_sim (accepts : nat -> N -> bool) (now : N) (fid : string)
    (u : N) (active : bool) (ps : list Policy) :
  forall (n : nat) (bal : N),
    payPoliciesTo accepts n now fid u active ps bal
    = payPolicies now fid u active ps bal \/
    (payPoliciesTo accepts n now fid u active ps bal = Revert TransferRefused /\
     exists i, accepts i u = false).
Proof.
  induction ps as [|p ps IH]; intros n bal; simpl; [left; reflexivity|].
  destruct (checked_add (flightTimestamp p) DELAY_THRESHOLD) as [limit|e];
    simpl; [|left; reflexivity].
  destruct (String.eqb (flightID p) fid && negb (hasPaidOut p) && (limit <=? now)
            && active).
  - destruct (PAYOUT <=? bal); simpl; [|left; reflexivity].
    destruct (accepts n u) eqn:Hacc; simpl.
    + destruct (IH (S n) (bal - PAYOUT)) as [->|[-> Hex]];
        [left; reflexivity | right; split; [reflexivity | exact Hex]].
    + right. split; [reflexivity | exists n; exact Hacc].
  - destruct (IH n bal) as [->|[-> Hex]];
      [left; reflexivity | right; split; [reflexivity | exact Hex]].
Qed.

Lemma scanUsersTo_sim (accepts : nat -> N -> bool) (now : N) (fid : string)
    (us : list N) :
  forall (n : nat) (s : State),
    scanUsersTo accepts n now fid us s = scanUsers now fid us s \/
    (scanUsersTo accepts n now fid us s = Revert TransferRefused /\
     exists i u, In u us /\ accepts i u = false).
Proof.
  induction us as [|w us IH]; intros n s; simpl; [left; reflexivity|].
  destruct (stillActive now (subscriptionOf s w)) as [active|e]; simpl;
    [|left; reflexivity].
  destruct (rev_payPoliciesTo_sim accepts now fid w active
              (policies (expire active (subscriptionOf s w))) n (balance s))
    as [->|[-> [i Hacc]]].
  - destruct (payPolicies now fid w active
                (policies (expire active (subscriptionOf s w))) (balance s))
      as [[[ps' bal'] log]|e]; simpl; [|left; reflexivity].
    destruct (IH (n + length log)%nat
                (setBalance (setSubscription s w
                   (withPolicies (expire active (subscriptionOf s w)) ps')) bal'))
      as [->|[-> (i & u & Hin & Hacc)]]; [left; reflexivity|].
    right. split; [reflexivity | exists i, u; auto].
  - right. split; [reflexivity | exists i, w; auto].
Qed.

Lemma rev_updateFlightStatusTo_sim (accepts : nat -> N -> bool) (sender now : N)
    (fid : string) (d : bool) (s : State) :
  updateFlightStatusTo accepts sender now fid d s
  = updateFlightStatus sender now fid d s \/
  (d = true /\
   updateFlightStatusTo accepts sender now fid d s = Revert TransferRefused /\
   exists i u, In u (allUsersWithFlights s) /\ accepts i u = false).
Proof.
  unfold updateFlightStatusTo, updateFlightStatus.
  destruct (sender =? oracle s); simpl; [|left; reflexivity].
  destruct d; [|left; reflexivity].
  destruct (scanUsersTo_sim accepts now fid (allUsersWithFlights s) 0
              (recordStatus s fid true)) as [H|[H Hex]].
  - left. exact H.
  - right. split; [reflexivity | split; [exact H | exact Hex]].
Qed.

End RevMore.

(** * The claims *)

Import Samples.

(** ** C1: a policy pays out at most once *)

(** C1.  Along any sequence of transactions (any callers, any calls, any
    block times, reverted or not), in both revisions: every policy stays
    at its index with its id and timestamp, a paid flag is never
    lowered, every transfer made is of [PAYOUT], and for every address
    the number of payouts it receives is exactly the number of its
    policies whose flag went from unpaid to paid.  A flag can rise only
    once, so no policy is marked or paid a second time, however often
    the delay is reported again. *)
Theorem payout_at_most_once :
  (forall (txs : list Base.Tx) (s : Base.State),
     Forall (fun t => snd t = PAYOUT) (snd (Base.run txs s)) /\
     forall v : N,
       policiesKept (policies (Base.subscriptionOf s v))
                    (policies (Base.subscriptionOf (fst (Base.run txs s)) v)) /\
       paidCount (policies (Base.subscriptionOf (fst (Base.run txs s)) v)) =
       (paidCount (policies (Base.subscriptionOf s v)) +
        transfersTo v (snd (Base.run txs s)))%nat) /\
  (forall (txs : list Rev.Tx) (s : Rev.State),
     Forall (fun t => snd t = PAYOUT) (snd (Rev.run txs s)) /\
     forall v : N,
       policiesKept (policies (Rev.subscriptionOf s v))
                    (policies (Rev.subscriptionOf (fst (Rev.run txs s)) v)) /\
       paidCount (policies (Rev.subscriptionOf (fst (Rev.run txs s)) v)) =
       (paidCount (policies (Rev.subscriptionOf s v)) +
        transfersTo v (snd (Rev.run txs s)))%nat).
Proof.
  split; intros txs s.
  - destruct (Base.run txs s) as [s' log] eqn:Hrun.
    exact (BaseFacts.run_payouts _ _ _ _ Hrun).
  - destruct (Rev.run txs s) as [s' log] eqn:Hrun.
    exact (RevFacts.rev_run_payouts _ _ _ _ Hrun).
Qed.

(** The sample runs report the delay of "FL1" twice; subscriber 3 is
    paid once. *)
Example double_report_pays_once :
  snd (Base.run baseTrace base0) = [(3, PAYOUT)] /\
  snd (Rev.run revTrace rev0) = [(3, PAYOUT)].
Proof. split; vm_compute; reflexivity. Qed.

(** ** C5: [subscribe] with a wrong premium, or while active *)

(** C5.  In both revisions [subscribe] with a payment other than
    [PREMIUM] reverts with [WrongPremium], and the transaction leaves the
    whole ledger (subscriptions, lists, balance) as it was and makes no
    transfer; with the right payment it reverts with [AlreadySubscribed]
    when the caller's stored subscription is active. *)
Theorem subscribe_rejects :
  (forall (sender value now : N) (s : Base.State),
     value <> PREMIUM ->
     Base.subscribe sender value now s = Revert WrongPremium /\
     Base.transact sender now (Base.Subscribe value) s = (s, [])) /\
  (forall (sender now : N) (s : Base.State),
     isActive (Base.subscriptionOf s sender) = true ->
     Base.subscribe sender PREMIUM now s = Revert AlreadySubscribed /\
     Base.transact sender now (Base.Subscribe PREMIUM) s = (s, [])) /\
  (forall (sender value now : N) (s : Rev.State),
     value <> PREMIUM ->
     Rev.subscribe sender value now s = Revert WrongPremium /\
     Rev.transact sender now (Rev.Subscribe value) s = (s, [])) /\
  (forall (sender now : N) (s : Rev.State),
     isActive (Rev.subscriptionOf s sender) = true ->
     Rev.subscribe sender PREMIUM now s = Revert AlreadySubscribed /\
     Rev.transact sender now (Rev.Subscribe PREMIUM) s = (s, [])).
Proof.
  repeat split.
  - apply BaseFacts.subscribe_wrong_premium; assumption.
  - unfold Base.transact; simpl.
    rewrite BaseFacts.subscribe_wrong_premium by assumption. reflexivity.
  - apply BaseFacts.subscribe_already; assumption.
  - unfold Base.transact; simpl.
    rewrite BaseFacts.subscribe_already by assumption. reflexivity.
  - apply RevFacts.rev_subscribe_wrong_premium; assumption.
  - unfold Rev.transact; simpl.
    rewrite RevFacts.rev_subscribe_wrong_premium by assumption. reflexivity.
  - apply RevFacts.rev_subscribe_already; assumption.
  - unfold Rev.transact; simpl.
    rewrite RevFacts.rev_subscribe_already by assumption. reflexivity.
Qed.

Lemma subscribe_rejects_witness :
  (Base.subscribe 3 (PREMIUM / 2) t0 base1 = Revert WrongPremium /\
   Base.transact 3 t0 (Base.Subscribe (PREMIUM / 2)) base1 = (base1, [])) /\
  (Base.subscribe 3 PREMIUM (t0 + 1) base2 = Revert AlreadySubscribed /\
   Base.transact 3 (t0 + 1) (Base.Subscribe PREMIUM) base2 = (base2, [])) /\
  (Rev.subscribe 3 (PREMIUM / 2) t0 rev1 = Revert WrongPremium /\
   Rev.transact 3 t0 (Rev.Subscribe (PREMIUM / 2)) rev1 = (rev1, [])) /\
  (Rev.subscribe 3 PREMIUM (t0 + 1) rev2 = Revert AlreadySubscribed /\
   Rev.transact 3 (t0 + 1) (Rev.Subscribe PREMIUM) rev2 = (rev2, [])).
Proof.
  destruct subscribe_rejects as (B1 & B2 & R1 & R2).
  split; [|split; [|split]].
  - apply B1. vm_compute. discriminate.
  - apply B2. vm_compute. reflexivity.
  - apply R1. vm_compute. discriminate.
  - apply R2. vm_compute. reflexivity.
Defined.

(** ** C9: what a successful [subscribe] does *)

(** C9.  In both revisions a [subscribe] that succeeds was paid exactly
    [PREMIUM], sets the caller's subscription active with start time
    [now], adds [PREMIUM] to the balance, and leaves the caller's
    policies as they were; and [subscribe(PREMIUM)] does succeed whenever
    the caller's stored flag is clear. *)
Theorem subscribe_effect :
  (forall (sender value now : N) (s s' : Base.State),
     Base.subscribe sender value now s = Ok s' ->
     value = PREMIUM /\
     isActive (Base.subscriptionOf s' sender) = true /\
     startTime (Base.subscriptionOf s' sender) = now /\
     Base.balance s' = Base.balance s + PREMIUM /\
     policies (Base.subscriptionOf s' sender)
     = policies (Base.subscriptionOf s sender)) /\
  (forall (sender now : N) (s : Base.State),
     isActive (Base.subscriptionOf s sender) = false ->
     is_ok (Base.subscribe sender PREMIUM now s) = true) /\
  (forall (sender value now : N) (s s' : Rev.State),
     Rev.subscribe sender value now s = Ok s' ->
     value = PREMIUM /\
     isActive (Rev.subscriptionOf s' sender) = true /\
     startTime (Rev.subscriptionOf s' sender) = now /\
     Rev.balance s' = Rev.balance s + PREMIUM /\
     policies (Rev.subscriptionOf s' sender)
     = policies (Rev.subscriptionOf s sender)) /\
  (forall (sender now : N) (s : Rev.State),
     isActive (Rev.subscriptionOf s sender) = false ->
     is_ok (Rev.subscribe sender PREMIUM now s) = true).
Proof.
  split; [|split; [|split]].
  - intros sender value now s s' H.
    destruct (BaseFacts.subscribe_ok_inv _ _ _ _ _ H) as (A & _ & B & C & D & E).
    auto.
  - intros sender now s H. rewrite (BaseFacts.subscribe_ok _ _ _ H). reflexivity.
  - intros sender value now s s' H.
    destruct (RevFacts.rev_subscribe_ok_inv _ _ _ _ _ H) as (A & _ & B & C & D & E).
    auto.
  - intros sender now s H. rewrite (RevFacts.rev_subscribe_ok _ _ _ H). reflexivity.
Qed.

Lemma subscribe_effect_witness :
  (isActive (Base.subscriptionOf baseRenewed 3) = true /\
   startTime (Base.subscriptionOf baseRenewed 3) = t0 + SUBSCRIPTION_DURATION + 5 /\
   Base.balance baseRenewed = Base.balance baseLapsed + PREMIUM /\
   policies (Base.subscriptionOf baseRenewed 3) = [FL1]) /\
  is_ok (Base.subscribe 3 PREMIUM t0 base1) = true /\
  (isActive (Rev.subscriptionOf revRenewed 3) = true /\
   startTime (Rev.subscriptionOf revRenewed 3) = t0 + SUBSCRIPTION_DURATION + 5 /\
   Rev.balance revRenewed = Rev.balance revLapsed + PREMIUM /\
   policies (Rev.subscriptionOf revRenewed 3) = [FL1]) /\
  is_ok (Rev.subscribe 3 PREMIUM t0 rev1) = true.
Proof.
  destruct subscribe_effect as (B1 & B2 & R1 & R2).
  split; [|split; [|split]].
  - destruct (B1 3 PREMIUM (t0 + SUBSCRIPTION_DURATION + 5) baseLapsed baseRenewed)
      as (_ & A & B & C & D); [vm_compute; reflexivity|].
    split; [exact A | split; [exact B | split; [exact C |]]].
    rewrite D. vm_compute. reflexivity.
  - apply B2. vm_compute. reflexivity.
  - destruct (R1 3 PREMIUM (t0 + SUBSCRIPTION_DURATION + 5) revLapsed revRenewed)
      as (_ & A & B & C & D); [vm_compute; reflexivity|].
    split; [exact A | split; [exact B | split; [exact C |]]].
    rewrite D. vm_compute. reflexivity.
  - apply R2. vm_compute. reflexivity.
Defined.

(** ** C8: [depositFunds] *)

(** C8 as stated fails: in [src/contracts/FlightInsurance.sol] the body
    of [depositFunds] is empty, and the insurer's deposit of zero goes
    through and changes nothing. *)
Lemma deposit_zero_counterexample :
  Base.insurer base0 = 1 /\
  Base.depositFunds 1 0 base0 = Ok base0.
Proof. split; vm_compute; reflexivity. Qed.

(** C8, amended.  In [src/unnamed/part_002] a deposit of zero by the
    owner reverts with [InvalidAmount], a deposit succeeds exactly for
    the owner with a positive amount, and then the balance grows by the
    amount and nothing else changes.  In
    [src/contracts/FlightInsurance.sol] there is no check on the amount:
    every deposit by the insurer, zero included, succeeds, the balance
    grows by the amount and nothing else changes. *)
Theorem deposit_effect :
  (forall s : Rev.State,
     Rev.depositFunds (Rev.owner s) 0 s = Revert InvalidAmount) /\
  (forall (sender value : N) (s s' : Rev.State),
     Rev.depositFunds sender value s = Ok s' ->
     sender = Rev.owner s /\ 0 < value /\
     s' = Rev.setBalance s (Rev.balance s + value)) /\
  (forall (value : N) (s : Rev.State),
     0 < value ->
     Rev.depositFunds (Rev.owner s) value s
     = Ok (Rev.setBalance s (Rev.balance s + value))) /\
  (forall (sender value : N) (s s' : Base.State),
     Base.depositFunds sender value s = Ok s' ->
     sender = Base.insurer s /\
     s' = Base.setBalance s (Base.balance s + value)) /\
  (forall (value : N) (s : Base.State),
     Base.depositFunds (Base.insurer s) value s
     = Ok (Base.setBalance s (Base.balance s + value))).
Proof.
  split; [|split; [|split; [|split]]].
  - exact RevFacts.depositFunds_zero.
  - exact RevFacts.rev_depositFunds_ok_inv.
  - exact RevFacts.rev_depositFunds_ok.
  - exact BaseFacts.depositFunds_ok_inv.
  - exact BaseFacts.depositFunds_ok.
Qed.

Lemma deposit_effect_witness :
  Rev.depositFunds 1 0 rev3 = Revert InvalidAmount /\
  Rev.depositFunds 1 (10 * ether) rev3
  = Ok (Rev.setBalance rev3 (Rev.balance rev3 + 10 * ether)) /\
  Rev.balance rev4 = Rev.balance rev3 + 10 * ether /\
  Base.balance base4 = Base.balance base3 + 10 * ether.
Proof.
  destruct deposit_effect as (R0 & R1 & R2 & B1 & B2).
  split; [|split; [|split]].
  - exact (R0 rev3).
  - apply (R2 (10 * ether) rev3). vm_compute. reflexivity.
  - destruct (R1 1 (10 * ether) rev3 rev4) as (_ & _ & ->);
      [vm_compute; reflexivity | reflexivity].
  - destruct (B1 1 (10 * ether) base3 base4) as (_ & ->);
      [vm_compute; reflexivity | reflexivity].
Defined.

(** ** C7: the oracle and [registerFlight] *)

(** C7 as stated fails: in [src/contracts/FlightInsurance.sol] the
    deployer is the oracle, subscribes like anyone, and registers a
    flight. *)
Lemma oracle_registers_counterexample :
  Base.oracle baseOracle = 1 /\
  is_ok (Base.registerFlight 1 t0 "FL1" t0 baseOracle) = true /\
  policies (Base.subscriptionOf
              (fst (Base.transact 1 t0 (Base.RegisterFlight "FL1" t0) baseOracle)) 1)
  = [FL1].
Proof. repeat split; vm_compute; reflexivity. Qed.

(** C7, amended.  In [src/unnamed/part_002] [registerFlight] called by
    the current oracle always reverts ([OracleNotAllowed]) and the
    transaction changes nothing, so no call by the oracle appends a
    policy.  [src/contracts/FlightInsurance.sol] has no such check: the
    oracle registers a new flight whenever its own subscription is
    active and unexpired. *)
Theorem oracle_cannot_register :
  (forall (now : N) (fid : string) (fts : N) (s : Rev.State),
     Rev.registerFlight (Rev.oracle s) fid fts s = Revert OracleNotAllowed /\
     Rev.transact (Rev.oracle s) now (Rev.RegisterFlight fid fts) s = (s, [])) /\
  (forall (now : N) (fid : string) (fts : N) (s : Base.State),
     isActive (Base.subscriptionOf s (Base.oracle s)) = true ->
     now < startTime (Base.subscriptionOf s (Base.oracle s))
           + SUBSCRIPTION_DURATION <= MAX_UINT256 ->
     ~ hasFlight fid (policies (Base.subscriptionOf s (Base.oracle s))) ->
     is_ok (Base.registerFlight (Base.oracle s) now fid fts s) = true).
Proof.
  split.
  - intros now fid fts s. split; [apply RevFacts.registerFlight_oracle|].
    unfold Rev.transact; simpl. rewrite RevFacts.registerFlight_oracle.
    reflexivity.
  - intros now fid fts s Hact Hlive Hfresh.
    rewrite (BaseFacts.registerFlight_ok _ _ _ _ _ Hact Hlive Hfresh).
    reflexivity.
Qed.

Lemma oracle_cannot_register_witness :
  (Rev.registerFlight 2 "FL9" t0 rev3 = Revert OracleNotAllowed /\
   Rev.transact 2 t0 (Rev.RegisterFlight "FL9" t0) rev3 = (rev3, [])) /\
  is_ok (Base.registerFlight 1 t0 "FL1" t0 baseOracle) = true.
Proof.
  destruct oracle_cannot_register as (R & B).
  split.
  - exact (R t0 "FL9" t0 rev3).
  - apply (B t0 "FL1" t0 baseOracle).
    + vm_compute. reflexivity.
    + vm_compute. split; [reflexivity | discriminate].
    + intros (p & Hin & _). vm_compute in Hin. exact Hin.
Defined.

(** ** C4: registering a flight id twice *)

(** C4 as stated fails: with "FL1" already among the caller's policies
    the revert is not always [DuplicateFlight], since a check that comes
    first may fail.  In
    [src/contracts/FlightInsurance.sol] the subscription of 3 has run
    out; in [src/unnamed/part_002] subscriber 3 has become the oracle. *)
Lemma duplicate_flight_counterexample :
  (hasFlight "FL1" (policies (Base.subscriptionOf base3 3)) /\
   Base.registerFlight 3 (t0 + SUBSCRIPTION_DURATION) "FL1" t0 base3
   = Revert SubscriptionExpired) /\
  (hasFlight "FL1" (policies (Rev.subscriptionOf revOracle 3)) /\
   Rev.registerFlight 3 "FL1" t0 revOracle = Revert OracleNotAllowed).
Proof.
  split; split; try (vm_compute; reflexivity).
  - exists FL1. split; [vm_compute; left; reflexivity | reflexivity].
  - exists FL1. split; [vm_compute; left; reflexivity | reflexivity].
Qed.

(** C4, amended.  When a policy with the given id is already among the
    caller's policies, [registerFlight] always fails, and the error is
    that of the first check that fails.  In
    [src/contracts/FlightInsurance.sol] it is [NoActiveSubscription]
    when the stored flag is clear; otherwise the arithmetic panic when
    [startTime + SUBSCRIPTION_DURATION] overflows; otherwise
    [SubscriptionExpired] when [now >= startTime +
    SUBSCRIPTION_DURATION]; otherwise [DuplicateFlight].  In
    [src/unnamed/part_002] it is [OracleNotAllowed] when the caller is
    the oracle and [DuplicateFlight] otherwise.  So the error is
    [DuplicateFlight] exactly when the checks that come before the scan
    pass.  A registration by one address leaves the subscription of
    every other address as it was and does not change whether a later
    registration by that address, of the same or another id, succeeds. *)
Theorem duplicate_flight_rejected :
  (forall (sender now : N) (fid : string) (fts : N) (s : Base.State),
     hasFlight fid (policies (Base.subscriptionOf s sender)) ->
     is_ok (Base.registerFlight sender now fid fts s) = false /\
     (isActive (Base.subscriptionOf s sender) = true ->
      now < startTime (Base.subscriptionOf s sender)
            + SUBSCRIPTION_DURATION <= MAX_UINT256 ->
      Base.registerFlight sender now fid fts s = Revert DuplicateFlight)) /\
  (forall (sender : N) (fid : string) (fts : N) (s : Rev.State),
     hasFlight fid (policies (Rev.subscriptionOf s sender)) ->
     is_ok (Rev.registerFlight sender fid fts s) = false /\
     (sender <> Rev.oracle s ->
      Rev.registerFlight sender fid fts s = Revert DuplicateFlight)) /\
  (forall (u v now : N) (fid : string) (fts : N) (s s' : Base.State),
     u <> v ->
     Base.registerFlight u now fid fts s = Ok s' ->
     Base.subscriptionOf s' v = Base.subscriptionOf s v /\
     forall (now' : N) (fid' : string) (fts' : N),
       is_ok (Base.registerFlight v now' fid' fts' s')
       = is_ok (Base.registerFlight v now' fid' fts' s)) /\
  (forall (u v : N) (fid : string) (fts : N) (s s' : Rev.State),
     u <> v ->
     Rev.registerFlight u fid fts s = Ok s' ->
     Rev.subscriptionOf s' v = Rev.subscriptionOf s v /\
     forall (fid' : string) (fts' : N),
       is_ok (Rev.registerFlight v fid' fts' s')
       = is_ok (Rev.registerFlight v fid' fts' s)) /\
  (forall (sender now : N) (fid : string) (fts : N) (s : Base.State),
     hasFlight fid (policies (Base.subscriptionOf s sender)) ->
     Base.registerFlight sender now fid fts s
     = Revert
         (if negb (isActive (Base.subscriptionOf s sender))
          then NoActiveSubscription
          else if MAX_UINT256
                  <? startTime (Base.subscriptionOf s sender) + SUBSCRIPTION_DURATION
          then ArithmeticOverflow
          else if startTime (Base.subscriptionOf s sender) + SUBSCRIPTION_DURATION
                  <=? now
          then SubscriptionExpired
          else DuplicateFlight)) /\
  (forall (sender : N) (fid : string) (fts : N) (s : Rev.State),
     hasFlight fid (policies (Rev.subscriptionOf s sender)) ->
     Rev.registerFlight sender fid fts s
     = Revert (if sender =? Rev.oracle s then OracleNotAllowed
               else DuplicateFlight)).
Proof.
  split; [|split; [|split; [|split; [|split]]]].
  - intros sender now fid fts s Hdup.
    split; [exact (BaseFacts.registerFlight_dup_fails _ _ _ _ _ Hdup)|].
    intros Hact Hlive. exact (BaseFacts.registerFlight_dup _ _ _ _ _ Hact Hlive Hdup).
  - intros sender fid fts s Hdup.
    split; [exact (RevFacts.rev_registerFlight_dup_fails _ _ _ _ Hdup)|].
    intros Hne. exact (RevFacts.rev_registerFlight_dup _ _ _ _ Hne Hdup).
  - intros u v now fid fts s s' Hne H.
    apply BaseFacts.registerFlight_ok_inv in H as (_ & _ & _ & ->).
    assert (Heq : Base.subscriptionOf
                    (Base.setSubscription s u
                       (withPolicies (Base.subscriptionOf s u)
                          (policies (Base.subscriptionOf s u) ++
                           [{| flightID := fid; flightTimestamp := fts;
                               hasPaidOut := false |}]))) v
                  = Base.subscriptionOf s v).
    { rewrite BaseFacts.subscriptionOf_setSubscription.
      destruct (decide (u = v)); [contradiction | reflexivity]. }
    split; [exact Heq|]. intros now' fid' fts'.
    apply BaseFacts.registerFlight_local. exact Heq.
  - intros u v fid fts s s' Hne H.
    apply RevFacts.rev_registerFlight_ok_inv in H as (_ & _ & ->).
    assert (Heq : forall l b,
              Rev.subscriptionOf
                {| Rev.oracle := Rev.oracle s; Rev.owner := Rev.owner s;
                   Rev.subscriptions :=
                     <[u := withPolicies (Rev.subscriptionOf s u)
                         (policies (Rev.subscriptionOf s u) ++
                          [{| flightID := fid; flightTimestamp := fts;
                              hasPaidOut := false |}])]> (Rev.subscriptions s);
                   Rev.flightDelays := Rev.flightDelays s;
                   Rev.allSubscribers := Rev.allSubscribers s;
                   Rev.allUsersWithFlights := l;
                   Rev.balance := b |} v
              = Rev.subscriptionOf s v).
    { intros l b. unfold Rev.subscriptionOf; simpl.
      rewrite lookup_insert_ne by exact Hne. reflexivity. }
    split; [apply Heq|]. intros fid' fts'.
    apply RevFacts.rev_registerFlight_local; [reflexivity | apply Heq].
  - intros sender now fid fts s Hdup. unfold Base.registerFlight.
    destruct (isActive (Base.subscriptionOf s sender)); simpl; [|reflexivity].
    unfold checked_add.
    destruct (N.leb_spec (startTime (Base.subscriptionOf s sender)
                          + SUBSCRIPTION_DURATION) MAX_UINT256) as [Hle|Hgt];
      destruct (N.ltb_spec MAX_UINT256
                  (startTime (Base.subscriptionOf s sender) + SUBSCRIPTION_DURATION))
        as [Hlt|Hge]; try lia; simpl; [|reflexivity].
    destruct (N.ltb_spec now (startTime (Base.subscriptionOf s sender)
                              + SUBSCRIPTION_DURATION)) as [Hnow|Hexp];
      destruct (N.leb_spec (startTime (Base.subscriptionOf s sender)
                            + SUBSCRIPTION_DURATION) now) as [Hexp'|Hnow'];
      try lia; simpl; [|reflexivity].
    rewrite (requireUnregistered_dup _ _ Hdup). reflexivity.
  - intros sender fid fts s Hdup. unfold Rev.registerFlight.
    destruct (sender =? Rev.oracle s); simpl; [reflexivity|].
    rewrite (requireUnregistered_dup _ _ Hdup). reflexivity.
Qed.

(** C4 on the samples: subscriber 3 registers "FL1" again, in time and
    after the subscription has run out; subscriber 4 registers the same
    id without touching the subscription of 3. *)
Lemma duplicate_flight_rejected_witness :
  Base.registerFlight 3 (t0 + 1) "FL1" (t0 + 9) base3 = Revert DuplicateFlight /\
  Rev.registerFlight 3 "FL1" (t0 + 9) rev3 = Revert DuplicateFlight /\
  Base.subscriptionOf base6 3 = Base.subscriptionOf base5 3 /\
  Rev.subscriptionOf rev6 3 = Rev.subscriptionOf rev5 3 /\
  Base.registerFlight 3 (t0 + SUBSCRIPTION_DURATION) "FL1" t0 base3
  = Revert
      (if negb (isActive (Base.subscriptionOf base3 3))
       then NoActiveSubscription
       else if MAX_UINT256
               <? startTime (Base.subscriptionOf base3 3) + SUBSCRIPTION_DURATION
       then ArithmeticOverflow
       else if startTime (Base.subscriptionOf base3 3) + SUBSCRIPTION_DURATION
               <=? t0 + SUBSCRIPTION_DURATION
       then SubscriptionExpired
       else DuplicateFlight) /\
  Rev.registerFlight 3 "FL1" t0 revOracle
  = Revert (if 3 =? Rev.oracle revOracle then OracleNotAllowed
            else DuplicateFlight).
Proof.
  destruct duplicate_flight_rejected as (B1 & R1 & B2 & R2 & B3 & R3).
  split; [|split; [|split; [|split; [|split]]]].
  - apply (B1 3 (t0 + 1) "FL1" (t0 + 9) base3).
    + exists FL1. split; [vm_compute; left; reflexivity | reflexivity].
    + vm_compute. reflexivity.
    + vm_compute. split; [reflexivity | discriminate].
  - apply (R1 3 "FL1" (t0 + 9) rev3).
    + exists FL1. split; [vm_compute; left; reflexivity | reflexivity].
    + vm_compute. discriminate.
  - apply (B2 4 3 t0 "FL1" t0 base5 base6).
    + discriminate.
    + vm_compute. reflexivity.
  - apply (R2 4 3 "FL1" t0 rev5 rev6).
    + discriminate.
    + vm_compute. reflexivity.
  - apply (B3 3 (t0 + SUBSCRIPTION_DURATION) "FL1" t0 base3).
    exists FL1. split; [vm_compute; left; reflexivity | reflexivity].
  - apply (R3 3 "FL1" t0 revOracle).
    exists FL1. split; [vm_compute; left; reflexivity | reflexivity].
Defined.

(** ** C2: a payout the pool cannot cover *)

(** C2 as stated fails: the pool holds less than [PAYOUT], subscriber 3
    is listed, unexpired (and active) and owed a payout for "FL1", and
    yet the report does not fail with [InsufficientPool].  The scan
    first visits address 4, whose policy carries the timestamp
    [2^256 - 1], and the checked addition of the delay threshold
    reverts with the arithmetic panic.  Both ledgers are reached by
    ordinary transactions. *)
Lemma insufficient_pool_counterexample :
  (Base.reachable t0 baseFar /\
   Base.balance baseFar < PAYOUT /\
   In 3 (Base.allSubscribers baseFar) /\
   t0 + DELAY_THRESHOLD
   < startTime (Base.subscriptionOf baseFar 3) + SUBSCRIPTION_DURATION /\
   owedIn (t0 + DELAY_THRESHOLD) "FL1" (policies (Base.subscriptionOf baseFar 3)) /\
   Base.updateFlightStatus 2 (t0 + DELAY_THRESHOLD) "FL1" true baseFar
   = Revert ArithmeticOverflow) /\
  (Rev.reachable t0 revFar /\
   Rev.balance revFar < PAYOUT /\
   In 3 (Rev.allUsersWithFlights revFar) /\
   isActive (Rev.subscriptionOf revFar 3) = true /\
   t0 + DELAY_THRESHOLD
   < startTime (Rev.subscriptionOf revFar 3) + SUBSCRIPTION_DURATION /\
   owedIn (t0 + DELAY_THRESHOLD) "FL1" (policies (Rev.subscriptionOf revFar 3)) /\
   Rev.updateFlightStatus 2 (t0 + DELAY_THRESHOLD) "FL1" true revFar
   = Revert ArithmeticOverflow).
Proof.
  assert (Hle : t0 <= t0) by (vm_compute; discriminate).
  split.
  - split.
    { apply (Base.reach_step t0 baseFar3 3 t0); [|exact Hle].
      apply (Base.reach_step t0 baseFar2 3 t0); [|exact Hle].
      apply (Base.reach_step t0 baseFar1 4 t0); [|exact Hle].
      apply (Base.reach_step t0 base1 4 t0); [|exact Hle].
      apply (Base.reach_step t0 base0 1 t0); [|exact Hle].
      apply Base.reach_deploy. }
    split; [vm_compute; reflexivity|].
    split; [vm_compute; auto|].
    split; [vm_compute; reflexivity|].
    split; [|vm_compute; reflexivity].
    exists FL1. split; [vm_compute; left; reflexivity|].
    vm_compute. repeat split; discriminate.
  - split.
    { apply (Rev.reach_step t0 revFar2 3 t0); [|exact Hle].
      apply (Rev.reach_step t0 revFar1 3 t0); [|exact Hle].
      apply (Rev.reach_step t0 rev1 4 t0); [|exact Hle].
      apply (Rev.reach_step t0 rev0 1 t0); [|exact Hle].
      apply Rev.reach_deploy. }
    split; [vm_compute; reflexivity|].
    split; [vm_compute; auto|].
    split; [vm_compute; reflexivity|].
    split; [vm_compute; reflexivity|].
    split; [|vm_compute; reflexivity].
    exists FL1. split; [vm_compute; left; reflexivity|].
    vm_compute. repeat split; discriminate.
Qed.

(** C2, amended.  In both revisions, when the scan of
    [updateFlightStatus(fid, true)] comes to an owed payout with less
    than [PAYOUT] left in the pool, the call reverts with
    [InsufficientPool] and the transaction leaves the ledger exactly as
    it was: no paid flag, no active flag and no flight status is
    changed, and no transfer is made.  In particular, when the pool
    holds less than [PAYOUT] (zero, say) at the start of the call and
    some listed subscriber who is not expired (and, in
    [src/unnamed/part_002], active) is owed a payout for [fid], the
    call always fails and leaves the ledger as it was.  The error is
    then [InsufficientPool], unless a checked addition on a stored
    timestamp overflows before the scan comes to a due payout: then it
    is the arithmetic panic, which takes a stored [startTime +
    SUBSCRIPTION_DURATION] or [flightTimestamp + DELAY_THRESHOLD] above
    [2^256 - 1]. *)
Theorem insufficient_pool_aborts :
  (forall (s : Base.State) (now : N) (fid : string),
     Base.reachesUnfunded s now fid ->
     Base.updateFlightStatus (Base.oracle s) now fid true s
     = Revert InsufficientPool /\
     Base.transact (Base.oracle s) now (Base.UpdateFlightStatus fid true) s
     = (s, [])) /\
  (forall (s : Base.State) (now : N) (fid : string) (u : N),
     Base.balance s < PAYOUT ->
     In u (Base.allSubscribers s) ->
     now < startTime (Base.subscriptionOf s u) + SUBSCRIPTION_DURATION ->
     owedIn now fid (policies (Base.subscriptionOf s u)) ->
     (Base.updateFlightStatus (Base.oracle s) now fid true s
      = Revert InsufficientPool \/
      (Base.updateFlightStatus (Base.oracle s) now fid true s
       = Revert ArithmeticOverflow /\
       ~ forall v, subscriptionInRange (Base.subscriptionOf s v))) /\
     Base.transact (Base.oracle s) now (Base.UpdateFlightStatus fid true) s
     = (s, [])) /\
  (forall (s : Rev.State) (now : N) (fid : string),
     Rev.reachesUnfunded s now fid ->
     Rev.updateFlightStatus (Rev.oracle s) now fid true s
     = Revert InsufficientPool /\
     Rev.transact (Rev.oracle s) now (Rev.UpdateFlightStatus fid true) s
     = (s, [])) /\
  (forall (s : Rev.State) (now : N) (fid : string) (u : N),
     Rev.balance s < PAYOUT ->
     In u (Rev.allUsersWithFlights s) ->
     isActive (Rev.subscriptionOf s u) = true ->
     now < startTime (Rev.subscriptionOf s u) + SUBSCRIPTION_DURATION ->
     owedIn now fid (policies (Rev.subscriptionOf s u)) ->
     (Rev.updateFlightStatus (Rev.oracle s) now fid true s
      = Revert InsufficientPool \/
      (Rev.updateFlightStatus (Rev.oracle s) now fid true s
       = Revert ArithmeticOverflow /\
       ~ forall v, subscriptionInRange (Rev.subscriptionOf s v))) /\
     Rev.transact (Rev.oracle s) now (Rev.UpdateFlightStatus fid true) s
     = (s, [])) .
Proof.
  assert (HB : forall s now fid e,
             Base.updateFlightStatus (Base.oracle s) now fid true s = Revert e ->
             Base.transact (Base.oracle s) now (Base.UpdateFlightStatus fid true) s
             = (s, [])).
  { intros s now fid e H. unfold Base.transact; simpl. rewrite H. reflexivity. }
  assert (HR : forall s now fid e,
             Rev.updateFlightStatus (Rev.oracle s) now fid true s = Revert e ->
             Rev.transact (Rev.oracle s) now (Rev.UpdateFlightStatus fid true) s
             = (s, [])).
  { intros s now fid e H. unfold Rev.transact; simpl. rewrite H. reflexivity. }
  split; [|split; [|split]].
  - intros s now fid
      (us1 & us2 & u & s1 & log1 & plog & ps1 & ps2 & ps1' & p & bal1 &
       Hus & Hscan & Hlive & Hps & Hpay & Howed & Hmax & Hbal).
    assert (Hdue : Base.policyDue now fid p = Ok true).
    { destruct (BaseFacts.policyDue_in_range now fid p Hmax) as [[_ H]|[H _]];
        [exact H | contradiction]. }
    pose proof (BaseFacts.updateFlightStatus_insufficient
                  _ _ _ _ _ _ _ _ _ _ _ _ _ _ Hus Hscan Hlive Hps Hpay Hdue Hbal)
      as H.
    split; [exact H | exact (HB _ _ _ _ H)].
  - intros s now fid u Hbal Hin Hlive Howed.
    destruct (BaseMore.updateFlightStatus_short s now fid u Hbal Hin Hlive Howed)
      as [H|[H Hbad]].
    + split; [left; exact H | exact (HB _ _ _ _ H)].
    + split; [right; split; [exact H | exact Hbad] | exact (HB _ _ _ _ H)].
  - intros s now fid
      (us1 & us2 & u & s1 & log1 & plog & ps1 & ps2 & ps1' & p & bal1 &
       Hus & Hscan & Hact & Hlive & Hps & Hpay & Howed & Hmax & Hbal).
    pose proof (RevFacts.rev_updateFlightStatus_insufficient
                  _ _ _ _ _ _ _ _ _ _ _ _ _ _
                  Hus Hscan Hact Hlive Hps Hpay Howed Hmax Hbal) as H.
    split; [exact H | exact (HR _ _ _ _ H)].
  - intros s now fid u Hbal Hin Hact Hlive Howed.
    destruct (RevMore.rev_updateFlightStatus_short s now fid u
                Hbal Hin Hact Hlive Howed) as [H|[H Hbad]].
    + split; [left; exact H | exact (HR _ _ _ _ H)].
    + split; [right; split; [exact H | exact Hbad] | exact (HR _ _ _ _ H)].
Qed.

(** C2 on the sample pools: [base7] and [rev7] cover the payout of 3
    but not that of 4; [base3] and [rev3] hold the premium only;
    [baseFar] and [revFar] hold the premiums only and meet the
    overflowing timestamp first. *)
Lemma base7_reachesUnfunded :
  Base.reachesUnfunded base7 (t0 + DELAY_THRESHOLD) "FL1".
Proof.
  exists [3], [], 4, base7Mid, [(3, PAYOUT)], [], [], [], [], FL1,
    (Base.balance base7Mid).
  split; [vm_compute; reflexivity|].
  split; [vm_compute; reflexivity|].
  split; [vm_compute; split; [reflexivity | discriminate]|].
  split; [vm_compute; reflexivity|].
  split; [reflexivity|].
  split; [vm_compute; repeat split; discriminate|].
  split; [vm_compute; discriminate|].
  vm_compute. reflexivity.
Defined.

Lemma rev7_reachesUnfunded :
  Rev.reachesUnfunded rev7 (t0 + DELAY_THRESHOLD) "FL1".
Proof.
  exists [3], [], 4, rev7Mid, [(3, PAYOUT)], [], [], [], [], FL1,
    (Rev.balance rev7Mid).
  split; [vm_compute; reflexivity|].
  split; [vm_compute; reflexivity|].
  split; [vm_compute; reflexivity|].
  split; [vm_compute; split; [reflexivity | discriminate]|].
  split; [vm_compute; reflexivity|].
  split; [reflexivity|].
  split; [vm_compute; repeat split; discriminate|].
  split; [vm_compute; discriminate|].
  vm_compute. reflexivity.
Defined.

Lemma insufficient_pool_aborts_witness :
  Base.transact 2 (t0 + DELAY_THRESHOLD) (Base.UpdateFlightStatus "FL1" true) base7
  = (base7, []) /\
  ((Base.updateFlightStatus 2 (t0 + DELAY_THRESHOLD) "FL1" true base3
    = Revert InsufficientPool \/
    (Base.updateFlightStatus 2 (t0 + DELAY_THRESHOLD) "FL1" true base3
     = Revert ArithmeticOverflow /\
     ~ forall v, subscriptionInRange (Base.subscriptionOf base3 v))) /\
   Base.transact 2 (t0 + DELAY_THRESHOLD) (Base.UpdateFlightStatus "FL1" true) base3
   = (base3, [])) /\
  Base.transact 2 (t0 + DELAY_THRESHOLD) (Base.UpdateFlightStatus "FL1" true) baseFar
  = (baseFar, []) /\
  Rev.transact 2 (t0 + DELAY_THRESHOLD) (Rev.UpdateFlightStatus "FL1" true) rev7
  = (rev7, []) /\
  ((Rev.updateFlightStatus 2 (t0 + DELAY_THRESHOLD) "FL1" true rev3
    = Revert InsufficientPool \/
    (Rev.updateFlightStatus 2 (t0 + DELAY_THRESHOLD) "FL1" true rev3
     = Revert ArithmeticOverflow /\
     ~ forall v, subscriptionInRange (Rev.subscriptionOf rev3 v))) /\
   Rev.transact 2 (t0 + DELAY_THRESHOLD) (Rev.UpdateFlightStatus "FL1" true) rev3
   = (rev3, [])) /\
  Rev.transact 2 (t0 + DELAY_THRESHOLD) (Rev.UpdateFlightStatus "FL1" true) revFar
  = (revFar, []).
Proof.
  destruct insufficient_pool_aborts as (B1 & B2 & R1 & R2).
  split; [|split; [|split; [|split; [|split]]]].
  - exact (proj2 (B1 base7 (t0 + DELAY_THRESHOLD) "FL1" base7_reachesUnfunded)).
  - apply (B2 base3 (t0 + DELAY_THRESHOLD) "FL1" 3).
    + vm_compute. reflexivity.
    + vm_compute. left. reflexivity.
    + vm_compute. reflexivity.
    + exists FL1. split; [vm_compute; left; reflexivity|].
      vm_compute. repeat split; discriminate.
  - refine (proj2 (B2 baseFar (t0 + DELAY_THRESHOLD) "FL1" 3 _ _ _ _)).
    + vm_compute. reflexivity.
    + vm_compute. auto.
    + vm_compute. reflexivity.
    + exists FL1. split; [vm_compute; left; reflexivity|].
      vm_compute. repeat split; discriminate.
  - exact (proj2 (R1 rev7 (t0 + DELAY_THRESHOLD) "FL1" rev7_reachesUnfunded)).
  - apply (R2 rev3 (t0 + DELAY_THRESHOLD) "FL1" 3).
    + vm_compute. reflexivity.
    + vm_compute. left. reflexivity.
    + vm_compute. reflexivity.
    + vm_compute. reflexivity.
    + exists FL1. split; [vm_compute; left; reflexivity|].
      vm_compute. repeat split; discriminate.
  - refine (proj2 (R2 revFar (t0 + DELAY_THRESHOLD) "FL1" 3 _ _ _ _ _)).
    + vm_compute. reflexivity.
    + vm_compute. auto.
    + vm_compute. reflexivity.
    + vm_compute. reflexivity.
    + exists FL1. split; [vm_compute; left; reflexivity|].
      vm_compute. repeat split; discriminate.
Defined.

(** With the stored timestamps in range, a pool that is short from the
    start gives [InsufficientPool]: on [base3] and [rev3] the premium is
    all the pool holds. *)
Example short_pool_in_range :
  Base.updateFlightStatus 2 (t0 + DELAY_THRESHOLD) "FL1" true base3
  = Revert InsufficientPool /\
  Rev.updateFlightStatus 2 (t0 + DELAY_THRESHOLD) "FL1" true rev3
  = Revert InsufficientPool.
Proof. split; vm_compute; reflexivity. Qed.

(** ** The sample ledgers: reachability and ranges *)

Lemma base4_reachable : Base.reachable (t0 + SUBSCRIPTION_DURATION) base4.
Proof.
  assert (Hle : t0 <= t0) by (vm_compute; discriminate).
  assert (Hlater : t0 <= t0 + SUBSCRIPTION_DURATION) by (vm_compute; discriminate).
  apply (Base.reach_step t0 base3 1 (t0 + SUBSCRIPTION_DURATION)); [|exact Hlater].
  apply (Base.reach_step t0 base2 3 t0); [|exact Hle].
  apply (Base.reach_step t0 base1 3 t0); [|exact Hle].
  apply (Base.reach_step t0 base0 1 t0); [|exact Hle].
  apply Base.reach_deploy.
Defined.

Lemma baseLapsed_reachable : Base.reachable (t0 + SUBSCRIPTION_DURATION) baseLapsed.
Proof.
  apply (Base.reach_step (t0 + SUBSCRIPTION_DURATION) base4 2
           (t0 + SUBSCRIPTION_DURATION));
    [exact base4_reachable | vm_compute; discriminate].
Defined.

Lemma rev4_reachable : Rev.reachable (t0 + SUBSCRIPTION_DURATION) rev4.
Proof.
  assert (Hle : t0 <= t0) by (vm_compute; discriminate).
  assert (Hlater : t0 <= t0 + SUBSCRIPTION_DURATION) by (vm_compute; discriminate).
  apply (Rev.reach_step t0 rev3 1 (t0 + SUBSCRIPTION_DURATION)); [|exact Hlater].
  apply (Rev.reach_step t0 rev2 3 t0); [|exact Hle].
  apply (Rev.reach_step t0 rev1 3 t0); [|exact Hle].
  apply (Rev.reach_step t0 rev0 1 t0); [|exact Hle].
  apply Rev.reach_deploy.
Defined.

(** The stored timestamps of [base3] and [rev3] are in range. *)
Lemma base3_in_range (v : N) : subscriptionInRange (Base.subscriptionOf base3 v).
Proof.
  unfold Base.subscriptionOf.
  replace (Base.subscriptions base3)
    with (<[3 := {| isActive := true; startTime := t0; policies := [FL1] |}]>
            (∅ : gmap N Subscription)) by (vm_compute; reflexivity).
  rewrite lookup_insert. destruct (decide (3 = v)); simpl.
  - split; [vm_compute; discriminate|].
    constructor; [vm_compute; discriminate | constructor].
  - rewrite lookup_empty. simpl.
    split; [vm_compute; discriminate | constructor].
Defined.

Lemma rev3_in_range (v : N) : subscriptionInRange (Rev.subscriptionOf rev3 v).
Proof.
  unfold Rev.subscriptionOf.
  replace (Rev.subscriptions rev3)
    with (<[3 := {| isActive := true; startTime := t0; policies := [FL1] |}]>
            (∅ : gmap N Subscription)) by (vm_compute; reflexivity).
  rewrite lookup_insert. destruct (decide (3 = v)); simpl.
  - split; [vm_compute; discriminate|].
    constructor; [vm_compute; discriminate | constructor].
  - rewrite lookup_empty. simpl.
    split; [vm_compute; discriminate | constructor].
Defined.

(** ** C3: no payout for a lapsed subscriber *)

(** C3 as stated fails in its last part.  Thirty days after [t0] the
    delay of "FL1" is reported; the subscription of 3 has run out, the
    policy is owed, and the report, which goes through, pays nothing.
    Subscriber 3 then subscribes again, and when the same delay is
    reported once more the old policy is paid: the subscriber does
    receive a payout for the delay that was reported while the
    subscription had lapsed. *)
Lemma lapsed_subscriber_counterexample :
  (startTime (Base.subscriptionOf base4 3) + SUBSCRIPTION_DURATION
   <= t0 + SUBSCRIPTION_DURATION /\
   owedIn (t0 + SUBSCRIPTION_DURATION) "FL1" (policies (Base.subscriptionOf base4 3)) /\
   Base.updateFlightStatus 2 (t0 + SUBSCRIPTION_DURATION) "FL1" true base4
   = Ok (baseMissed, []) /\
   Base.subscribe 3 PREMIUM (t0 + SUBSCRIPTION_DURATION + 5) baseMissed
   = Ok baseBack /\
   snd (Base.transact 2 (t0 + SUBSCRIPTION_DURATION + 9)
          (Base.UpdateFlightStatus "FL1" true) baseBack) = [(3, PAYOUT)] /\
   policies (Base.subscriptionOf
               (fst (Base.transact 2 (t0 + SUBSCRIPTION_DURATION + 9)
                       (Base.UpdateFlightStatus "FL1" true) baseBack)) 3)
   = [markPaid FL1]) /\
  (startTime (Rev.subscriptionOf rev4 3) + SUBSCRIPTION_DURATION
   <= t0 + SUBSCRIPTION_DURATION /\
   owedIn (t0 + SUBSCRIPTION_DURATION) "FL1" (policies (Rev.subscriptionOf rev4 3)) /\
   Rev.updateFlightStatus 2 (t0 + SUBSCRIPTION_DURATION) "FL1" true rev4
   = Ok (revMissed, []) /\
   Rev.subscribe 3 PREMIUM (t0 + SUBSCRIPTION_DURATION + 5) revMissed
   = Ok revBack /\
   snd (Rev.transact 2 (t0 + SUBSCRIPTION_DURATION + 9)
          (Rev.UpdateFlightStatus "FL1" true) revBack) = [(3, PAYOUT)] /\
   policies (Rev.subscriptionOf
               (fst (Rev.transact 2 (t0 + SUBSCRIPTION_DURATION + 9)
                       (Rev.UpdateFlightStatus "FL1" true) revBack)) 3)
   = [markPaid FL1]).
Proof.
  split.
  - split; [vm_compute; discriminate|].
    split; [exists FL1; split; [vm_compute; left; reflexivity|];
            vm_compute; repeat split; discriminate|].
    repeat split; vm_compute; reflexivity.
  - split; [vm_compute; discriminate|].
    split; [exists FL1; split; [vm_compute; left; reflexivity|];
            vm_compute; repeat split; discriminate|].
    repeat split; vm_compute; reflexivity.
Qed.

(** C3, amended.  When a delay is reported while a subscriber's
    subscription is inactive or expired ([now >= startTime +
    SUBSCRIPTION_DURATION]), that report transfers nothing to the
    subscriber and leaves all their policies, paid flags included, as
    they were: in [src/unnamed/part_002] from any storage, in
    [src/contracts/FlightInsurance.sol] from any storage reachable from
    deployment with non-decreasing block times.  Subscribing again does
    not by itself pay anything: every transaction that is not a delayed
    report makes no transfer and leaves every stored policy as it is.
    The exclusion is not permanent, though.  The policy stays unpaid,
    and a later delayed report that goes through while the subscriber is
    listed and the subscription is live again (unexpired and, in
    [src/unnamed/part_002], active) pays [PAYOUT] for every policy owed
    at that time, the old ones included, and leaves none of them
    owed. *)
Theorem lapsed_subscriber_not_paid :
  (forall (t : N) (s : Base.State) (sender now : N) (fid : string) (u : N),
     Base.reachable t s -> t <= now ->
     isActive (Base.subscriptionOf s u) = false \/
     startTime (Base.subscriptionOf s u) + SUBSCRIPTION_DURATION <= now ->
     transfersTo u
       (snd (Base.transact sender now (Base.UpdateFlightStatus fid true) s)) = 0%nat /\
     policies (Base.subscriptionOf
                 (fst (Base.transact sender now (Base.UpdateFlightStatus fid true) s)) u)
     = policies (Base.subscriptionOf s u)) /\
  (forall (s : Rev.State) (sender now : N) (fid : string) (u : N),
     isActive (Rev.subscriptionOf s u) = false \/
     startTime (Rev.subscriptionOf s u) + SUBSCRIPTION_DURATION <= now ->
     transfersTo u
       (snd (Rev.transact sender now (Rev.UpdateFlightStatus fid true) s)) = 0%nat /\
     policies (Rev.subscriptionOf
                 (fst (Rev.transact sender now (Rev.UpdateFlightStatus fid true) s)) u)
     = policies (Rev.subscriptionOf s u)) /\
  (forall (sender now : N) (c : Base.Call) (s : Base.State),
     Base.isDelayedReport c = false ->
     snd (Base.transact sender now c s) = [] /\
     forall v, exists extra,
       policies (Base.subscriptionOf (fst (Base.transact sender now c s)) v)
       = policies (Base.subscriptionOf s v) ++ extra /\
       Forall (fun p => hasPaidOut p = false) extra) /\
  (forall (sender now : N) (c : Rev.Call) (s : Rev.State),
     Rev.isDelayedReport c = false ->
     snd (Rev.transact sender now c s) = [] /\
     forall v, exists extra,
       policies (Rev.subscriptionOf (fst (Rev.transact sender now c s)) v)
       = policies (Rev.subscriptionOf s v) ++ extra /\
       Forall (fun p => hasPaidOut p = false) extra) /\
  (forall (sender now : N) (fid : string) (s s' : Base.State)
          (log : list Transfer) (u : N),
     Base.updateFlightStatus sender now fid true s = Ok (s', log) ->
     In u (Base.allSubscribers s) ->
     now < startTime (Base.subscriptionOf s u) + SUBSCRIPTION_DURATION ->
     transfersTo u log = countOwed now fid (policies (Base.subscriptionOf s u)) /\
     (owedIn now fid (policies (Base.subscriptionOf s u)) ->
      (0 < transfersTo u log)%nat) /\
     ~ owedIn now fid (policies (Base.subscriptionOf s' u))) /\
  (forall (sender now : N) (fid : string) (s s' : Rev.State)
          (log : list Transfer) (u : N),
     Rev.updateFlightStatus sender now fid true s = Ok (s', log) ->
     In u (Rev.allUsersWithFlights s) ->
     isActive (Rev.subscriptionOf s u) = true ->
     now < startTime (Rev.subscriptionOf s u) + SUBSCRIPTION_DURATION ->
     transfersTo u log = countOwed now fid (policies (Rev.subscriptionOf s u)) /\
     (owedIn now fid (policies (Rev.subscriptionOf s u)) ->
      (0 < transfersTo u log)%nat) /\
     ~ owedIn now fid (policies (Rev.subscriptionOf s' u))).
Proof.
  assert (Hpos : forall now fid ps (n : nat),
             n = countOwed now fid ps -> owedIn now fid ps -> (0 < n)%nat).
  { intros now fid ps n -> Howed.
    destruct (countOwed now fid ps) eqn:Hc; [|lia].
    apply countOwed_zero in Hc. contradiction. }
  split; [|split; [|split; [|split; [|split]]]].
  - intros t s sender now fid u Hreach Hle Hlapsed.
    assert (Hl : policies (Base.subscriptionOf s u) = [] \/
                 startTime (Base.subscriptionOf s u) + SUBSCRIPTION_DURATION <= now).
    { destruct Hlapsed as [Hoff|Hexp]; [|right; exact Hexp].
      destruct (BaseFacts.reachable_lapsedOk _ _ Hreach u Hoff) as [Hnil|Hexp];
        [left; exact Hnil | right; lia]. }
    unfold Base.transact; simpl.
    destruct (Base.updateFlightStatus sender now fid true s) as [[s' log]|e] eqn:He;
      simpl; [|auto].
    apply BaseFacts.updateFlightStatus_ok_inv in He as (_ & Hscan).
    refine (BaseFacts.scanSubscribers_lapsed
              _ _ _ _ (Base.recordStatus s fid true) _ _ _ Hscan).
    exact Hl.
  - intros s sender now fid u Hlapsed.
    unfold Rev.transact; simpl.
    destruct (Rev.updateFlightStatus sender now fid true s) as [[s' log]|e] eqn:He;
      simpl; [|auto].
    apply RevFacts.rev_updateFlightStatus_ok_inv in He as (_ & Hscan).
    refine (RevFacts.scanUsers_lapsed
              _ _ _ _ (Rev.recordStatus s fid true) _ _ _ Hscan).
    exact Hlapsed.
  - intros sender now c s Hc.
    destruct (Base.transact sender now c s) as [s' log] eqn:Ht.
    exact (BaseFacts.transact_quiet _ _ _ _ _ _ Hc Ht).
  - intros sender now c s Hc.
    destruct (Rev.transact sender now c s) as [s' log] eqn:Ht.
    exact (RevFacts.rev_transact_quiet _ _ _ _ _ _ Hc Ht).
  - intros sender now fid s s' log u H Hin Hlive.
    apply BaseFacts.updateFlightStatus_ok_inv in H as (_ & Hscan).
    destruct (BaseMore.scanSubscribers_count now fid _ u
                (Base.recordStatus s fid true) s' log Hscan Hlive Hin) as [K1 K2].
    change (Base.subscriptionOf (Base.recordStatus s fid true) u)
      with (Base.subscriptionOf s u) in K1.
    split; [exact K1|].
    split; [exact (Hpos _ _ _ _ K1) | apply countOwed_zero; exact K2].
  - intros sender now fid s s' log u H Hin Hact Hlive.
    apply RevFacts.rev_updateFlightStatus_ok_inv in H as (_ & Hscan).
    destruct (RevMore.scanUsers_count now fid _ u
                (Rev.recordStatus s fid true) s' log Hscan Hact Hlive Hin)
      as [K1 K2].
    change (Rev.subscriptionOf (Rev.recordStatus s fid true) u)
      with (Rev.subscriptionOf s u) in K1.
    split; [exact K1|].
    split; [exact (Hpos _ _ _ _ K1) | apply countOwed_zero; exact K2].
Qed.

(** C3 on the samples: thirty days and two hours after [t0] the delay
    of "FL1" is reported: subscriber 3 is expired (in [baseLapsed] the flag is cleared as
    well) and is not paid, although the pool is funded; subscribing
    again pays nothing; the report made after that pays the policy. *)
Lemma lapsed_subscriber_not_paid_witness :
  (transfersTo 3
     (snd (Base.transact 2 (t0 + SUBSCRIPTION_DURATION + DELAY_THRESHOLD)
             (Base.UpdateFlightStatus "FL1" true) baseLapsed)) = 0%nat /\
   policies (Base.subscriptionOf
               (fst (Base.transact 2 (t0 + SUBSCRIPTION_DURATION + DELAY_THRESHOLD)
                       (Base.UpdateFlightStatus "FL1" true) baseLapsed)) 3)
   = policies (Base.subscriptionOf baseLapsed 3)) /\
  (transfersTo 3
     (snd (Rev.transact 2 (t0 + SUBSCRIPTION_DURATION)
             (Rev.UpdateFlightStatus "FL1" true) rev4)) = 0%nat /\
   policies (Rev.subscriptionOf
               (fst (Rev.transact 2 (t0 + SUBSCRIPTION_DURATION)
                       (Rev.UpdateFlightStatus "FL1" true) rev4)) 3)
   = policies (Rev.subscriptionOf rev4 3)) /\
  snd (Base.transact 3 (t0 + SUBSCRIPTION_DURATION + 5)
         (Base.Subscribe PREMIUM) baseLapsed) = [] /\
  snd (Rev.transact 3 (t0 + SUBSCRIPTION_DURATION + 5)
         (Rev.Subscribe PREMIUM) revLapsed) = [] /\
  (0 < transfersTo 3
         (snd (Base.transact 2 (t0 + SUBSCRIPTION_DURATION + 9)
                 (Base.UpdateFlightStatus "FL1" true) baseBack)))%nat /\
  (0 < transfersTo 3
         (snd (Rev.transact 2 (t0 + SUBSCRIPTION_DURATION + 9)
                 (Rev.UpdateFlightStatus "FL1" true) revBack)))%nat.
Proof.
  destruct lapsed_subscriber_not_paid as (B1 & R1 & B2 & R2 & B3 & R3).
  split; [|split; [|split; [|split; [|split]]]].
  - apply (B1 (t0 + SUBSCRIPTION_DURATION) baseLapsed 2
              (t0 + SUBSCRIPTION_DURATION + DELAY_THRESHOLD) "FL1" 3).
    + exact baseLapsed_reachable.
    + vm_compute. discriminate.
    + left. vm_compute. reflexivity.
  - apply (R1 rev4 2 (t0 + SUBSCRIPTION_DURATION) "FL1" 3).
    right. vm_compute. discriminate.
  - apply (B2 3 (t0 + SUBSCRIPTION_DURATION + 5) (Base.Subscribe PREMIUM) baseLapsed).
    reflexivity.
  - apply (R2 3 (t0 + SUBSCRIPTION_DURATION + 5) (Rev.Subscribe PREMIUM) revLapsed).
    reflexivity.
  - refine (proj1 (proj2 (B3 2 (t0 + SUBSCRIPTION_DURATION + 9) "FL1" baseBack
                            (fst (Base.transact 2 (t0 + SUBSCRIPTION_DURATION + 9)
                                    (Base.UpdateFlightStatus "FL1" true) baseBack))
                            _ 3 _ _ _)) _).
    + vm_compute. reflexivity.
    + vm_compute. auto.
    + vm_compute. reflexivity.
    + exists FL1. split; [vm_compute; left; reflexivity|].
      vm_compute. repeat split; discriminate.
  - refine (proj1 (proj2 (R3 2 (t0 + SUBSCRIPTION_DURATION + 9) "FL1" revBack
                            (fst (Rev.transact 2 (t0 + SUBSCRIPTION_DURATION + 9)
                                    (Rev.UpdateFlightStatus "FL1" true) revBack))
                            _ 3 _ _ _ _)) _).
    + vm_compute. reflexivity.
    + vm_compute. auto.
    + vm_compute. reflexivity.
    + vm_compute. reflexivity.
    + exists FL1. split; [vm_compute; left; reflexivity|].
      vm_compute. repeat split; discriminate.
Defined.

(** ** C6: the stored active flag and expiry *)

(** C6 as stated fails: thirty days after subscribing, with no report
    in between, the stored flag of subscriber 3 is still set although
    the subscription has run out, in a ledger reached by ordinary
    transactions. *)
Lemma active_flag_counterexample :
  (Base.reachable (t0 + SUBSCRIPTION_DURATION) base4 /\
   isActive (Base.subscriptionOf base4 3) = true /\
   startTime (Base.subscriptionOf base4 3) + SUBSCRIPTION_DURATION
   <= t0 + SUBSCRIPTION_DURATION) /\
  (Rev.reachable (t0 + SUBSCRIPTION_DURATION) rev4 /\
   isActive (Rev.subscriptionOf rev4 3) = true /\
   startTime (Rev.subscriptionOf rev4 3) + SUBSCRIPTION_DURATION
   <= t0 + SUBSCRIPTION_DURATION).
Proof.
  split; (split; [|split]).
  - exact base4_reachable.
  - vm_compute. reflexivity.
  - vm_compute. discriminate.
  - exact rev4_reachable.
  - vm_compute. reflexivity.
  - vm_compute. discriminate.
Qed.

(** C6, amended.  In both revisions [isSubscribed] answers true only
    while the stored flag is set and [now < startTime +
    SUBSCRIPTION_DURATION].  The stored flag itself can outlive the
    expiry.  A set flag is cleared only by a delayed report,
    [updateFlightStatus(_, true)], that is sent by the oracle, goes
    through, and has the subscriber on its list, expired at that time;
    every other transaction keeps a set flag.  Such a report clears the
    flag of every listed subscriber that is expired at that time.  No
    transaction other than the subscriber's own [subscribe] changes the
    start time or raises the flag, so a cleared flag stays cleared until
    the subscriber subscribes again. *)
Theorem active_flag_lifecycle :
  (forall (now user : N) (s : Base.State),
     Base.isSubscribed now user s = Ok true ->
     isActive (Base.subscriptionOf s user) = true /\
     now < startTime (Base.subscriptionOf s user) + SUBSCRIPTION_DURATION) /\
  (forall (sender now : N) (fid : string) (s s' : Base.State)
          (log : list Transfer) (u : N),
     Base.updateFlightStatus sender now fid true s = Ok (s', log) ->
     In u (Base.allSubscribers s) ->
     startTime (Base.subscriptionOf s u) + SUBSCRIPTION_DURATION <= now ->
     isActive (Base.subscriptionOf s' u) = false) /\
  (forall (sender now : N) (c : Base.Call) (s : Base.State) (u : N),
     Base.isSubscribeBy u sender c = false ->
     startTime (Base.subscriptionOf (fst (Base.transact sender now c s)) u)
     = startTime (Base.subscriptionOf s u) /\
     (isActive (Base.subscriptionOf (fst (Base.transact sender now c s)) u) = true ->
      isActive (Base.subscriptionOf s u) = true)) /\
  (forall (now user : N) (s : Rev.State),
     Rev.isSubscribed now user s = Ok true ->
     isActive (Rev.subscriptionOf s user) = true /\
     now < startTime (Rev.subscriptionOf s user) + SUBSCRIPTION_DURATION) /\
  (forall (sender now : N) (fid : string) (s s' : Rev.State)
          (log : list Transfer) (u : N),
     Rev.updateFlightStatus sender now fid true s = Ok (s', log) ->
     In u (Rev.allUsersWithFlights s) ->
     startTime (Rev.subscriptionOf s u) + SUBSCRIPTION_DURATION <= now ->
     isActive (Rev.subscriptionOf s' u) = false) /\
  (forall (sender now : N) (c : Rev.Call) (s : Rev.State) (u : N),
     Rev.isSubscribeBy u sender c = false ->
     startTime (Rev.subscriptionOf (fst (Rev.transact sender now c s)) u)
     = startTime (Rev.subscriptionOf s u) /\
     (isActive (Rev.subscriptionOf (fst (Rev.transact sender now c s)) u) = true ->
      isActive (Rev.subscriptionOf s u) = true)) /\
  (forall (sender now : N) (c : Base.Call) (s : Base.State) (u : N),
     Base.isDelayedReport c = false ->
     isActive (Base.subscriptionOf s u) = true ->
     isActive (Base.subscriptionOf (fst (Base.transact sender now c s)) u) = true) /\
  (forall (sender now : N) (c : Base.Call) (s : Base.State) (u : N),
     isActive (Base.subscriptionOf s u) = true ->
     isActive (Base.subscriptionOf (fst (Base.transact sender now c s)) u) = false ->
     (exists fid, c = Base.UpdateFlightStatus fid true) /\
     sender = Base.oracle s /\
     is_ok (Base.exec sender now c s) = true /\
     In u (Base.allSubscribers s) /\
     startTime (Base.subscriptionOf s u) + SUBSCRIPTION_DURATION <= now) /\
  (forall (sender now : N) (c : Rev.Call) (s : Rev.State) (u : N),
     Rev.isDelayedReport c = false ->
     isActive (Rev.subscriptionOf s u) = true ->
     isActive (Rev.subscriptionOf (fst (Rev.transact sender now c s)) u) = true) /\
  (forall (sender now : N) (c : Rev.Call) (s : Rev.State) (u : N),
     isActive (Rev.subscriptionOf s u) = true ->
     isActive (Rev.subscriptionOf (fst (Rev.transact sender now c s)) u) = false ->
     (exists fid, c = Rev.UpdateFlightStatus fid true) /\
     sender = Rev.oracle s /\
     is_ok (Rev.exec sender now c s) = true /\
     In u (Rev.allUsersWithFlights s) /\
     startTime (Rev.subscriptionOf s u) + SUBSCRIPTION_DURATION <= now).
Proof.
  split; [|split; [|split; [|split; [|split; [|split; [|split; [|split; [|split]]]]]]]].
  - exact BaseFacts.isSubscribed_true_inv.
  - intros sender now fid s s' log u H Hin Hexp.
    apply BaseFacts.updateFlightStatus_ok_inv in H as (_ & Hscan).
    exact (BaseFacts.scanSubscribers_clears
             _ _ _ _ (Base.recordStatus s fid true) _ _ Hscan Hin Hexp).
  - intros sender now c s u Hc.
    exact (BaseFacts.transact_subscription_frame _ _ _ _ _ Hc).
  - intros now user s H. exact (RevFacts.stillActive_true_inv _ _ H).
  - intros sender now fid s s' log u H Hin Hexp.
    apply RevFacts.rev_updateFlightStatus_ok_inv in H as (_ & Hscan).
    exact (RevFacts.scanUsers_clears
             _ _ _ _ (Rev.recordStatus s fid true) _ _ Hscan Hin Hexp).
  - intros sender now c s u Hc.
    exact (RevFacts.rev_transact_subscription_frame _ _ _ _ _ Hc).
  - exact BaseFacts.transact_keeps_active.
  - exact BaseMore.transact_clears.
  - exact RevFacts.rev_transact_keeps_active.
  - exact RevMore.rev_transact_clears.
Qed.

(** C6 on the samples: the deposit made thirty days after [t0] keeps
    the flag of 3 set; the report that follows clears it, and it is a
    delayed report by the oracle 2 that lists 3, expired. *)
Lemma active_flag_lifecycle_witness :
  (isActive (Base.subscriptionOf base3 3) = true /\
   t0 + 1 < startTime (Base.subscriptionOf base3 3) + SUBSCRIPTION_DURATION) /\
  isActive (Base.subscriptionOf baseLapsed 3) = false /\
  startTime (Base.subscriptionOf base4 3) = startTime (Base.subscriptionOf base3 3) /\
  (isActive (Rev.subscriptionOf rev3 3) = true /\
   t0 + 1 < startTime (Rev.subscriptionOf rev3 3) + SUBSCRIPTION_DURATION) /\
  isActive (Rev.subscriptionOf revLapsed 3) = false /\
  startTime (Rev.subscriptionOf rev4 3) = startTime (Rev.subscriptionOf rev3 3) /\
  isActive (Base.subscriptionOf base4 3) = true /\
  (2 = Base.oracle base4 /\ In 3 (Base.allSubscribers base4) /\
   startTime (Base.subscriptionOf base4 3) + SUBSCRIPTION_DURATION
   <= t0 + SUBSCRIPTION_DURATION) /\
  isActive (Rev.subscriptionOf rev4 3) = true /\
  (2 = Rev.oracle rev4 /\ In 3 (Rev.allUsersWithFlights rev4) /\
   startTime (Rev.subscriptionOf rev4 3) + SUBSCRIPTION_DURATION
   <= t0 + SUBSCRIPTION_DURATION).
Proof.
  destruct active_flag_lifecycle
    as (B1 & B2 & B3 & R1 & R2 & R3 & B4 & B5 & R4 & R5).
  split; [|split; [|split; [|split; [|split; [|split; [|split; [|split; [|split]]]]]]]].
  - apply (B1 (t0 + 1) 3 base3). vm_compute. reflexivity.
  - apply (B2 2 (t0 + SUBSCRIPTION_DURATION) "FL2" base4 baseLapsed []).
    + vm_compute. reflexivity.
    + vm_compute. left. reflexivity.
    + vm_compute. discriminate.
  - apply (B3 1 (t0 + SUBSCRIPTION_DURATION) (Base.DepositFunds (10 * ether)) base3 3).
    reflexivity.
  - apply (R1 (t0 + 1) 3 rev3). vm_compute. reflexivity.
  - apply (R2 2 (t0 + SUBSCRIPTION_DURATION) "FL2" rev4 revLapsed []).
    + vm_compute. reflexivity.
    + vm_compute. left. reflexivity.
    + vm_compute. discriminate.
  - apply (R3 1 (t0 + SUBSCRIPTION_DURATION) (Rev.DepositFunds (10 * ether)) rev3 3).
    reflexivity.
  - apply (B4 1 (t0 + SUBSCRIPTION_DURATION) (Base.DepositFunds (10 * ether)) base3 3).
    + reflexivity.
    + vm_compute. reflexivity.
  - destruct (B5 2 (t0 + SUBSCRIPTION_DURATION) (Base.UpdateFlightStatus "FL2" true)
                base4 3) as (_ & K1 & _ & K2 & K3).
    + vm_compute. reflexivity.
    + vm_compute. reflexivity.
    + split; [exact K1 | split; [exact K2 | exact K3]].
  - apply (R4 1 (t0 + SUBSCRIPTION_DURATION) (Rev.DepositFunds (10 * ether)) rev3 3).
    + reflexivity.
    + vm_compute. reflexivity.
  - destruct (R5 2 (t0 + SUBSCRIPTION_DURATION) (Rev.UpdateFlightStatus "FL2" true)
                rev4 3) as (_ & K1 & _ & K2 & K3).
    + vm_compute. reflexivity.
    + vm_compute. reflexivity.
    + split; [exact K1 | split; [exact K2 | exact K3]].
Defined.

(** ** C10: an expired subscriber and [subscribe] *)

(** C10.  There is a reachable ledger and a time at which
    [isSubscribed(who)] answers false, the subscription having run out,
    and yet [subscribe] with the right premium reverts with
    [AlreadySubscribed].  [subscribe] tests the stored flag only: while
    it is set the call reverts, whatever the time; no transaction other
    than a delayed report clears a set flag; and after a successful
    delayed report that lists the expired subscriber, [subscribe]
    succeeds again. *)
Theorem expired_cannot_resubscribe :
  (exists (t : N) (s : Base.State) (who : N),
     Base.reachable t s /\
     startTime (Base.subscriptionOf s who) + SUBSCRIPTION_DURATION <= t /\
     Base.isSubscribed t who s = Ok false /\
     Base.subscribe who PREMIUM t s = Revert AlreadySubscribed) /\
  (forall (sender now now' : N) (c : Base.Call) (s : Base.State) (who : N),
     Base.isDelayedReport c = false ->
     isActive (Base.subscriptionOf s who) = true ->
     isActive (Base.subscriptionOf (fst (Base.transact sender now c s)) who) = true /\
     Base.subscribe who PREMIUM now' (fst (Base.transact sender now c s))
     = Revert AlreadySubscribed) /\
  (forall (sender now now' : N) (fid : string) (s s' : Base.State)
          (log : list Transfer) (who : N),
     Base.updateFlightStatus sender now fid true s = Ok (s', log) ->
     In who (Base.allSubscribers s) ->
     startTime (Base.subscriptionOf s who) + SUBSCRIPTION_DURATION <= now ->
     is_ok (Base.subscribe who PREMIUM now' s') = true).
Proof.
  split; [|split].
  - exists (t0 + SUBSCRIPTION_DURATION), base4, 3.
    split; [exact base4_reachable|].
    split; [vm_compute; discriminate|].
    split; vm_compute; reflexivity.
  - intros sender now now' c s who Hc Hact.
    pose proof (BaseFacts.transact_keeps_active sender now c s who Hc Hact) as H.
    split; [exact H | exact (BaseFacts.subscribe_already _ _ _ H)].
  - intros sender now now' fid s s' log who H Hin Hexp.
    apply BaseFacts.updateFlightStatus_ok_inv in H as (_ & Hscan).
    pose proof (BaseFacts.scanSubscribers_clears
                  _ _ _ _ (Base.recordStatus s fid true) _ _ Hscan Hin Hexp) as Hoff.
    rewrite (BaseFacts.subscribe_ok _ _ _ Hoff). reflexivity.
Qed.

Lemma expired_cannot_resubscribe_witness :
  (isActive (Base.subscriptionOf base4 3) = true /\
   Base.subscribe 3 PREMIUM (t0 + SUBSCRIPTION_DURATION + 5) base4
   = Revert AlreadySubscribed) /\
  is_ok (Base.subscribe 3 PREMIUM (t0 + SUBSCRIPTION_DURATION + 5) baseLapsed) = true.
Proof.
  destruct expired_cannot_resubscribe as (_ & B2 & B3).
  split.
  - apply (B2 1 (t0 + SUBSCRIPTION_DURATION) (t0 + SUBSCRIPTION_DURATION + 5)
              (Base.DepositFunds (10 * ether)) base3 3).
    + reflexivity.
    + vm_compute. reflexivity.
  - apply (B3 2 (t0 + SUBSCRIPTION_DURATION) (t0 + SUBSCRIPTION_DURATION + 5)
              "FL2" base4 baseLapsed [] 3).
    + vm_compute. reflexivity.
    + vm_compute. left. reflexivity.
    + vm_compute. discriminate.
Defined.

(** * Further properties *)

(** ** Roles *)

(** X1.  No sequence of transactions changes the insurer of
    [src/contracts/FlightInsurance.sol] or the owner of
    [src/unnamed/part_002]: the address set by the constructor stays. *)
Theorem admin_never_changes :
  (forall (txs : list Base.Tx) (s : Base.State),
     Base.insurer (fst (Base.run txs s)) = Base.insurer s) /\
  (forall (txs : list Rev.Tx) (s : Rev.State),
     Rev.owner (fst (Rev.run txs s)) = Rev.owner s).
Proof.
  split; intros txs s.
  - apply (BaseMore.run_invariant (fun s' => Base.insurer s' = Base.insurer s));
      [|reflexivity].
    intros sender now c s1 H.
    rewrite (proj1 (BaseMore.transact_roles sender now c s1)). exact H.
  - apply (RevMore.rev_run_invariant (fun s' => Rev.owner s' = Rev.owner s));
      [|reflexivity].
    intros sender now c s1 H.
    rewrite (proj1 (RevMore.rev_transact_roles sender now c s1)). exact H.
Qed.

(** X2.  A transaction changes the oracle only if it is a [setOracle]
    sent by the insurer (owner), and the new oracle is the argument of
    that call; in [src/contracts/FlightInsurance.sol] the new oracle is
    moreover not the zero address. *)
Theorem oracle_changes_only_through_setOracle :
  (forall (sender now : N) (c : Base.Call) (s : Base.State),
     Base.oracle (fst (Base.transact sender now c s)) <> Base.oracle s ->
     sender = Base.insurer s /\
     c = Base.SetOracle (Base.oracle (fst (Base.transact sender now c s))) /\
     Base.oracle (fst (Base.transact sender now c s)) <> 0) /\
  (forall (sender now : N) (c : Rev.Call) (s : Rev.State),
     Rev.oracle (fst (Rev.transact sender now c s)) <> Rev.oracle s ->
     sender = Rev.owner s /\
     c = Rev.SetOracle (Rev.oracle (fst (Rev.transact sender now c s)))).
Proof.
  split.
  - intros sender now c s. exact (proj2 (BaseMore.transact_roles sender now c s)).
  - intros sender now c s. exact (proj2 (RevMore.rev_transact_roles sender now c s)).
Qed.

Lemma oracle_changes_only_through_setOracle_witness :
  (1 = Base.insurer base0 /\
   Base.SetOracle 2
   = Base.SetOracle (Base.oracle (fst (Base.transact 1 t0 (Base.SetOracle 2) base0))) /\
   Base.oracle (fst (Base.transact 1 t0 (Base.SetOracle 2) base0)) <> 0) /\
  (1 = Rev.owner rev0 /\
   Rev.SetOracle 2
   = Rev.SetOracle (Rev.oracle (fst (Rev.transact 1 t0 (Rev.SetOracle 2) rev0)))).
Proof.
  destruct oracle_changes_only_through_setOracle as (B & R).
  split.
  - apply (B 1 t0 (Base.SetOracle 2) base0). vm_compute. discriminate.
  - apply (R 1 t0 (Rev.SetOracle 2) rev0). vm_compute. discriminate.
Defined.

(** X3.  In [src/contracts/FlightInsurance.sol] an oracle that is not
    the zero address never becomes the zero address, whatever is sent;
    [src/unnamed/part_002] has no such guard: the owner's
    [setOracle(address(0))] goes through. *)
Theorem base_oracle_never_zero :
  (forall (txs : list Base.Tx) (s : Base.State),
     Base.oracle s <> 0 -> Base.oracle (fst (Base.run txs s)) <> 0) /\
  (forall s : Rev.State,
     exists s', Rev.setOracle (Rev.owner s) 0 s = Ok s' /\ Rev.oracle s' = 0).
Proof.
  split.
  - intros txs s. apply (BaseMore.run_invariant (fun s' => Base.oracle s' <> 0)).
    intros sender now c s1 H Hz.
    destruct (N.eq_dec (Base.oracle (fst (Base.transact sender now c s1)))
                (Base.oracle s1)) as [Heq|Hne].
    + rewrite Heq in Hz. contradiction.
    + destruct (proj2 (BaseMore.transact_roles sender now c s1) Hne) as (_ & _ & K).
      contradiction.
  - intros s. eexists. unfold Rev.setOracle. rewrite N.eqb_refl. simpl.
    split; reflexivity.
Qed.

Lemma base_oracle_never_zero_witness :
  Base.oracle (fst (Base.run baseTrace base0)) <> 0.
Proof.
  apply (proj1 base_oracle_never_zero baseTrace base0).
  vm_compute. discriminate.
Defined.

(** X4.  A transaction sent by anyone but the oracle makes no transfer,
    leaves the recorded flight statuses alone, does not lower the pool
    balance and changes no subscription other than the sender's own;
    unless the sender is the insurer (owner) it leaves the oracle in
    place as well. *)
Theorem outsider_touches_only_own_subscription :
  (forall (sender now : N) (c : Base.Call) (s : Base.State),
     sender <> Base.oracle s ->
     snd (Base.transact sender now c s) = [] /\
     Base.flightDelays (fst (Base.transact sender now c s)) = Base.flightDelays s /\
     Base.balance s <= Base.balance (fst (Base.transact sender now c s)) /\
     (forall v, v <> sender ->
        Base.subscriptionOf (fst (Base.transact sender now c s)) v
        = Base.subscriptionOf s v) /\
     (sender <> Base.insurer s ->
      Base.oracle (fst (Base.transact sender now c s)) = Base.oracle s)) /\
  (forall (sender now : N) (c : Rev.Call) (s : Rev.State),
     sender <> Rev.oracle s ->
     snd (Rev.transact sender now c s) = [] /\
     Rev.flightDelays (fst (Rev.transact sender now c s)) = Rev.flightDelays s /\
     Rev.balance s <= Rev.balance (fst (Rev.transact sender now c s)) /\
     (forall v, v <> sender ->
        Rev.subscriptionOf (fst (Rev.transact sender now c s)) v
        = Rev.subscriptionOf s v) /\
     (sender <> Rev.owner s ->
      Rev.oracle (fst (Rev.transact sender now c s)) = Rev.oracle s)).
Proof.
  split.
  - exact BaseMore.transact_outsider.
  - exact RevMore.rev_transact_outsider.
Qed.

Lemma outsider_touches_only_own_subscription_witness :
  Base.subscriptionOf (fst (Base.transact 4 t0 (Base.Subscribe PREMIUM) base3)) 3
  = Base.subscriptionOf base3 3 /\
  Rev.subscriptionOf (fst (Rev.transact 4 t0 (Rev.RegisterFlight "FL1" t0) rev3)) 3
  = Rev.subscriptionOf rev3 3.
Proof.
  destruct outsider_touches_only_own_subscription as (B & R).
  split.
  - destruct (B 4 t0 (Base.Subscribe PREMIUM) base3) as (_ & _ & _ & K & _).
    + vm_compute. discriminate.
    + apply K. discriminate.
  - destruct (R 4 t0 (Rev.RegisterFlight "FL1" t0) rev3) as (_ & _ & _ & K & _).
    + vm_compute. discriminate.
    + apply K. discriminate.
Defined.

(** ** Recorded statuses and the pool *)

(** X5.  A report that goes through, whether or not it pays anyone,
    records its status under the reported id and leaves the status of
    every other id as it was; and a transaction changes the recorded
    statuses only if it is an [updateFlightStatus] sent by the oracle. *)
Theorem flight_status_record :
  (forall (sender now : N) (fid : string) (d : bool) (s s' : Base.State)
          (log : list Transfer),
     Base.updateFlightStatus sender now fid d s = Ok (s', log) ->
     Base.flightDelays s' !! fid = Some d /\
     forall fid', fid' <> fid ->
       Base.flightDelays s' !! fid' = Base.flightDelays s !! fid') /\
  (forall (sender now : N) (c : Base.Call) (s : Base.State),
     Base.flightDelays (fst (Base.transact sender now c s)) <> Base.flightDelays s ->
     sender = Base.oracle s /\ exists fid d, c = Base.UpdateFlightStatus fid d) /\
  (forall (sender now : N) (fid : string) (d : bool) (s s' : Rev.State)
          (log : list Transfer),
     Rev.updateFlightStatus sender now fid d s = Ok (s', log) ->
     Rev.flightDelays s' !! fid = Some d /\
     forall fid', fid' <> fid ->
       Rev.flightDelays s' !! fid' = Rev.flightDelays s !! fid') /\
  (forall (sender now : N) (c : Rev.Call) (s : Rev.State),
     Rev.flightDelays (fst (Rev.transact sender now c s)) <> Rev.flightDelays s ->
     sender = Rev.oracle s /\ exists fid d, c = Rev.UpdateFlightStatus fid d).
Proof.
  split; [|split; [|split]].
  - intros sender now fid d s s' log H.
    assert (E : Base.flightDelays s' = <[fid := d]> (Base.flightDelays s)).
    { pose proof (proj1 (BaseMore.transact_flightDelays sender now
                           (Base.UpdateFlightStatus fid d) s)) as K.
      unfold Base.transact in K. simpl in K. rewrite H in K. exact (K eq_refl). }
    rewrite E. split; [apply lookup_insert_eq|].
    intros fid' Hne. apply lookup_insert_ne. congruence.
  - intros sender now c s. exact (proj2 (BaseMore.transact_flightDelays sender now c s)).
  - intros sender now fid d s s' log H.
    assert (E : Rev.flightDelays s' = <[fid := d]> (Rev.flightDelays s)).
    { pose proof (proj1 (RevMore.rev_transact_flightDelays sender now
                           (Rev.UpdateFlightStatus fid d) s)) as K.
      unfold Rev.transact in K. simpl in K. rewrite H in K. exact (K eq_refl). }
    rewrite E. split; [apply lookup_insert_eq|].
    intros fid' Hne. apply lookup_insert_ne. congruence.
  - intros sender now c s.
    exact (proj2 (RevMore.rev_transact_flightDelays sender now c s)).
Qed.

Lemma flight_status_record_witness :
  Base.flightDelays
    (fst (Base.transact 2 (t0 + DELAY_THRESHOLD)
            (Base.UpdateFlightStatus "FL1" true) baseFunded)) !! "FL1" = Some true /\
  Rev.flightDelays
    (fst (Rev.transact 2 (t0 + DELAY_THRESHOLD)
            (Rev.UpdateFlightStatus "FL1" false) revFunded)) !! "FL1" = Some false.
Proof.
  destruct flight_status_record as (B & _ & R & _).
  split.
  - refine (proj1 (B 2 (t0 + DELAY_THRESHOLD) "FL1" true baseFunded _
                     [(3, PAYOUT)] _)).
    vm_compute. reflexivity.
  - refine (proj1 (R 2 (t0 + DELAY_THRESHOLD) "FL1" false revFunded _ [] _)).
    vm_compute. reflexivity.
Defined.

(** X6.  The pool balance is accounted for in every transaction: the
    balance afterwards plus [PAYOUT] for every transfer made equals the
    balance before plus the value paid in, the value counting only when
    the call ([depositFunds] or [subscribe]) went through. *)
Theorem pool_balance_accounting :
  (forall (sender now : N) (c : Base.Call) (s : Base.State),
     Base.balance (fst (Base.transact sender now c s))
     + PAYOUT * N.of_nat (length (snd (Base.transact sender now c s)))
     = Base.balance s
       + (if is_ok (Base.exec sender now c s) then baseCredit c else 0)) /\
  (forall (sender now : N) (c : Rev.Call) (s : Rev.State),
     Rev.balance (fst (Rev.transact sender now c s))
     + PAYOUT * N.of_nat (length (snd (Rev.transact sender now c s)))
     = Rev.balance s
       + (if is_ok (Rev.exec sender now c s) then revCredit c else 0)).
Proof.
  split.
  - exact BaseMore.transact_balance.
  - exact RevMore.rev_transact_balance.
Qed.

(** ** Lists and flight ids *)

Lemma constructor_distinctIds :
  (forall d u, distinctIds (Base.subscriptionOf (Base.constructor d) u)) /\
  (forall d u, distinctIds (Rev.subscriptionOf (Rev.constructor d) u)).
Proof. split; intros d u; apply NoDup_nil_2. Qed.

Lemma constructor_listed :
  (forall d, baseListed (Base.constructor d)) /\
  (forall d, revListed (Rev.constructor d)).
Proof. split; intros d u H; exfalso; apply H; reflexivity. Qed.

(** X7.  The flight ids among one subscriber's policies stay pairwise
    distinct: if they are before a sequence of transactions they are
    after it, as they are in a freshly deployed contract. *)
Theorem flight_ids_stay_distinct :
  (forall (txs : list Base.Tx) (s : Base.State),
     (forall u, distinctIds (Base.subscriptionOf s u)) ->
     forall u, distinctIds (Base.subscriptionOf (fst (Base.run txs s)) u)) /\
  (forall (txs : list Rev.Tx) (s : Rev.State),
     (forall u, distinctIds (Rev.subscriptionOf s u)) ->
     forall u, distinctIds (Rev.subscriptionOf (fst (Rev.run txs s)) u)).
Proof.
  split; intros txs s.
  - apply (BaseMore.run_invariant
             (fun s' => forall u, distinctIds (Base.subscriptionOf s' u))).
    intros sender now c s1. apply BaseMore.transact_distinctIds.
  - apply (RevMore.rev_run_invariant
             (fun s' => forall u, distinctIds (Rev.subscriptionOf s' u))).
    intros sender now c s1. apply RevMore.rev_transact_distinctIds.
Qed.

Lemma flight_ids_stay_distinct_witness :
  distinctIds (Base.subscriptionOf (fst (Base.run baseTrace base0)) 3) /\
  distinctIds (Rev.subscriptionOf (fst (Rev.run revTrace rev0)) 3).
Proof.
  destruct flight_ids_stay_distinct as (B & R).
  split.
  - apply (B baseTrace base0). exact (proj1 constructor_distinctIds 1).
  - apply (R revTrace rev0). exact (proj2 constructor_distinctIds 1).
Defined.

(** X8.  In [src/unnamed/part_002] the [userExists] loops keep both
    address lists free of duplicates through any sequence of
    transactions, so the scan visits every user once. *)
Theorem rev_lists_have_no_duplicates :
  forall (txs : list Rev.Tx) (s : Rev.State),
    NoDup (Rev.allSubscribers s) /\ NoDup (Rev.allUsersWithFlights s) ->
    NoDup (Rev.allSubscribers (fst (Rev.run txs s))) /\
    NoDup (Rev.allUsersWithFlights (fst (Rev.run txs s))).
Proof.
  intros txs s.
  apply (RevMore.rev_run_invariant
           (fun s' => NoDup (Rev.allSubscribers s') /\
                      NoDup (Rev.allUsersWithFlights s'))).
  intros sender now c s1. apply RevMore.rev_transact_lists_NoDup.
Qed.

Lemma rev_lists_have_no_duplicates_witness :
  NoDup (Rev.allSubscribers revRenewed) /\
  NoDup (Rev.allUsersWithFlights revRenewed).
Proof.
  replace revRenewed
    with (fst (Rev.run
                 [Rev.mkTx 1 t0 (Rev.SetOracle 2);
                  Rev.mkTx 3 t0 (Rev.Subscribe PREMIUM);
                  Rev.mkTx 3 t0 (Rev.RegisterFlight "FL1" t0);
                  Rev.mkTx 1 (t0 + SUBSCRIPTION_DURATION) (Rev.DepositFunds (10 * ether));
                  Rev.mkTx 2 (t0 + SUBSCRIPTION_DURATION)
                    (Rev.UpdateFlightStatus "FL2" true);
                  Rev.mkTx 3 (t0 + SUBSCRIPTION_DURATION + 5) (Rev.Subscribe PREMIUM)]
                 rev0))
    by (vm_compute; reflexivity).
  apply rev_lists_have_no_duplicates.
  split; apply NoDup_nil_2.
Defined.

(** In [src/contracts/FlightInsurance.sol] every [subscribe] pushes the
    sender: a subscriber who renews is listed twice. *)
Example base_renewal_lists_twice : Base.allSubscribers baseRenewed = [3; 3].
Proof. vm_compute. reflexivity. Qed.

(** X9.  Whoever holds a policy or an active flag is on the list the
    scan walks ([allSubscribers], resp. [allUsersWithFlights]): this
    holds after any sequence of transactions if it holds before, as it
    does at deployment, so no policy is out of reach of a report. *)
Theorem policy_holders_are_listed :
  (forall (txs : list Base.Tx) (s : Base.State) (u : N),
     baseListed s ->
     isActive (Base.subscriptionOf (fst (Base.run txs s)) u) = true \/
     policies (Base.subscriptionOf (fst (Base.run txs s)) u) <> [] ->
     In u (Base.allSubscribers (fst (Base.run txs s)))) /\
  (forall (txs : list Rev.Tx) (s : Rev.State) (u : N),
     revListed s ->
     isActive (Rev.subscriptionOf (fst (Rev.run txs s)) u) = true \/
     policies (Rev.subscriptionOf (fst (Rev.run txs s)) u) <> [] ->
     In u (Rev.allUsersWithFlights (fst (Rev.run txs s)))).
Proof.
  split.
  - intros txs s u Hinv Hu.
    apply (BaseMore.run_invariant baseListed BaseMore.transact_listed txs s Hinv).
    intros Heq. rewrite Heq in Hu. destruct Hu as [Hu|Hu];
      [discriminate | apply Hu; reflexivity].
  - intros txs s u Hinv Hu.
    apply (RevMore.rev_run_invariant revListed RevMore.rev_transact_listed txs s Hinv).
    intros Heq. rewrite Heq in Hu. destruct Hu as [Hu|Hu];
      [discriminate | apply Hu; reflexivity].
Qed.

Lemma policy_holders_are_listed_witness :
  In 3 (Base.allSubscribers (fst (Base.run baseTrace base0))) /\
  In 3 (Rev.allUsersWithFlights (fst (Rev.run revTrace rev0))).
Proof.
  destruct policy_holders_are_listed as (B & R).
  split.
  - apply (B baseTrace base0 3); [exact (proj1 constructor_listed 1)|].
    left. vm_compute. reflexivity.
  - apply (R revTrace rev0 3); [exact (proj2 constructor_listed 1)|].
    right. vm_compute. discriminate.
Defined.

(** X10.  The address lists only grow, at the end: after any sequence
    of transactions each list is the old list followed by the addresses
    recorded since, so the scan order is the order of first recording. *)
Theorem subscriber_lists_only_grow :
  (forall (txs : list Base.Tx) (s : Base.State),
     exists k, Base.allSubscribers (fst (Base.run txs s))
               = Base.allSubscribers s ++ k) /\
  (forall (txs : list Rev.Tx) (s : Rev.State),
     (exists k, Rev.allSubscribers (fst (Rev.run txs s))
                = Rev.allSubscribers s ++ k) /\
     (exists k, Rev.allUsersWithFlights (fst (Rev.run txs s))
                = Rev.allUsersWithFlights s ++ k)).
Proof.
  split; intros txs s.
  - apply (BaseMore.run_invariant
             (fun s' => exists k, Base.allSubscribers s' = Base.allSubscribers s ++ k)).
    + intros sender now c s1 (k & Hk).
      destruct (BaseMore.transact_list_grows sender now c s1) as (k' & Hk').
      exists (k ++ k'). rewrite Hk', Hk, app_assoc. reflexivity.
    + exists []. rewrite app_nil_r. reflexivity.
  - apply (RevMore.rev_run_invariant
             (fun s' =>
                (exists k, Rev.allSubscribers s' = Rev.allSubscribers s ++ k) /\
                (exists k, Rev.allUsersWithFlights s'
                           = Rev.allUsersWithFlights s ++ k))).
    + intros sender now c s1 [(k1 & Hk1) (k2 & Hk2)].
      destruct (RevMore.rev_transact_lists_grow sender now c s1)
        as [(k1' & Hk1') (k2' & Hk2')].
      split; [exists (k1 ++ k1') | exists (k2 ++ k2')].
      * rewrite Hk1', Hk1, app_assoc. reflexivity.
      * rewrite Hk2', Hk2, app_assoc. reflexivity.
    + split; exists []; rewrite app_nil_r; reflexivity.
Qed.

(** X16.  In [src/contracts/FlightInsurance.sol], in every ledger
    reached from deployment by transactions at non-decreasing block
    times, a subscription whose stored flag is clear has no policy or is
    expired at the time of the last block; this is why the scan of that
    revision can test the expiry alone. *)
Theorem cleared_flag_means_lapsed :
  forall (t : N) (s : Base.State) (u : N),
    Base.reachable t s ->
    isActive (Base.subscriptionOf s u) = false ->
    policies (Base.subscriptionOf s u) = [] \/
    startTime (Base.subscriptionOf s u) + SUBSCRIPTION_DURATION <= t.
Proof.
  intros t s u Hreach Hoff. exact (BaseFacts.reachable_lapsedOk t s Hreach u Hoff).
Qed.

Lemma cleared_flag_means_lapsed_witness :
  policies (Base.subscriptionOf baseLapsed 3) = [] \/
  startTime (Base.subscriptionOf baseLapsed 3) + SUBSCRIPTION_DURATION
  <= t0 + SUBSCRIPTION_DURATION.
Proof.
  apply (cleared_flag_means_lapsed (t0 + SUBSCRIPTION_DURATION) baseLapsed 3).
  - exact baseLapsed_reachable.
  - vm_compute. reflexivity.
Defined.

(** ** Reports *)

(** X11.  A delayed report that goes through pays every listed
    subscriber whose subscription is live at that time (not expired,
    and in [src/unnamed/part_002] active) exactly one [PAYOUT] per owed
    policy, that is per unpaid policy of the reported flight past the
    delay threshold, and leaves that subscriber with nothing owed for
    the flight; an address listed several times is still paid once per
    policy. *)
Theorem report_pays_what_is_owed :
  (forall (sender now : N) (fid : string) (s s' : Base.State)
          (log : list Transfer) (u : N),
     Base.updateFlightStatus sender now fid true s = Ok (s', log) ->
     now < startTime (Base.subscriptionOf s u) + SUBSCRIPTION_DURATION ->
     In u (Base.allSubscribers s) ->
     transfersTo u log = countOwed now fid (policies (Base.subscriptionOf s u)) /\
     ~ owedIn now fid (policies (Base.subscriptionOf s' u))) /\
  (forall (sender now : N) (fid : string) (s s' : Rev.State)
          (log : list Transfer) (u : N),
     Rev.updateFlightStatus sender now fid true s = Ok (s', log) ->
     isActive (Rev.subscriptionOf s u) = true ->
     now < startTime (Rev.subscriptionOf s u) + SUBSCRIPTION_DURATION ->
     In u (Rev.allUsersWithFlights s) ->
     transfersTo u log = countOwed now fid (policies (Rev.subscriptionOf s u)) /\
     ~ owedIn now fid (policies (Rev.subscriptionOf s' u))).
Proof.
  split.
  - intros sender now fid s s' log u H Hlive Hin.
    apply BaseFacts.updateFlightStatus_ok_inv in H as (_ & Hscan).
    destruct (BaseMore.scanSubscribers_count now fid _ u
                (Base.recordStatus s fid true) s' log Hscan Hlive Hin) as [K1 K2].
    split; [exact K1 | apply countOwed_zero; exact K2].
  - intros sender now fid s s' log u H Hact Hlive Hin.
    apply RevFacts.rev_updateFlightStatus_ok_inv in H as (_ & Hscan).
    destruct (RevMore.scanUsers_count now fid _ u
                (Rev.recordStatus s fid true) s' log Hscan Hact Hlive Hin)
      as [K1 K2].
    split; [exact K1 | apply countOwed_zero; exact K2].
Qed.

Lemma report_pays_what_is_owed_witness :
  transfersTo 3
    (snd (Base.transact 2 (t0 + DELAY_THRESHOLD)
            (Base.UpdateFlightStatus "FL1" true) baseFunded))
  = countOwed (t0 + DELAY_THRESHOLD) "FL1" (policies (Base.subscriptionOf baseFunded 3)) /\
  transfersTo 3
    (snd (Rev.transact 2 (t0 + DELAY_THRESHOLD)
            (Rev.UpdateFlightStatus "FL1" true) revFunded))
  = countOwed (t0 + DELAY_THRESHOLD) "FL1" (policies (Rev.subscriptionOf revFunded 3)).
Proof.
  destruct report_pays_what_is_owed as (B & R).
  split.
  - refine (proj1 (B 2 (t0 + DELAY_THRESHOLD) "FL1" baseFunded
                     (fst (Base.transact 2 (t0 + DELAY_THRESHOLD)
                             (Base.UpdateFlightStatus "FL1" true) baseFunded))
                     _ 3 _ _ _)).
    + vm_compute. reflexivity.
    + vm_compute. reflexivity.
    + vm_compute. left. reflexivity.
  - refine (proj1 (R 2 (t0 + DELAY_THRESHOLD) "FL1" revFunded
                     (fst (Rev.transact 2 (t0 + DELAY_THRESHOLD)
                             (Rev.UpdateFlightStatus "FL1" true) revFunded))
                     _ 3 _ _ _ _)).
    + vm_compute. reflexivity.
    + vm_compute. reflexivity.
    + vm_compute. reflexivity.
    + vm_compute. left. reflexivity.
Defined.

(** X12.  An [updateFlightStatus] can fail in these ways only: the
    sender is not the oracle; or, for a delayed report, a transfer
    fails, because the pool is short or because the recipient is a
    contract that refuses the ether; or, for a delayed report, a checked
    addition on a stored timestamp overflows, which needs a stored
    timestamp out of range.  A report of "not delayed" by the oracle
    never fails. *)
Theorem report_failure_modes :
  (forall (accepts : nat -> N -> bool) (sender now : N) (fid : string) (d : bool)
          (s : Base.State) (e : Error),
     Base.updateFlightStatusTo accepts sender now fid d s = Revert e ->
     (e = Unauthorized /\ sender <> Base.oracle s) \/
     (d = true /\ e = InsufficientPool) \/
     (d = true /\ e = TransferRefused /\
      exists i u, In u (Base.allSubscribers s) /\ accepts i u = false) \/
     (d = true /\ e = ArithmeticOverflow /\
      ~ forall v, subscriptionInRange (Base.subscriptionOf s v))) /\
  (forall (accepts : nat -> N -> bool) (sender now : N) (fid : string) (d : bool)
          (s : Rev.State) (e : Error),
     Rev.updateFlightStatusTo accepts sender now fid d s = Revert e ->
     (e = Unauthorized /\ sender <> Rev.oracle s) \/
     (d = true /\ e = InsufficientPool) \/
     (d = true /\ e = TransferRefused /\
      exists i u, In u (Rev.allUsersWithFlights s) /\ accepts i u = false) \/
     (d = true /\ e = ArithmeticOverflow /\
      ~ forall v, subscriptionInRange (Rev.subscriptionOf s v))) /\
  (forall (accepts : nat -> N -> bool) (now : N) (fid : string) (s : Base.State),
     Base.updateFlightStatusTo accepts (Base.oracle s) now fid false s
     = Ok (Base.recordStatus s fid false, [])) /\
  (forall (accepts : nat -> N -> bool) (now : N) (fid : string) (s : Rev.State),
     Rev.updateFlightStatusTo accepts (Rev.oracle s) now fid false s
     = Ok (Rev.recordStatus s fid false, [])).
Proof.
  split; [|split; [|split]].
  3:{ intros accepts now fid s. unfold Base.updateFlightStatusTo.
      rewrite N.eqb_refl. reflexivity. }
  3:{ intros accepts now fid s. unfold Rev.updateFlightStatusTo.
      rewrite N.eqb_refl. reflexivity. }
  - intros accepts sender now fid d s e H.
    destruct (BaseMore.updateFlightStatusTo_sim accepts sender now fid d s)
      as [Heq|(Hd & Href & Hex)].
    + rewrite Heq in H.
      destruct (BaseMore.updateFlightStatus_errors _ _ _ _ _ _ H)
        as [K|[K|K]]; [left; exact K | right; left; exact K | right; right; right; exact K].
    + rewrite Href in H. injection H as <-.
      right. right. left. split; [exact Hd | split; [reflexivity | exact Hex]].
  - intros accepts sender now fid d s e H.
    destruct (RevMore.rev_updateFlightStatusTo_sim accepts sender now fid d s)
      as [Heq|(Hd & Href & Hex)].
    + rewrite Heq in H.
      destruct (RevMore.rev_updateFlightStatus_errors _ _ _ _ _ _ H)
        as [K|[K|K]]; [left; exact K | right; left; exact K | right; right; right; exact K].
    + rewrite Href in H. injection H as <-.
      right. right. left. split; [exact Hd | split; [reflexivity | exact Hex]].
Qed.

(** X12 on the samples: the pool of [base3] is short; in [baseFunded]
    the pool is funded but subscriber 3 refuses the ether; in [rev3] the
    sender is not the oracle. *)
Lemma report_failure_modes_witness :
  ((InsufficientPool = Unauthorized /\ 2 <> Base.oracle base3) \/
   (true = true /\ InsufficientPool = InsufficientPool) \/
   (true = true /\ InsufficientPool = TransferRefused /\
    exists (i : nat) (u : N), In u (Base.allSubscribers base3) /\ true = false) \/
   (true = true /\ InsufficientPool = ArithmeticOverflow /\
    ~ forall v, subscriptionInRange (Base.subscriptionOf base3 v))) /\
  ((TransferRefused = Unauthorized /\ 2 <> Base.oracle baseFunded) \/
   (true = true /\ TransferRefused = InsufficientPool) \/
   (true = true /\ TransferRefused = TransferRefused /\
    exists (i : nat) (u : N), In u (Base.allSubscribers baseFunded) /\ negb (u =? 3) = false) \/
   (true = true /\ TransferRefused = ArithmeticOverflow /\
    ~ forall v, subscriptionInRange (Base.subscriptionOf baseFunded v))) /\
  ((Unauthorized = Unauthorized /\ 3 <> Rev.oracle rev3) \/
   (false = true /\ Unauthorized = InsufficientPool) \/
   (false = true /\ Unauthorized = TransferRefused /\
    exists (i : nat) (u : N), In u (Rev.allUsersWithFlights rev3) /\ true = false) \/
   (false = true /\ Unauthorized = ArithmeticOverflow /\
    ~ forall v, subscriptionInRange (Rev.subscriptionOf rev3 v))) /\
  ((TransferRefused = Unauthorized /\ 2 <> Rev.oracle revFunded) \/
   (true = true /\ TransferRefused = InsufficientPool) \/
   (true = true /\ TransferRefused = TransferRefused /\
    exists (i : nat) (u : N), In u (Rev.allUsersWithFlights revFunded) /\ negb (u =? 3) = false) \/
   (true = true /\ TransferRefused = ArithmeticOverflow /\
    ~ forall v, subscriptionInRange (Rev.subscriptionOf revFunded v))).
Proof.
  destruct report_failure_modes as (B & R & _ & _).
  split; [|split; [|split]].
  - apply (B (fun _ _ => true) 2 (t0 + DELAY_THRESHOLD) "FL1" true base3
             InsufficientPool).
    vm_compute. reflexivity.
  - apply (B (fun _ u => negb (u =? 3)) 2 (t0 + DELAY_THRESHOLD) "FL1" true
             baseFunded TransferRefused).
    vm_compute. reflexivity.
  - apply (R (fun _ _ => true) 3 t0 "FL1" false rev3 Unauthorized).
    vm_compute. reflexivity.
  - apply (R (fun _ u => negb (u =? 3)) 2 (t0 + DELAY_THRESHOLD) "FL1" true
             revFunded TransferRefused).
    vm_compute. reflexivity.
Defined.

(** ** Subscriptions and registrations *)

(** X13.  After a [subscribe] that went through at time [now], with
    [now + SUBSCRIPTION_DURATION] within [uint256], [isSubscribed]
    answers true at every time before [now + SUBSCRIPTION_DURATION] and
    false from then on, in the ledger as the call left it. *)
Theorem subscription_window :
  (forall (sender value now now' : N) (s s' : Base.State),
     Base.subscribe sender value now s = Ok s' ->
     now + SUBSCRIPTION_DURATION <= MAX_UINT256 ->
     Base.isSubscribed now' sender s' = Ok (now' <? now + SUBSCRIPTION_DURATION)) /\
  (forall (sender value now now' : N) (s s' : Rev.State),
     Rev.subscribe sender value now s = Ok s' ->
     now + SUBSCRIPTION_DURATION <= MAX_UINT256 ->
     Rev.isSubscribed now' sender s' = Ok (now' <? now + SUBSCRIPTION_DURATION)).
Proof.
  split.
  - exact BaseMore.isSubscribed_after_subscribe.
  - exact RevMore.rev_isSubscribed_after_subscribe.
Qed.

Lemma subscription_window_witness :
  Base.isSubscribed (t0 + 1) 3 base2 = Ok (t0 + 1 <? t0 + SUBSCRIPTION_DURATION) /\
  Rev.isSubscribed (t0 + SUBSCRIPTION_DURATION) 3 rev2
  = Ok (t0 + SUBSCRIPTION_DURATION <? t0 + SUBSCRIPTION_DURATION).
Proof.
  destruct subscription_window as (B & R).
  split.
  - apply (B 3 PREMIUM t0 (t0 + 1) base1 base2).
    + vm_compute. reflexivity.
    + vm_compute. discriminate.
  - apply (R 3 PREMIUM t0 (t0 + SUBSCRIPTION_DURATION) rev1 rev2).
    + vm_compute. reflexivity.
    + vm_compute. discriminate.
Defined.

(** X14.  [registerFlight] goes through exactly when: in
    [src/contracts/FlightInsurance.sol] the caller's stored flag is set,
    the subscription is not expired (its end within [uint256]) and the
    id is new to the caller; in [src/unnamed/part_002] the caller is not
    the oracle and the id is new to the caller, no subscription being
    asked for. *)
Theorem registration_success_condition :
  (forall (sender now : N) (fid : string) (fts : N) (s : Base.State),
     is_ok (Base.registerFlight sender now fid fts s) = true <->
     isActive (Base.subscriptionOf s sender) = true /\
     now < startTime (Base.subscriptionOf s sender) + SUBSCRIPTION_DURATION
           <= MAX_UINT256 /\
     ~ hasFlight fid (policies (Base.subscriptionOf s sender))) /\
  (forall (sender : N) (fid : string) (fts : N) (s : Rev.State),
     is_ok (Rev.registerFlight sender fid fts s) = true <->
     sender <> Rev.oracle s /\
     ~ hasFlight fid (policies (Rev.subscriptionOf s sender))).
Proof.
  split.
  - exact BaseMore.registerFlight_ok_iff.
  - exact RevMore.rev_registerFlight_ok_iff.
Qed.

(** In [src/unnamed/part_002] address 4, which never subscribed,
    registers a flight; in [src/contracts/FlightInsurance.sol] it
    cannot. *)
Example register_without_subscription :
  is_ok (Rev.registerFlight 4 "FL1" t0 rev3) = true /\
  Base.registerFlight 4 t0 "FL1" t0 base3 = Revert NoActiveSubscription.
Proof. split; vm_compute; reflexivity. Qed.

(** X15.  In [src/unnamed/part_002], after a [registerFlight] that went
    through, [getPolicyCount] of the caller is one more and
    [getUserPolicies] returns the three former lists with the new id,
    the new timestamp and [false] appended; the views of every other
    address are unchanged. *)
Theorem policy_views_after_register :
  forall (sender : N) (fid : string) (fts : N) (s s' : Rev.State),
    Rev.registerFlight sender fid fts s = Ok s' ->
    Rev.getPolicyCount sender s' = S (Rev.getPolicyCount sender s) /\
    Rev.getUserPolicies sender s'
    = (fst (fst (Rev.getUserPolicies sender s)) ++ [fid],
       snd (fst (Rev.getUserPolicies sender s)) ++ [fts],
       snd (Rev.getUserPolicies sender s) ++ [false]) /\
    forall v, v <> sender ->
      Rev.getPolicyCount v s' = Rev.getPolicyCount v s /\
      Rev.getUserPolicies v s' = Rev.getUserPolicies v s.
Proof. exact RevMore.getUserPolicies_after_register. Qed.

Lemma policy_views_after_register_witness :
  Rev.getPolicyCount 3 rev3 = S (Rev.getPolicyCount 3 rev2) /\
  Rev.getUserPolicies 3 rev3 = (["FL1"%string], [t0], [false]).
Proof.
  destruct (policy_views_after_register 3 "FL1" t0 rev2 rev3) as (A & B & _).
  - vm_compute. reflexivity.
  - split; [exact A|]. rewrite B. vm_compute. reflexivity.
Defined.

(** ** Reporting the same delay again *)

Module BaseAgain.
Import Base BaseFacts BaseMore.

Lemma policyDue_markPaid (now : N) (fid : string) (p : Policy) :
  policyDue now fid (markPaid p) = Ok false.
Proof. unfold policyDue. simpl. rewrite andb_false_r. reflexivity. Qed.

Lemma payPolicies_settles (now : N) (fid : string) (u : N) (ps : list Policy) :
  forall (bal : N) (ps' : list Policy) (bal' : N) (log : list Transfer),
    payPolicies now fid u ps bal = Ok (ps', bal', log) ->
    Forall (fun p => policyDue now fid p = Ok false) ps'.
Proof.
  induction ps as [|p ps IH]; intros bal ps' bal' log H.
  - injection H as <- <- <-. constructor.
  - simpl in H. ok_inv H as due Hdue. destruct due.
    + ok_inv H as x Hbal. ok_inv H as [[r b] l] Hrec. injection H as <- <- <-.
      constructor; [apply policyDue_markPaid | exact (IH _ _ _ _ Hrec)].
    + ok_inv H as [[r b] l] Hrec. injection H as <- <- <-.
      constructor; [exact Hdue | exact (IH _ _ _ _ Hrec)].
Qed.

Lemma settled_kept (now : N) (fid : string) (ps ps' : list Policy) :
  Forall2 keepsPolicy ps ps' ->
  Forall (fun p => policyDue now fid p = Ok false) ps ->
  Forall (fun p => policyDue now fid p = Ok false) ps'.
Proof.
  induction 1 as [|p p' ps ps' (Hid & Hts & Hpaid) _ IH]; intros HF;
    [constructor|].
  inversion HF as [|? ? Hp Hrest]; subst. constructor; [|exact (IH Hrest)].
  destruct (hasPaidOut p') eqn:Hp'.
  - unfold policyDue. rewrite Hp', andb_false_r. reflexivity.
  - assert (Hpp : hasPaidOut p = false).
    { destruct (hasPaidOut p); [specialize (Hpaid eq_refl); congruence | reflexivity]. }
    unfold policyDue in *. rewrite Hid, Hts, Hp'. rewrite Hpp in Hp. exact Hp.
Qed.

Lemma payPolicies_settled (now : N) (fid : string) (u : N) (ps : list Policy)
    (bal : N) :
  Forall (fun p => policyDue now fid p = Ok false) ps ->
  payPolicies now fid u ps bal = Ok (ps, bal, []).
Proof.
  induction 1 as [|p ps Hp _ IH]; [reflexivity|].
  simpl. rewrite Hp. simpl. rewrite IH. reflexivity.
Qed.

(** After a scan that went through, every listed subscriber has an
    entry in the mapping, the listed expired ones are inactive, the
    listed live ones have nothing left to pay, and no start time
    overflows. *)
Lemma scanSubscribers_present (now : N) (fid : string) (us : list N) :
  forall (s s' : State) (log : list Transfer),
    scanSubscribers now fid us s = Ok (s', log) ->
    forall v, In v us \/ is_Some (subscriptions s !! v) ->
              is_Some (subscriptions s' !! v).
Proof.
  induction us as [|w us IH]; intros s s' log H v Hv.
  - injection H as <- <-. destruct Hv as [[]|Hv]. exact Hv.
  - simpl in H. ok_inv H as limit Hlimit.
    assert (Hstep : forall sub, In v us \/
              is_Some (<[w := sub]> (subscriptions s) !! v)).
    { intros sub. destruct (decide (w = v)) as [->|Hne].
      - right. rewrite lookup_insert_eq. eauto.
      - destruct Hv as [[->|Hin]|Hsome]; [contradiction | left; exact Hin|].
        right. rewrite lookup_insert_ne by exact Hne. exact Hsome. }
    destruct (limit <=? now).
    + exact (IH _ _ _ H v (Hstep _)).
    + ok_inv H as [[ps' bal'] plog] Hpay.
      ok_inv H as [s1 log1] Hrec. injection H as <- <-.
      exact (IH _ _ _ Hrec v (Hstep _)).
Qed.

Lemma scanSubscribers_in_range (now : N) (fid : string) (us : list N) :
  forall (s s' : State) (log : list Transfer),
    scanSubscribers now fid us s = Ok (s', log) ->
    forall v, In v us ->
      startTime (subscriptionOf s v) + SUBSCRIPTION_DURATION <= MAX_UINT256.
Proof.
  induction us as [|w us IH]; intros s s' log H v Hin; [destruct Hin|].
  simpl in H. ok_inv H as limit Hlimit.
  apply checked_add_ok_inv in Hlimit as [-> Hmax].
  destruct (decide (w = v)) as [->|Hne]; [exact Hmax|].
  destruct Hin as [->|Hin]; [contradiction|].
  destruct (_ <=? now).
  - pose proof (IH _ _ _ H v Hin) as K.
    rewrite subscriptionOf_setSubscription in K.
    destruct (decide (w = v)); [contradiction | exact K].
  - ok_inv H as [[ps' bal'] plog] Hpay.
    ok_inv H as [s1 log1] Hrec. injection H as <- <-.
    pose proof (IH _ _ _ Hrec v Hin) as K.
    rewrite subscriptionOf_setBalance, subscriptionOf_setSubscription in K.
    destruct (decide (w = v)); [contradiction | exact K].
Qed.

Lemma scanSubscribers_settles (now : N) (fid : string) (us : list N) :
  forall (s s' : State) (log : list Transfer),
    scanSubscribers now fid us s = Ok (s', log) ->
    forall v, In v us ->
      now < startTime (subscriptionOf s v) + SUBSCRIPTION_DURATION ->
      Forall (fun p => policyDue now fid p = Ok false)
             (policies (subscriptionOf s' v)).
Proof.
  induction us as [|w us IH]; intros s s' log H v Hin Hlive; [destruct Hin|].
  simpl in H. ok_inv H as limit Hlimit.
  apply checked_add_ok_inv in Hlimit as [-> _].
  destruct (N.leb_spec (startTime (subscriptionOf s w) + SUBSCRIPTION_DURATION) now)
    as [Hexp|Hlivew].
  - assert (Hne : w <> v) by (intros ->; lia).
    destruct Hin as [->|Hin]; [contradiction|].
    apply (IH _ _ _ H v Hin). rewrite subscriptionOf_setSubscription.
    destruct (decide (w = v)); [contradiction | exact Hlive].
  - ok_inv H as [[ps' bal'] plog] Hpay.
    ok_inv H as [s1 log1] Hrec. injection H as <- <-.
    destruct (decide (w = v)) as [->|Hne].
    + pose proof (scanSubscribers_pointwise _ _ _ _ _ _ Hrec v) as K.
      rewrite subscriptionOf_setBalance, subscriptionOf_setSubscription in K.
      destruct (decide (v = v)); [|contradiction]. simpl in K.
      exact (settled_kept _ _ _ _ K (payPolicies_settles _ _ _ _ _ _ _ _ Hpay)).
    + destruct Hin as [->|Hin]; [contradiction|].
      apply (IH _ _ _ Hrec v Hin).
      rewrite subscriptionOf_setBalance, subscriptionOf_setSubscription.
      destruct (decide (w = v)); [contradiction | exact Hlive].
Qed.

Lemma state_eta (s : State) :
  {| insurer := insurer s; oracle := oracle s;
     subscriptions := subscriptions s; flightDelays := flightDelays s;
     allSubscribers := allSubscribers s; balance := balance s |} = s.
Proof. destruct s. reflexivity. Qed.

Lemma setSubscription_same (s : State) (u : N) :
  is_Some (subscriptions s !! u) ->
  setSubscription s u (subscriptionOf s u) = s.
Proof.
  intros [sub Hsub]. unfold setSubscription, subscriptionOf.
  rewrite Hsub. simpl. rewrite (insert_id _ _ _ Hsub). apply state_eta.
Qed.

(** A ledger in which the scan has nothing to do is left as it is. *)
Lemma scanSubscribers_fixpoint (now : N) (fid : string) (s : State) :
  forall us : list N,
    (forall v, In v us ->
       is_Some (subscriptions s !! v) /\
       startTime (subscriptionOf s v) + SUBSCRIPTION_DURATION <= MAX_UINT256 /\
       (startTime (subscriptionOf s v) + SUBSCRIPTION_DURATION <= now ->
        isActive (subscriptionOf s v) = false) /\
       (now < startTime (subscriptionOf s v) + SUBSCRIPTION_DURATION ->
        Forall (fun p => policyDue now fid p = Ok false)
               (policies (subscriptionOf s v)))) ->
    scanSubscribers now fid us s = Ok (s, []).
Proof.
  induction us as [|w us IH]; intros Hall; [reflexivity|].
  destruct (Hall w (or_introl eq_refl)) as (Hsome & Hmax & Hoff & Hdone).
  assert (Hrest : scanSubscribers now fid us s = Ok (s, [])).
  { apply IH. intros v Hv. apply Hall. right. exact Hv. }
  simpl. rewrite (checked_add_in_range _ _ Hmax). simpl.
  destruct (N.leb_spec (startTime (subscriptionOf s w) + SUBSCRIPTION_DURATION) now)
    as [Hexp|Hlive].
  - assert (E : deactivate (subscriptionOf s w) = subscriptionOf s w).
    { unfold deactivate. specialize (Hoff Hexp).
      destruct (subscriptionOf s w) as [a st ps]. simpl in *. subst a. reflexivity. }
    rewrite E, (setSubscription_same _ _ Hsome). exact Hrest.
  - rewrite (payPolicies_settled _ _ _ _ _ (Hdone Hlive)). simpl.
    assert (E : withPolicies (subscriptionOf s w) (policies (subscriptionOf s w))
                = subscriptionOf s w).
    { destruct (subscriptionOf s w). reflexivity. }
    rewrite E, (setSubscription_same _ _ Hsome).
    assert (E2 : setBalance s (balance s) = s) by apply state_eta.
    rewrite E2, Hrest. reflexivity.
Qed.

Lemma updateFlightStatus_again (sender now : N) (fid : string) (d : bool)
    (s s' : State) (log : list Transfer) :
  updateFlightStatus sender now fid d s = Ok (s', log) ->
  updateFlightStatus sender now fid d s' = Ok (s', []).
Proof.
  intros H. apply updateFlightStatus_ok_inv in H as (Hs & Hd).
  unfold updateFlightStatus.
  assert (Hrec : forall s0, flightDelays s0 = <[fid := d]> (flightDelays s) ->
                            recordStatus s0 fid d = s0).
  { intros s0 E. unfold recordStatus. rewrite E, insert_insert_eq, <- E.
    apply state_eta. }
  destruct d.
  - destruct (scanSubscribers_spec _ _ _ _ _ _ Hd) as (_ & K2 & K3 & K4 & _ & _ & K7).
    simpl in K2, K3, K4. rewrite K2, Hs, N.eqb_refl. simpl.
    rewrite (Hrec s' K3), K4.
    apply scanSubscribers_fixpoint. intros v Hv.
    destruct (K7 v) as (V1 & _). simpl in V1. rewrite V1.
    split; [exact (scanSubscribers_present _ _ _ _ _ _ Hd v (or_introl Hv))|].
    split; [exact (scanSubscribers_in_range _ _ _ _ _ _ Hd v Hv)|].
    split.
    + intros Hexp.
      exact (scanSubscribers_clears _ _ _ _ (recordStatus s fid true) _ _ Hd Hv Hexp).
    + intros Hlive.
      exact (scanSubscribers_settles _ _ _ (recordStatus s fid true) _ _ Hd v Hv Hlive).
  - destruct Hd as [-> _]. simpl. rewrite Hs, N.eqb_refl. simpl.
    rewrite (Hrec (recordStatus s fid false) eq_refl). reflexivity.
Qed.

End BaseAgain.

Module RevAgain.
Import Rev RevFacts RevMore.

Lemma rev_payPolicies_settles (now : N) (fid : string) (u : N) (active : bool)
    (ps : list Policy) :
  forall (bal : N) (ps' : list Policy) (bal' : N) (log : list Transfer),
    payPolicies now fid u active ps bal = Ok (ps', bal', log) ->
    Forall (fun p => flightTimestamp p + DELAY_THRESHOLD <= MAX_UINT256) ps' /\
    (active = true -> Forall (fun p => owedb now fid p = false) ps').
Proof.
  induction ps as [|p ps IH]; intros bal ps' bal' log H.
  - injection H as <- <- <-. split; [constructor | intros _; constructor].
  - simpl in H. ok_inv H as limit Hlimit.
    apply checked_add_ok_inv in Hlimit as [-> Hmax].
    fold (owedb now fid p) in H.
    destruct (owedb now fid p && active) eqn:Hcond.
    + ok_inv H as x Hbal. ok_inv H as [[r b] l] Hrec. injection H as <- <- <-.
      destruct (IH _ _ _ _ Hrec) as [K1 K2]. split.
      * constructor; [exact Hmax | exact K1].
      * intros Ha. constructor; [apply owedb_markPaid | exact (K2 Ha)].
    + ok_inv H as [[r b] l] Hrec. injection H as <- <- <-.
      destruct (IH _ _ _ _ Hrec) as [K1 K2]. split.
      * constructor; [exact Hmax | exact K1].
      * intros Ha. subst active. rewrite andb_true_r in Hcond.
        constructor; [exact Hcond | exact (K2 eq_refl)].
Qed.

Lemma rev_settled_kept (now : N) (fid : string) (ps ps' : list Policy) :
  Forall2 keepsPolicy ps ps' ->
  (Forall (fun p => flightTimestamp p + DELAY_THRESHOLD <= MAX_UINT256) ps ->
   Forall (fun p => flightTimestamp p + DELAY_THRESHOLD <= MAX_UINT256) ps') /\
  (Forall (fun p => owedb now fid p = false) ps ->
   Forall (fun p => owedb now fid p = false) ps').
Proof.
  induction 1 as [|p p' ps ps' (Hid & Hts & Hpaid) _ [IH1 IH2]];
    [split; intros _; constructor|].
  split; intros HF; inversion HF as [|? ? Hp Hrest]; subst.
  - constructor; [rewrite Hts; exact Hp | exact (IH1 Hrest)].
  - constructor; [|exact (IH2 Hrest)].
    destruct (hasPaidOut p') eqn:Hp'.
    + unfold owedb. rewrite Hp'. simpl. rewrite andb_false_r. reflexivity.
    + assert (Hpp : hasPaidOut p = false).
      { destruct (hasPaidOut p);
          [specialize (Hpaid eq_refl); congruence | reflexivity]. }
      unfold owedb in *. rewrite Hid, Hts, Hp'. rewrite Hpp in Hp. exact Hp.
Qed.

Lemma rev_payPolicies_settled (now : N) (fid : string) (u : N) (active : bool)
    (ps : list Policy) (bal : N) :
  Forall (fun p => flightTimestamp p + DELAY_THRESHOLD <= MAX_UINT256) ps ->
  (active = true -> Forall (fun p => owedb now fid p = false) ps) ->
  payPolicies now fid u active ps bal = Ok (ps, bal, []).
Proof.
  induction 1 as [|p ps Hp _ IH]; intros Hdone; [reflexivity|].
  simpl. rewrite (checked_add_in_range _ _ Hp). simpl.
  fold (owedb now fid p).
  assert (Hcond : owedb now fid p && active = false).
  { destruct active; [|apply andb_false_r].
    specialize (Hdone eq_refl). inversion Hdone; subst.
    rewrite andb_true_r. assumption. }
  rewrite Hcond, IH; [reflexivity|].
  intros Ha. specialize (Hdone Ha). inversion Hdone; subst. assumption.
Qed.

Lemma stillActive_true_range (now : N) (sub : Subscription) :
  stillActive now sub = Ok true ->
  now < startTime sub + SUBSCRIPTION_DURATION <= MAX_UINT256.
Proof.
  unfold stillActive. destruct (isActive sub); [|discriminate].
  intros H. ok_inv H as limit Hlimit.
  apply checked_add_ok_inv in Hlimit as [-> Hmax].
  injection H as H. apply N.ltb_lt in H. auto.
Qed.

Lemma scanUsers_present (now : N) (fid : string) (us : list N) :
  forall (s s' : State) (log : list Transfer),
    scanUsers now fid us s = Ok (s', log) ->
    forall v, In v us \/ is_Some (subscriptions s !! v) ->
              is_Some (subscriptions s' !! v).
Proof.
  induction us as [|w us IH]; intros s s' log H v Hv.
  - injection H as <- <-. destruct Hv as [[]|Hv]. exact Hv.
  - simpl in H. ok_inv H as active Hactive.
    ok_inv H as [[ps' bal'] plog] Hpay.
    ok_inv H as [s1 log1] Hrec. injection H as <- <-.
    apply (IH _ _ _ Hrec v). simpl.
    destruct (decide (w = v)) as [->|Hne].
    + right. rewrite lookup_insert_eq. eauto.
    + destruct Hv as [[->|Hin]|Hsome]; [contradiction | left; exact Hin|].
      right. rewrite lookup_insert_ne by exact Hne. exact Hsome.
Qed.

(** After a scan that went through, every listed user's policies have
    timestamps in range, and a listed user whose flag is still set is
    live and has nothing left to pay. *)
Lemma scanUsers_settles (now : N) (fid : string) (us : list N) :
  forall (s s' : State) (log : list Transfer),
    scanUsers now fid us s = Ok (s', log) ->
    forall v, In v us ->
      Forall (fun p => flightTimestamp p + DELAY_THRESHOLD <= MAX_UINT256)
             (policies (subscriptionOf s' v)) /\
      (isActive (subscriptionOf s' v) = true ->
       now < startTime (subscriptionOf s' v) + SUBSCRIPTION_DURATION
             <= MAX_UINT256 /\
       Forall (fun p => owedb now fid p = false) (policies (subscriptionOf s' v))).
Proof.
  induction us as [|w us IH]; intros s s' log H v Hin; [destruct Hin|].
  simpl in H. ok_inv H as active Hactive.
  ok_inv H as [[ps' bal'] plog] Hpay.
  ok_inv H as [s1 log1] Hrec. injection H as <- <-.
  destruct (decide (w = v)) as [->|Hne].
  - destruct (expire_facts active (subscriptionOf s v)) as (X1 & X2 & X3 & X4).
    rewrite X2 in Hpay.
    destruct (rev_payPolicies_settles _ _ _ _ _ _ _ _ _ Hpay) as [S1 S2].
    pose proof (scanUsers_pointwise _ _ _ _ _ _ Hrec v) as K.
    destruct (scanUsers_spec _ _ _ _ _ _ Hrec) as (_ & _ & _ & _ & _ & _ & _ & K8).
    destruct (K8 v) as (V1 & V2 & _).
    rewrite scanUsers_head in K, V1, V2.
    destruct (decide (v = v)); [|contradiction]. simpl in K, V1, V2.
    destruct (rev_settled_kept now fid _ _ K) as [T1 T2].
    split; [exact (T1 S1)|]. intros Hon. specialize (V2 Hon).
    assert (Ha : active = true).
    { destruct active; [reflexivity|]. rewrite (X4 eq_refl) in V2. discriminate. }
    subst active. rewrite V1, X1.
    split; [exact (stillActive_true_range _ _ Hactive) | exact (T2 (S2 eq_refl))].
  - destruct Hin as [->|Hin]; [contradiction|].
    exact (IH _ _ _ Hrec v Hin).
Qed.

Lemma rev_state_eta (s : State) :
  {| oracle := oracle s; owner := owner s;
     subscriptions := subscriptions s; flightDelays := flightDelays s;
     allSubscribers := allSubscribers s;
     allUsersWithFlights := allUsersWithFlights s; balance := balance s |} = s.
Proof. destruct s. reflexivity. Qed.

Lemma rev_setSubscription_same (s : State) (u : N) :
  is_Some (subscriptions s !! u) ->
  setSubscription s u (subscriptionOf s u) = s.
Proof.
  intros [sub Hsub]. unfold setSubscription, subscriptionOf.
  rewrite Hsub. simpl. rewrite (insert_id _ _ _ Hsub). apply rev_state_eta.
Qed.

Lemma scanUsers_fixpoint (now : N) (fid : string) (s : State) :
  forall us : list N,
    (forall v, In v us ->
       is_Some (subscriptions s !! v) /\
       Forall (fun p => flightTimestamp p + DELAY_THRESHOLD <= MAX_UINT256)
              (policies (subscriptionOf s v)) /\
       (isActive (subscriptionOf s v) = true ->
        now < startTime (subscriptionOf s v) + SUBSCRIPTION_DURATION
              <= MAX_UINT256 /\
        Forall (fun p => owedb now fid p = false)
               (policies (subscriptionOf s v)))) ->
    scanUsers now fid us s = Ok (s, []).
Proof.
  induction us as [|w us IH]; intros Hall; [reflexivity|].
  destruct (Hall w (or_introl eq_refl)) as (Hsome & Hrange & Hon).
  assert (Hrest : scanUsers now fid us s = Ok (s, [])).
  { apply IH. intros v Hv. apply Hall. right. exact Hv. }
  assert (Hact : stillActive now (subscriptionOf s w)
                 = Ok (isActive (subscriptionOf s w))).
  { destruct (isActive (subscriptionOf s w)) eqn:Hflag.
    - destruct (Hon eq_refl) as [Hlive _].
      exact (stillActive_live _ _ Hflag Hlive).
    - unfold stillActive. rewrite Hflag. reflexivity. }
  simpl. rewrite Hact. simpl.
  assert (E : expire (isActive (subscriptionOf s w)) (subscriptionOf s w)
              = subscriptionOf s w).
  { unfold expire. rewrite andb_negb_r. reflexivity. }
  rewrite E.
  rewrite (rev_payPolicies_settled now fid w _ _ (balance s) Hrange
             (fun Ha => proj2 (Hon Ha))). simpl.
  assert (E1 : withPolicies (subscriptionOf s w) (policies (subscriptionOf s w))
               = subscriptionOf s w).
  { destruct (subscriptionOf s w). reflexivity. }
  rewrite E1, (rev_setSubscription_same _ _ Hsome).
  assert (E2 : setBalance s (balance s) = s) by apply rev_state_eta.
  rewrite E2, Hrest. reflexivity.
Qed.

Lemma rev_updateFlightStatus_again (sender now : N) (fid : string) (d : bool)
    (s s' : State) (log : list Transfer) :
  updateFlightStatus sender now fid d s = Ok (s', log) ->
  updateFlightStatus sender now fid d s' = Ok (s', []).
Proof.
  intros H. apply rev_updateFlightStatus_ok_inv in H as (Hs & Hd).
  unfold updateFlightStatus.
  assert (Hrec : forall s0, flightDelays s0 = <[fid := d]> (flightDelays s) ->
                            recordStatus s0 fid d = s0).
  { intros s0 E. unfold recordStatus. rewrite E, insert_insert_eq, <- E.
    apply rev_state_eta. }
  destruct d.
  - destruct (scanUsers_spec _ _ _ _ _ _ Hd) as (_ & K2 & K3 & _ & K5 & _).
    simpl in K2, K3, K5. rewrite K2, Hs, N.eqb_refl. simpl.
    rewrite (Hrec s' K3), K5.
    apply scanUsers_fixpoint. intros v Hv.
    split; [exact (scanUsers_present _ _ _ _ _ _ Hd v (or_introl Hv))|].
    exact (scanUsers_settles _ _ _ _ _ _ Hd v Hv).
  - destruct Hd as [-> _]. simpl. rewrite Hs, N.eqb_refl. simpl.
    rewrite (Hrec (recordStatus s fid false) eq_refl). reflexivity.
Qed.

End RevAgain.

(** X17.  Reporting again what was just reported changes nothing: when
    an [updateFlightStatus] has gone through, the same call at the same
    block time on the resulting ledger goes through as well, makes no
    transfer and leaves that ledger exactly as it is. *)
Theorem report_is_idempotent :
  (forall (sender now : N) (fid : string) (d : bool) (s s' : Base.State)
          (log : list Transfer),
     Base.updateFlightStatus sender now fid d s = Ok (s', log) ->
     Base.updateFlightStatus sender now fid d s' = Ok (s', [])) /\
  (forall (sender now : N) (fid : string) (d : bool) (s s' : Rev.State)
          (log : list Transfer),
     Rev.updateFlightStatus sender now fid d s = Ok (s', log) ->
     Rev.updateFlightStatus sender now fid d s' = Ok (s', [])).
Proof.
  split.
  - exact BaseAgain.updateFlightStatus_again.
  - exact RevAgain.rev_updateFlightStatus_again.
Qed.

Lemma report_is_idempotent_witness :
  Base.updateFlightStatus 2 (t0 + DELAY_THRESHOLD) "FL1" true
    (fst (Base.transact 2 (t0 + DELAY_THRESHOLD)
            (Base.UpdateFlightStatus "FL1" true) baseFunded))
  = Ok (fst (Base.transact 2 (t0 + DELAY_THRESHOLD)
               (Base.UpdateFlightStatus "FL1" true) baseFunded), []) /\
  Rev.updateFlightStatus 2 (t0 + DELAY_THRESHOLD) "FL1" true
    (fst (Rev.transact 2 (t0 + DELAY_THRESHOLD)
            (Rev.UpdateFlightStatus "FL1" true) revFunded))
  = Ok (fst (Rev.transact 2 (t0 + DELAY_THRESHOLD)
               (Rev.UpdateFlightStatus "FL1" true) revFunded), []).
Proof.
  destruct report_is_idempotent as (B & R).
  split.
  - apply (B 2 (t0 + DELAY_THRESHOLD) "FL1" true baseFunded _ [(3, PAYOUT)]).
    vm_compute. reflexivity.
  - apply (R 2 (t0 + DELAY_THRESHOLD) "FL1" true revFunded _ [(3, PAYOUT)]).
    vm_compute. reflexivity.
Defined.

(** ** A pool that covers what is owed *)

Lemma owedTotal_le (now : N) (fid : string) (f g : N -> list Policy)
    (us : list N) :
  (forall u, (countOwed now fid (f u) <= countOwed now fid (g u))%nat) ->
  (owedTotal now fid f us <= owedTotal now fid g us)%nat.
Proof.
  intros H. induction us as [|u us IH]; simpl; [lia|].
  specialize (H u). lia.
Qed.

Module BaseFunded.
Import Base BaseFacts BaseMore.

Lemma payPolicies_funded (now : N) (fid : string) (u : N) (ps : list Policy) :
  forall bal : N,
    Forall (fun p => flightTimestamp p + DELAY_THRESHOLD <= MAX_UINT256) ps ->
    PAYOUT * N.of_nat (countOwed now fid ps) <= bal ->
    exists ps' log,
      payPolicies now fid u ps bal
      = Ok (ps', bal - PAYOUT * N.of_nat (countOwed now fid ps), log).
Proof.
  unfold countOwed.
  induction ps as [|p ps IH]; intros bal Hrange Hbal.
  - exists [], []. simpl. f_equal. f_equal. f_equal. lia.
  - inversion Hrange as [|? ? Hp Hrest]; subst. simpl in *.
    destruct (policyDue_in_range now fid p Hp) as [[Ho ->]|[Hno ->]]; simpl.
    + apply owedb_owed in Ho. rewrite Ho in *. simpl in Hbal.
      destruct (N.leb_spec PAYOUT bal) as [Hle|Hgt]; [|lia]. simpl.
      destruct (IH (bal - PAYOUT) Hrest ltac:(lia)) as (ps' & log & ->). simpl.
      eexists _, _. f_equal. f_equal. f_equal. simpl. lia.
    + assert (Hb : owedb now fid p = false).
      { destruct (owedb now fid p) eqn:E; [|reflexivity].
        apply owedb_owed in E. contradiction. }
      rewrite Hb in *.
      destruct (IH bal Hrest Hbal) as (ps' & log & ->). simpl.
      eexists _, _. reflexivity.
Qed.

Lemma scanSubscribers_funded (now : N) (fid : string) (us : list N) :
  forall s : State,
    (forall v, subscriptionInRange (subscriptionOf s v)) ->
    PAYOUT * N.of_nat (owedTotal now fid
                         (fun u => policies (subscriptionOf s u)) us)
    <= balance s ->
    is_ok (scanSubscribers now fid us s) = true.
Proof.
  induction us as [|w us IH]; intros s Hrange Hbal; [reflexivity|].
  simpl in Hbal |- *. destruct (Hrange w) as [Hstart Hpols].
  rewrite (checked_add_in_range _ _ Hstart). simpl.
  destruct (startTime (subscriptionOf s w) + SUBSCRIPTION_DURATION <=? now).
  - apply IH.
    + intros v. rewrite subscriptionOf_setSubscription.
      destruct (decide (w = v)) as [->|]; [|apply Hrange].
      split; [exact Hstart | exact Hpols].
    + simpl. etransitivity; [|exact Hbal].
      apply N.mul_le_mono_l.
      assert (Hle : (owedTotal now fid
                (fun u => policies (subscriptionOf
                   (setSubscription s w (deactivate (subscriptionOf s w))) u)) us
              <= owedTotal now fid (fun u => policies (subscriptionOf s u)) us)%nat).
      { apply owedTotal_le. intros u. rewrite subscriptionOf_setSubscription.
        destruct (decide (w = u)) as [->|]; simpl; lia. }
      lia.
  - destruct (payPolicies_funded now fid w _ (balance s) Hpols ltac:(lia))
      as (ps' & log & Hpay).
    rewrite Hpay. simpl.
    destruct (payPolicies_spec _ _ _ _ _ _ _ _ Hpay) as (P1 & _).
    destruct (payPolicies_count _ _ _ _ _ _ _ _ Hpay) as [_ C2].
    match goal with
    | |- is_ok (bind (scanSubscribers now fid us ?s1) _) = true =>
        assert (Hok : is_ok (scanSubscribers now fid us s1) = true)
    end.
    { apply IH.
      - intros v. rewrite subscriptionOf_setBalance, subscriptionOf_setSubscription.
        destruct (decide (w = v)) as [->|]; [|apply Hrange].
        split; [exact Hstart|]. simpl.
        clear -P1 Hpols. induction P1 as [|p p' ps qs (_ & Ht & _) _ IHP];
          [constructor|].
        inversion Hpols; subst. constructor; [rewrite Ht; assumption | auto].
      - simpl.
        assert (Hle : (owedTotal now fid
                  (fun u => policies (subscriptionOf
                     (setBalance (setSubscription s w
                        (withPolicies (subscriptionOf s w) ps'))
                        (balance s - PAYOUT * N.of_nat
                           (countOwed now fid (policies (subscriptionOf s w))))) u))
                  us
                <= owedTotal now fid (fun u => policies (subscriptionOf s u)) us)%nat).
        { apply owedTotal_le. intros u.
          rewrite subscriptionOf_setBalance, subscriptionOf_setSubscription.
          destruct (decide (w = u)) as [->|]; simpl; lia. }
        nia. }
    destruct (scanSubscribers now fid us _) as [[s2 l2]|e]; [reflexivity|discriminate].
Qed.

End BaseFunded.

Module RevFunded.
Import Rev RevFacts RevMore.

Lemma rev_payPolicies_funded (now : N) (fid : string) (u : N) (active : bool)
    (ps : list Policy) :
  forall bal : N,
    Forall (fun p => flightTimestamp p + DELAY_THRESHOLD <= MAX_UINT256) ps ->
    PAYOUT * N.of_nat (countOwed now fid ps) <= bal ->
    exists ps' bal' log,
      payPolicies now fid u active ps bal = Ok (ps', bal', log) /\
      bal - PAYOUT * N.of_nat (countOwed now fid ps) <= bal' /\
      (countOwed now fid ps' <= countOwed now fid ps)%nat.
Proof.
  unfold countOwed.
  induction ps as [|p ps IH]; intros bal Hrange Hbal.
  - exists [], bal, []. simpl. split; [reflexivity | split; lia].
  - inversion Hrange as [|? ? Hp Hrest]; subst. simpl in *.
    rewrite (checked_add_in_range _ _ Hp). simpl.
    fold (owedb now fid p).
    destruct (owedb now fid p) eqn:Ho; simpl in *.
    + destruct active; simpl.
      * destruct (N.leb_spec PAYOUT bal) as [Hle|Hgt]; [|lia]. simpl.
        destruct (IH (bal - PAYOUT) Hrest ltac:(lia)) as (ps' & bal' & log & -> & K1 & K2).
        simpl. eexists _, _, _. split; [reflexivity|]. simpl.
        rewrite owedb_markPaid. split; lia.
      * destruct (IH bal Hrest ltac:(lia)) as (ps' & bal' & log & -> & K1 & K2).
        simpl. eexists _, _, _. split; [reflexivity|]. simpl.
        rewrite Ho. simpl. split; lia.
    + destruct (IH bal Hrest Hbal) as (ps' & bal' & log & -> & K1 & K2).
      simpl. eexists _, _, _. split; [reflexivity|]. simpl.
      rewrite Ho. split; lia.
Qed.

Lemma scanUsers_funded (now : N) (fid : string) (us : list N) :
  forall s : State,
    (forall v, subscriptionInRange (subscriptionOf s v)) ->
    PAYOUT * N.of_nat (owedTotal now fid
                         (fun u => policies (subscriptionOf s u)) us)
    <= balance s ->
    is_ok (scanUsers now fid us s) = true.
Proof.
  induction us as [|w us IH]; intros s Hrange Hbal; [reflexivity|].
  simpl in Hbal |- *. destruct (Hrange w) as [Hstart Hpols].
  rewrite (stillActive_in_range _ _ Hstart). simpl.
  set (active := isActive (subscriptionOf s w)
                 && (now <? startTime (subscriptionOf s w) + SUBSCRIPTION_DURATION)).
  destruct (expire_facts active (subscriptionOf s w)) as (X1 & X2 & _).
  rewrite X2.
  destruct (rev_payPolicies_funded now fid w active _ (balance s) Hpols ltac:(lia))
    as (ps' & bal' & log & Hpay & Hb & Hc).
  rewrite Hpay. simpl.
  destruct (rev_payPolicies_spec _ _ _ _ _ _ _ _ _ Hpay) as (P1 & _).
  match goal with
  | |- is_ok (bind (scanUsers now fid us ?s1) _) = true =>
      assert (Hok : is_ok (scanUsers now fid us s1) = true)
  end.
  { apply IH.
    - intros v. rewrite scanUsers_head.
      destruct (decide (w = v)) as [->|]; [|apply Hrange].
      split; [simpl; rewrite X1; exact Hstart|]. simpl.
      clear -P1 Hpols. induction P1 as [|p p' ps qs (_ & Ht & _) _ IHP];
        [constructor|].
      inversion Hpols; subst. constructor; [rewrite Ht; assumption | auto].
    - simpl.
      assert (Hle : (owedTotal now fid
                (fun u => policies (subscriptionOf
                   (setBalance (setSubscription s w
                      (withPolicies (expire active (subscriptionOf s w)) ps')) bal') u))
                us
              <= owedTotal now fid (fun u => policies (subscriptionOf s u)) us)%nat).
      { apply owedTotal_le. intros u. rewrite scanUsers_head.
        destruct (decide (w = u)) as [->|]; simpl; lia. }
      nia. }
  destruct (scanUsers now fid us _) as [[s2 l2]|e]; [reflexivity|discriminate].
Qed.

End RevFunded.

(** X18.  A report by the oracle goes through whenever the stored
    timestamps are in range, the pool holds [PAYOUT] for every owed
    policy of the listed addresses (an address counting as often as it
    is listed), and every listed address accepts the ether sent to it,
    as an externally owned account does: nothing else can make it
    fail. *)
Theorem report_succeeds_when_funded :
  (forall (accepts : nat -> N -> bool) (now : N) (fid : string) (d : bool)
          (s : Base.State),
     (forall v, subscriptionInRange (Base.subscriptionOf s v)) ->
     PAYOUT * N.of_nat (owedTotal now fid
                          (fun u => policies (Base.subscriptionOf s u))
                          (Base.allSubscribers s))
     <= Base.balance s ->
     (forall i u, In u (Base.allSubscribers s) -> accepts i u = true) ->
     is_ok (Base.updateFlightStatusTo accepts (Base.oracle s) now fid d s) = true) /\
  (forall (accepts : nat -> N -> bool) (now : N) (fid : string) (d : bool)
          (s : Rev.State),
     (forall v, subscriptionInRange (Rev.subscriptionOf s v)) ->
     PAYOUT * N.of_nat (owedTotal now fid
                          (fun u => policies (Rev.subscriptionOf s u))
                          (Rev.allUsersWithFlights s))
     <= Rev.balance s ->
     (forall i u, In u (Rev.allUsersWithFlights s) -> accepts i u = true) ->
     is_ok (Rev.updateFlightStatusTo accepts (Rev.oracle s) now fid d s) = true).
Proof.
  split.
  - intros accepts now fid d s Hrange Hbal Hacc.
    destruct (BaseMore.updateFlightStatusTo_sim accepts (Base.oracle s) now fid d s)
      as [->|(_ & _ & i & u & Hin & Hno)].
    2:{ rewrite (Hacc i u Hin) in Hno. discriminate. }
    unfold Base.updateFlightStatus.
    rewrite N.eqb_refl. simpl. destruct d; [|reflexivity].
    exact (BaseFunded.scanSubscribers_funded now fid _
             (Base.recordStatus s fid true) Hrange Hbal).
  - intros accepts now fid d s Hrange Hbal Hacc.
    destruct (RevMore.rev_updateFlightStatusTo_sim accepts (Rev.oracle s) now fid d s)
      as [->|(_ & _ & i & u & Hin & Hno)].
    2:{ rewrite (Hacc i u Hin) in Hno. discriminate. }
    unfold Rev.updateFlightStatus.
    rewrite N.eqb_refl. simpl. destruct d; [|reflexivity].
    exact (RevFunded.scanUsers_funded now fid _
             (Rev.recordStatus s fid true) Hrange Hbal).
Qed.

Lemma report_succeeds_when_funded_witness :
  is_ok (Base.updateFlightStatusTo (fun _ _ => true) 2 (t0 + DELAY_THRESHOLD)
           "FL1" true baseFunded) = true /\
  is_ok (Rev.updateFlightStatusTo (fun _ _ => true) 2 (t0 + DELAY_THRESHOLD)
           "FL1" true revFunded) = true.
Proof.
  destruct report_succeeds_when_funded as (B & R).
  split.
  - apply (B (fun _ _ => true) (t0 + DELAY_THRESHOLD) "FL1" true baseFunded).
    + intros v. unfold Base.subscriptionOf.
      replace (Base.subscriptions baseFunded) with (Base.subscriptions base3)
        by (vm_compute; reflexivity).
      exact (base3_in_range v).
    + vm_compute. discriminate.
    + intros i u _. reflexivity.
  - apply (R (fun _ _ => true) (t0 + DELAY_THRESHOLD) "FL1" true revFunded).
    + intros v. unfold Rev.subscriptionOf.
      replace (Rev.subscriptions revFunded) with (Rev.subscriptions rev3)
        by (vm_compute; reflexivity).
      exact (rev3_in_range v).
    + vm_compute. discriminate.
    + intros i u _. reflexivity.
Defined.

(** A funded pool is not enough when a recipient refuses: with
    subscriber 3 a contract that rejects ether, the report that would
    pay "FL1" reverts. *)
Example refusing_recipient_blocks_report :
  Base.updateFlightStatusTo (fun _ u => negb (u =? 3)) 2 (t0 + DELAY_THRESHOLD)
    "FL1" true baseFunded = Revert TransferRefused /\
  Rev.updateFlightStatusTo (fun _ u => negb (u =? 3)) 2 (t0 + DELAY_THRESHOLD)
    "FL1" true revFunded = Revert TransferRefused.
Proof. split; vm_compute; reflexivity. Qed.
